(** * Snowflake streaming: typed column buffers, statistics and converters

    A shallow embedding of the [streaming] package's user-data converters
    (typedBuffer, statsBuffer users, and the [dataConverter]
    implementations), followed by the properties established about them.

    Conventions.
    - Go's [int], [int64] are 64-bit two's-complement integers, [int32] is
      32-bit; they are held as [Z] with the wrap-around written out.
    - A Go [string] or [[]byte] is a [list byte].
    - [float64] is an IEEE 754 value, held as [spec_float].
    - A Go method that mutates its receiver becomes a function into the
      new value; an index out of range is a panic ([None]). *)

From Stdlib Require Import ZArith Lia Bool List.
From Stdlib Require Import Strings.Byte Strings.String.
From Stdlib Require Import Floats.SpecFloat.
From stdpp Require Import base tactics option list.

#[local] Open Scope Z_scope.

(* ===================================================================== *)
(** ** Machine integers *)
(* ===================================================================== *)

Module GoInt.

(** Two's-complement wrap of a mathematical integer into [bits] bits. *)
Definition wrap (bits : Z) (z : Z) : Z :=
  (z + 2 ^ (bits - 1)) mod 2 ^ bits - 2 ^ (bits - 1).

Definition wrap32 : Z -> Z := wrap 32.
Definition wrap64 : Z -> Z := wrap 64.

Definition min_int32 : Z := - 2 ^ 31.
Definition max_int32 : Z := 2 ^ 31 - 1.
Definition min_int64 : Z := - 2 ^ 63.
Definition max_int64 : Z := 2 ^ 63 - 1.

Definition in_int32 (z : Z) : Prop := min_int32 <= z <= max_int32.
Definition in_int64 (z : Z) : Prop := min_int64 <= z <= max_int64.

(** [len(v)] of a slice or string, as a Go [int]. *)
Definition len {A} (l : list A) : Z := Z.of_nat (length l).

End GoInt.

(* ===================================================================== *)
(** ** Byte sequences: [bytes.Compare] and [utf8.Valid] *)
(* ===================================================================== *)

Module Bytes.

Definition code (b : byte) : Z := Z.of_N (Byte.to_N b).

(** [bytes.Compare]: -1, 0 or +1 by lexicographic order on the bytes. *)
Fixpoint Compare (a b : list byte) : Z :=
  match a, b with
  | [], [] => 0
  | [], _ :: _ => -1
  | _ :: _, [] => 1
  | x :: a', y :: b' =>
      if code x <? code y then -1
      else if code y <? code x then 1
      else Compare a' b'
  end.

(** Lexicographic order, stated on its own. *)
Inductive lex_le : list byte -> list byte -> Prop :=
| lex_nil b : lex_le [] b
| lex_lt x y a b : code x < code y -> lex_le (x :: a) (y :: b)
| lex_eq x a b : lex_le a b -> lex_le (x :: a) (x :: b).

Definition between (lo hi : Z) (b : byte) : bool :=
  (lo <=? code b) && (code b <=? hi).

Definition cont : byte -> bool := between 128 191.

(** [utf8.Valid]: the well-formed byte sequences of RFC 3629 (Go's
    [first]/[acceptRanges] tables): no overlong forms, no surrogates,
    nothing above U+10FFFF. *)
Fixpoint Valid (p : list byte) : bool :=
  match p with
  | [] => true
  | b0 :: r0 =>
      if code b0 <? 128 then Valid r0
      else
        match r0 with
        | [] => false
        | b1 :: r1 =>
            if between 194 223 b0 then cont b1 && Valid r1
            else
              match r1 with
              | [] => false
              | b2 :: r2 =>
                  if between 224 239 b0 then
                    (if code b0 =? 224 then between 160 191 b1
                     else if code b0 =? 237 then between 128 159 b1
                     else cont b1)
                    && cont b2 && Valid r2
                  else
                    match r2 with
                    | [] => false
                    | b3 :: r3 =>
                        if between 240 244 b0 then
                          (if code b0 =? 240 then between 144 191 b1
                           else if code b0 =? 244 then between 128 143 b1
                           else cont b1)
                          && cont b2 && cont b3 && Valid r3
                        else false
                    end
              end
        end
  end.

Definition of_string (s : string) : list byte := list_byte_of_string s.

End Bytes.

(* ===================================================================== *)
(** ** float64 and Go's built-in [min]/[max] *)
(* ===================================================================== *)

Module Float64.

Definition t : Type := spec_float.

Definition is_nan (x : t) : bool :=
  match x with S754_nan => true | _ => false end.

Definition is_neg_zero (x : t) : bool :=
  match x with S754_zero true => true | _ => false end.

Definition is_pos_zero (x : t) : bool :=
  match x with S754_zero false => true | _ => false end.

Definition lt (x y : t) : bool :=
  match SFcompare x y with Some Lt => true | _ => false end.

(** Built-in [min] on floats: NaN if either argument is NaN, the
    smaller argument otherwise, and negative zero below positive zero. *)
Definition min (x y : t) : t :=
  if is_nan x then x
  else if is_nan y then y
  else if lt y x then y
  else if lt x y then x
  else if is_neg_zero y then y
  else x.

(** Built-in [max] on floats, symmetrically. *)
Definition max (x y : t) : t :=
  if is_nan x then x
  else if is_nan y then y
  else if lt x y then y
  else if lt y x then x
  else if is_pos_zero y then y
  else x.

(** The order [min] and [max] realise on values that are not NaN: IEEE
    comparison, refined by [-0 < +0]. *)
Definition le (x y : t) : bool :=
  match SFcompare x y with
  | Some Lt => true
  | Some Eq => negb (is_pos_zero x && is_neg_zero y)
  | _ => false
  end.

Definition zero : t := S754_zero false.

End Float64.

(* ===================================================================== *)
(** ** [time.Time] *)
(* ===================================================================== *)

Module Time.

(** A location is UTC or a fixed offset, in seconds east of UTC. *)
Inductive Location := UTC | FixedZone (offset : Z).

Definition offset (l : Location) : Z :=
  match l with UTC => 0 | FixedZone o => o end.

(** An instant: seconds and nanoseconds since the Unix epoch, and the
    location it is presented in. *)
Record t := mk { sec : Z; nsec : Z; loc : Location }.

(** [time.Time{}]: 0001-01-01T00:00:00Z. *)
Definition zero : t := {| sec := -62135596800; nsec := 0; loc := UTC |}.

Definition In (x : t) (l : Location) : t :=
  {| sec := sec x; nsec := nsec x; loc := l |}.
Definition toUTC (x : t) : t := In x UTC.

Definition Unix (x : t) : Z := sec x.

(** Seconds since the epoch on the wall clock of the location. *)
Definition wall (x : t) : Z := sec x + offset (loc x).

Definition secondsOfDay (x : t) : Z := wall x mod 86400.
Definition Hour (x : t) : Z := secondsOfDay x / 3600.
Definition Minute (x : t) : Z := (secondsOfDay x mod 3600) / 60.
Definition Second (x : t) : Z := secondsOfDay x mod 60.
Definition Nanosecond (x : t) : Z := nsec x.

(** Year of the proleptic Gregorian calendar (astronomical numbering,
    with a year 0) of the day [days] days after 1970-01-01. *)
Definition yearOfDays (days : Z) : Z :=
  let z := days + 719468 in
  let era := z / 146097 in
  let doe := z - era * 146097 in
  let yoe := (doe - doe / 1460 + doe / 36524 - doe / 146096) / 365 in
  let doy := doe - (365 * yoe + yoe / 4 - yoe / 100) in
  let mp := (5 * doy + 2) / 153 in
  yoe + era * 400 + (if 10 <=? mp then 1 else 0).

Definition Year (x : t) : Z := yearOfDays (wall x / 86400).

(** [time.Hour.Nanoseconds()] and its siblings. *)
Definition Hour_Nanoseconds : Z := 3600000000000.
Definition Minute_Nanoseconds : Z := 60000000000.
Definition Second_Nanoseconds : Z := 1000000000.

End Time.

(* ===================================================================== *)
(** ** Errors and results *)
(* ===================================================================== *)

(** The error values the converters return.  [fmt.Errorf] messages keep
    the values they print as arguments. *)
Inductive error :=
| errNullValue
| errValueTooLong (length max : Z)
| errInvalidUTF8
| errNotJSONArray
| errNotJSONObject
| errTimestampParse (s : list byte)
| errTimestampPrecision (t : Time.t) (v : Z) (precision : Z)
| errDateOutOfRange (year : Z)
| errPrecisionOverflow (v : Z) (precision : Z)
| errForeign (code : nat).

(** A Go [(value, error)] pair. *)
Inductive result (A : Type) :=
| Ok (a : A)
| Err (e : error).
Arguments Ok {A} a.
Arguments Err {A} e.

(* ===================================================================== *)
(** ** Package [int128] *)
(* ===================================================================== *)

Module int128.

(** Modelled from the spec: package [int128] is not part of the
    sources at hand.  [Num] is "a 128-bit two's-complement integer
    interpreted as value / 10^scale"; it is held as the integer. *)
Definition Num : Type := Z.

Definition MinInt128 : Z := - 2 ^ 127.
Definition MaxInt128 : Z := 2 ^ 127 - 1.
Definition in_range (v : Num) : Prop := MinInt128 <= v <= MaxInt128.

(** Modelled from the spec: [FromInt64] and [FromUint64] (package
    [int128] is missing) construct the number with the given value. *)
Definition FromInt64 (v : Z) : Num := v.
Definition FromUint64 (v : Z) : Num := v.

(** Modelled from the spec: [Min]/[Max] (package [int128] is missing),
    comparison of two numbers of a common scale. *)
Definition Min (a b : Num) : Num := Z.min a b.
Definition Max (a b : Num) : Num := Z.max a b.

(** Modelled from the spec: [FitsInPrecision] (package [int128] is
    missing): the value has at most [p] decimal digits. *)
Definition FitsInPrecision (v : Num) (p : Z) : bool := Z.abs v <? 10 ^ p.

(** Modelled from the spec: [Rescale] (package [int128] is missing)
    "changes the implied decimal scale, fails if the result would not
    fit in the target precision"; the encoded integer is the value
    times [10^scale]. *)
Definition Rescale (v : Num) (precision scale : Z) : result Num :=
  let r := v * 10 ^ scale in
  if FitsInPrecision r precision then Ok r
  else Err (errPrecisionOverflow r precision).

(** Modelled from the spec: [ToInt64] (package [int128] is missing):
    the low 64 bits, as a signed integer. *)
Definition ToInt64 (v : Num) : Z := GoInt.wrap64 v.

Definition byte_of_Z (z : Z) : byte :=
  match Byte.of_N (Z.to_N (z mod 256)) with
  | Some b => b
  | None => x00
  end.

(** The [n] low-order bytes of [z], most significant first. *)
Fixpoint be_bytes (n : nat) (z : Z) : list byte :=
  match n with
  | O => []
  | S n' => be_bytes n' (z / 256) ++ [byte_of_Z z]
  end.

(** Modelled from the spec: [ToBigEndian] (package [int128] is
    missing): the two's-complement value as big-endian bytes.  The spec
    sizes them "by precision class: 4, 8, or 16 bytes"; the method is
    called without a precision, and the full 16 bytes are taken. *)
Definition ToBigEndian (v : Num) : list byte := be_bytes 16 v.

(** Big-endian bytes read back as an unsigned, then signed, integer. *)
Definition be_unsigned (bs : list byte) : Z :=
  fold_left (fun acc b => acc * 256 + Bytes.code b) bs 0.

Definition be_signed (bs : list byte) : Z :=
  GoInt.wrap (8 * GoInt.len bs) (be_unsigned bs).

End int128.

(** Modelled from the spec: [pow10TableInt64], the "precomputed
    power-of-ten table" of the package, is declared outside the sources at
    hand; it holds the powers of ten that fit an [int64]. *)
Definition pow10TableInt64 : list Z :=
  map (fun i => 10 ^ Z.of_nat i) (seq 0 19).

(** Indexing a Go slice: a panic ([None]) outside its bounds. *)
Definition index {A} (l : list A) (i : Z) : option A :=
  if (0 <=? i) && (i <? GoInt.len l) then l !! Z.to_nat i else None.

(* ===================================================================== *)
(** ** Package [parquet]: cell values *)
(* ===================================================================== *)

Module parquet.

Inductive Kind :=
| Null
| Boolean (b : bool)
| Int32 (v : Z)
| Int64 (v : Z)
| Double (v : Float64.t)
| ByteArray (v : list byte)
| FixedLenByteArray (v : list byte).

Record Value := mkValue {
  kind : Kind;
  repetitionLevel : Z;
  definitionLevel : Z;
  column : Z
}.

Definition plain (k : Kind) : Value :=
  {| kind := k; repetitionLevel := 0; definitionLevel := 0; column := -1 |}.

Definition NullValue : Value := plain Null.
Definition BooleanValue (b : bool) : Value := plain (Boolean b).
Definition Int32Value (v : Z) : Value := plain (Int32 v).
Definition Int64Value (v : Z) : Value := plain (Int64 v).
Definition DoubleValue (v : Float64.t) : Value := plain (Double v).
Definition ByteArrayValue (v : list byte) : Value := plain (ByteArray v).
Definition FixedLenByteArrayValue (v : list byte) : Value :=
  plain (FixedLenByteArray v).

Definition Level (v : Value) (rep def col : Z) : Value :=
  {| kind := kind v; repetitionLevel := rep; definitionLevel := def;
     column := col |}.

(** The integer a cell stands for, whatever width it is stored in. *)
Definition logical (v : Value) : option Z :=
  match kind v with
  | Int32 z | Int64 z => Some z
  | FixedLenByteArray bs => Some (int128.be_signed bs)
  | _ => None
  end.

End parquet.

(* ===================================================================== *)
(** ** typedBuffer *)
(* ===================================================================== *)

Record typedBufferImpl := mkBuffer {
  matrix : list parquet.Value;
  columnIndex : Z;
  rowWidth : Z;
  currentRow : Z
}.

(** The cell the next write goes to, in [int] arithmetic. *)
Definition cellIndex (b : typedBufferImpl) : Z :=
  GoInt.wrap64 (GoInt.wrap64 (currentRow b * rowWidth b) + columnIndex b).

Definition hasRoom (b : typedBufferImpl) : Prop :=
  0 <= cellIndex b < GoInt.len (matrix b).

Definition typedBufferImpl_WriteValue
    (b : typedBufferImpl) (v : parquet.Value) : option typedBufferImpl :=
  let i := cellIndex b in
  if (0 <=? i) && (i <? GoInt.len (matrix b)) then
    Some {| matrix := <[Z.to_nat i := v]> (matrix b);
            columnIndex := columnIndex b;
            rowWidth := rowWidth b;
            currentRow := GoInt.wrap64 (currentRow b + 1) |}
  else None.

Definition typedBufferImpl_WriteNull (b : typedBufferImpl) :=
  typedBufferImpl_WriteValue b parquet.NullValue.

Definition typedBufferImpl_WriteInt128 (b : typedBufferImpl) (v : int128.Num) :=
  typedBufferImpl_WriteValue b
    (parquet.Level (parquet.FixedLenByteArrayValue (int128.ToBigEndian v))
       0 1 (columnIndex b)).

Definition typedBufferImpl_WriteBool (b : typedBufferImpl) (v : bool) :=
  typedBufferImpl_WriteValue b
    (parquet.Level (parquet.BooleanValue v) 0 1 (columnIndex b)).

Definition typedBufferImpl_WriteFloat64 (b : typedBufferImpl) (v : Float64.t) :=
  typedBufferImpl_WriteValue b
    (parquet.Level (parquet.DoubleValue v) 0 1 (columnIndex b)).

Definition typedBufferImpl_WriteBytes (b : typedBufferImpl) (v : list byte) :=
  typedBufferImpl_WriteValue b
    (parquet.Level (parquet.ByteArrayValue v) 0 1 (columnIndex b)).

Definition typedBufferImpl_Prepare (b : typedBufferImpl)
    (m : list parquet.Value) (col width : Z) : typedBufferImpl :=
  {| matrix := m; columnIndex := col; rowWidth := width; currentRow := 0 |}.

Definition typedBufferImpl_Reset (b : typedBufferImpl) : typedBufferImpl :=
  typedBufferImpl_Prepare b [] 0 0.

Definition int64Buffer_WriteInt128 (b : typedBufferImpl) (v : int128.Num) :=
  typedBufferImpl_WriteValue b
    (parquet.Level (parquet.Int64Value (int128.ToInt64 v))
       0 1 (columnIndex b)).

Definition int32Buffer_WriteInt128 (b : typedBufferImpl) (v : int128.Num) :=
  typedBufferImpl_WriteValue b
    (parquet.Level (parquet.Int32Value (GoInt.wrap32 (int128.ToInt64 v)))
       0 1 (columnIndex b)).

(** The [typedBuffer] interface: the generic buffer and the two structs
    that embed it and override [WriteInt128]. *)
Inductive typedBuffer :=
| genericBuffer (b : typedBufferImpl)
| int64Buffer (b : typedBufferImpl)
| int32Buffer (b : typedBufferImpl).

Definition impl (tb : typedBuffer) : typedBufferImpl :=
  match tb with genericBuffer b | int64Buffer b | int32Buffer b => b end.

(** A method promoted from the embedded [typedBufferImpl]. *)
Definition promoted (f : typedBufferImpl -> option typedBufferImpl)
    (tb : typedBuffer) : option typedBuffer :=
  match tb with
  | genericBuffer b => genericBuffer <$> f b
  | int64Buffer b => int64Buffer <$> f b
  | int32Buffer b => int32Buffer <$> f b
  end.

Definition WriteNull : typedBuffer -> option typedBuffer :=
  promoted typedBufferImpl_WriteNull.
Definition WriteBool (tb : typedBuffer) (v : bool) :=
  promoted (fun b => typedBufferImpl_WriteBool b v) tb.
Definition WriteFloat64 (tb : typedBuffer) (v : Float64.t) :=
  promoted (fun b => typedBufferImpl_WriteFloat64 b v) tb.
Definition WriteBytes (tb : typedBuffer) (v : list byte) :=
  promoted (fun b => typedBufferImpl_WriteBytes b v) tb.
Definition WriteInt128 (tb : typedBuffer) (v : int128.Num) : option typedBuffer :=
  match tb with
  | genericBuffer b => genericBuffer <$> typedBufferImpl_WriteInt128 b v
  | int64Buffer b => int64Buffer <$> int64Buffer_WriteInt128 b v
  | int32Buffer b => int32Buffer <$> int32Buffer_WriteInt128 b v
  end.
Definition Prepare (tb : typedBuffer) (m : list parquet.Value) (col width : Z)
    : typedBuffer :=
  match tb with
  | genericBuffer b => genericBuffer (typedBufferImpl_Prepare b m col width)
  | int64Buffer b => int64Buffer (typedBufferImpl_Prepare b m col width)
  | int32Buffer b => int32Buffer (typedBufferImpl_Prepare b m col width)
  end.

(* ===================================================================== *)
(** ** statsBuffer *)
(* ===================================================================== *)

(** Modelled from the spec: the declaration of [statsBuffer] is outside
    the sources at hand; the fields are those the converters use, with
    [nullCount] a 64-bit counter and [maxStrLen] an [int]. *)
Record statsBuffer := mkStats {
  first : bool;
  nullCount : Z;
  minIntVal : int128.Num;
  maxIntVal : int128.Num;
  minRealVal : Float64.t;
  maxRealVal : Float64.t;
  minStrVal : list byte;
  maxStrVal : list byte;
  maxStrLen : Z
}.

(** Modelled from the spec: the statistics of a column at the start of a
    chunk: [first] is "true until the first non-null value is seen", and
    every other field is zero. *)
Definition freshStats : statsBuffer :=
  {| first := true; nullCount := 0;
     minIntVal := int128.FromInt64 0; maxIntVal := int128.FromInt64 0;
     minRealVal := Float64.zero; maxRealVal := Float64.zero;
     minStrVal := []; maxStrVal := []; maxStrLen := 0 |}.

(* ===================================================================== *)
(** ** Runtime values and the packages the converters call *)
(* ===================================================================== *)

(** A value of Go type [any], by dynamic type.  [VOther] stands for the
    dynamic types no converter names. *)
#[warnings="-register-all"] Inductive any :=
| VNil
| VBool (b : bool)
| VInt (v : Z)
| VInt8 (v : Z)
| VInt16 (v : Z)
| VInt32 (v : Z)
| VInt64 (v : Z)
| VUint (v : Z)
| VUint8 (v : Z)
| VUint16 (v : Z)
| VUint32 (v : Z)
| VUint64 (v : Z)
| VFloat32 (v : Float64.t)
| VFloat64 (v : Float64.t)
| VString (v : list byte)
| VBytes (v : list byte)
| VJSONNumber (v : list byte)
| VArray (v : list any)
| VObject (v : list (list byte * any))
| VTime (v : Time.t)
| VOther (tag : nat).

(** [val == nil] *)
Definition isNil (val : any) : bool :=
  match val with VNil => true | _ => false end.

(** Functions of other packages that the converters call and whose code
    is outside this source tree: the [bloblang] coercions, [gabs]'s JSON
    encoder, [time.ParseInLocation] at layout [time.RFC3339Nano], the
    parsing constructors of [int128], and the package's own
    [snowflakeTimestampInt]. *)
Class External := {
  ValueAsBool : any -> result bool;
  ValueAsInt64 : any -> result Z;
  ValueAsFloat64 : any -> result Float64.t;
  ValueAsBytes : any -> result (list byte);
  ValueAsTimestamp : any -> result Time.t;
  gabsBytes : any -> list byte;
  ParseInLocation : list byte -> Time.Location -> result Time.t;
  FromFloat32 : Float64.t -> Z -> Z -> result int128.Num;
  FromFloat64 : Float64.t -> Z -> Z -> result int128.Num;
  FromString : list byte -> Z -> Z -> result int128.Num;
  snowflakeTimestampInt : Time.t -> Z -> bool -> int128.Num
}.

(* ===================================================================== *)
(** ** The state a converter call works on *)
(* ===================================================================== *)

(** [stats *statsBuffer] and [buf typedBuffer], both mutated in place. *)
Record state := mkState { stats : statsBuffer; buf : typedBuffer }.

(** Where a run of statements stands: control goes on with a value, the
    function has returned (with [nil] or an error), or it has panicked. *)
Inductive res (A : Type) :=
| Cont (a : A) (s : state)
| Exit (e : option error) (s : state)
| Panic.
Arguments Cont {A} a s.
Arguments Exit {A} e s.
Arguments Panic {A}.

Definition M (A : Type) : Type := state -> res A.

#[global] Instance M_ret : MRet M := fun A a s => Cont a s.
#[global] Instance M_bind : MBind M := fun A B k m s =>
  match m s with
  | Cont a s' => k a s'
  | Exit e s' => Exit e s'
  | Panic => Panic
  end.

(** [return e] *)
Definition return_ {A} (e : option error) : M A := fun s => Exit e s.

(** [v, err := f(...); if err != nil { return err }] *)
Definition try {A} (r : result A) : M A :=
  match r with
  | Ok a => mret a
  | Err e => return_ (Some e)
  end.

(** A slice element, or the panic of an index out of range. *)
Definition orPanic {A} (o : option A) : M A :=
  match o with
  | Some a => mret a
  | None => fun _ => Panic
  end.

Definition getStats : M statsBuffer := fun s => Cont (stats s) s.

Definition modifyStats (f : statsBuffer -> statsBuffer) : M unit :=
  fun s => Cont tt {| stats := f (stats s); buf := buf s |}.

(** A method call on [buf]. *)
Definition callBuf (f : typedBuffer -> option typedBuffer) : M unit :=
  fun s =>
    match f (buf s) with
    | Some b => Cont tt {| stats := stats s; buf := b |}
    | None => Panic
    end.

(** Assignments to the fields of [*stats]. *)
Definition set_first (v : bool) (s : statsBuffer) : statsBuffer :=
  mkStats v (nullCount s) (minIntVal s) (maxIntVal s) (minRealVal s)
    (maxRealVal s) (minStrVal s) (maxStrVal s) (maxStrLen s).
Definition set_nullCount (v : Z) (s : statsBuffer) : statsBuffer :=
  mkStats (first s) v (minIntVal s) (maxIntVal s) (minRealVal s)
    (maxRealVal s) (minStrVal s) (maxStrVal s) (maxStrLen s).
Definition set_minIntVal (v : int128.Num) (s : statsBuffer) : statsBuffer :=
  mkStats (first s) (nullCount s) v (maxIntVal s) (minRealVal s)
    (maxRealVal s) (minStrVal s) (maxStrVal s) (maxStrLen s).
Definition set_maxIntVal (v : int128.Num) (s : statsBuffer) : statsBuffer :=
  mkStats (first s) (nullCount s) (minIntVal s) v (minRealVal s)
    (maxRealVal s) (minStrVal s) (maxStrVal s) (maxStrLen s).
Definition set_minRealVal (v : Float64.t) (s : statsBuffer) : statsBuffer :=
  mkStats (first s) (nullCount s) (minIntVal s) (maxIntVal s) v
    (maxRealVal s) (minStrVal s) (maxStrVal s) (maxStrLen s).
Definition set_maxRealVal (v : Float64.t) (s : statsBuffer) : statsBuffer :=
  mkStats (first s) (nullCount s) (minIntVal s) (maxIntVal s) (minRealVal s)
    v (minStrVal s) (maxStrVal s) (maxStrLen s).
Definition set_minStrVal (v : list byte) (s : statsBuffer) : statsBuffer :=
  mkStats (first s) (nullCount s) (minIntVal s) (maxIntVal s) (minRealVal s)
    (maxRealVal s) v (maxStrVal s) (maxStrLen s).
Definition set_maxStrVal (v : list byte) (s : statsBuffer) : statsBuffer :=
  mkStats (first s) (nullCount s) (minIntVal s) (maxIntVal s) (minRealVal s)
    (maxRealVal s) (minStrVal s) v (maxStrLen s).
Definition set_maxStrLen (v : Z) (s : statsBuffer) : statsBuffer :=
  mkStats (first s) (nullCount s) (minIntVal s) (maxIntVal s) (minRealVal s)
    (maxRealVal s) (minStrVal s) (maxStrVal s) v.

(** [stats.f = e], with [e] read off the current [*stats]. *)
Definition assign {V} (set : V -> statsBuffer -> statsBuffer)
    (e : statsBuffer -> V) : M unit :=
  modifyStats (fun s => set (e s) s).

(** [if cond { body }] *)
Definition when (cond : bool) (body : M unit) : M unit :=
  if cond then body else mret tt.

(* ===================================================================== *)
(** ** Blocks the converters share verbatim *)
(* ===================================================================== *)

(** The body of [if val == nil { ... }], the same in every converter:
<<
    if !c.nullable { return errNullValue }
    stats.nullCount++
    buf.WriteNull()
    return nil
>> *)
Definition nullBranch (nullable : bool) : M unit :=
  if negb nullable then return_ (Some errNullValue)
  else
    assign set_nullCount (fun s => GoInt.wrap64 (nullCount s + 1));;
    callBuf WriteNull;;
    return_ None.

(** The statistics block of the converters that produce an [int128.Num]
    ([boolConverter], [numberConverter], [timestampConverter],
    [timeConverter], [dateConverter]):
<<
    if stats.first {
        stats.minIntVal = v; stats.maxIntVal = v; stats.first = false
    } else {
        stats.minIntVal = int128.Min(stats.minIntVal, v)
        stats.maxIntVal = int128.Max(stats.maxIntVal, v)
    }
>> *)
Definition updateIntStats (v : int128.Num) : M unit :=
  s ← getStats;
  if first s then
    assign set_minIntVal (fun _ => v);;
    assign set_maxIntVal (fun _ => v);;
    assign set_first (fun _ => false)
  else
    assign set_minIntVal (fun s => int128.Min (minIntVal s) v);;
    assign set_maxIntVal (fun s => int128.Max (maxIntVal s) v).

(** The statistics block of [doubleConverter]. *)
Definition updateRealStats (v : Float64.t) : M unit :=
  s ← getStats;
  if first s then
    assign set_minRealVal (fun _ => v);;
    assign set_maxRealVal (fun _ => v);;
    assign set_first (fun _ => false)
  else
    assign set_minRealVal (fun s => Float64.min (minRealVal s) v);;
    assign set_maxRealVal (fun s => Float64.max (maxRealVal s) v).

(** The statistics block of [binaryConverter] and [jsonConverter]:
<<
    if stats.first {
        stats.minStrVal = v; stats.maxStrVal = v
        stats.maxStrLen = len(v); stats.first = false
    } else {
        if bytes.Compare(v, stats.minStrVal) < 0 { stats.minStrVal = v }
        if bytes.Compare(v, stats.maxStrVal) > 0 { stats.maxStrVal = v }
        stats.maxStrLen = max(stats.maxStrLen, len(v))
    }
>> *)
Definition updateStrStats (v : list byte) : M unit :=
  s ← getStats;
  if first s then
    assign set_minStrVal (fun _ => v);;
    assign set_maxStrVal (fun _ => v);;
    assign set_maxStrLen (fun _ => GoInt.len v);;
    assign set_first (fun _ => false)
  else
    (s ← getStats;
     when (Bytes.Compare v (minStrVal s) <? 0)
       (assign set_minStrVal (fun _ => v)));;
    (s ← getStats;
     when (0 <? Bytes.Compare v (maxStrVal s))
       (assign set_maxStrVal (fun _ => v)));;
    assign set_maxStrLen (fun s => Z.max (maxStrLen s) (GoInt.len v)).

(* ===================================================================== *)
(** ** The converters *)
(* ===================================================================== *)

Module boolConverter.
Record t := mk { nullable : bool }.

Section Methods.
Context `{External}.

Definition ValidateAndConvert (c : t) (val : any) : M unit :=
  if isNil val then nullBranch (nullable c)
  else
    v ← try (ValueAsBool val);
    let i := if v : bool then int128.FromUint64 1 else int128.FromUint64 0 in
    updateIntStats i;;
    callBuf (fun b => WriteBool b v);;
    return_ None.
End Methods.
End boolConverter.

Module numberConverter.
Record t := mk { nullable : bool; scale : Z; precision : Z }.

Section Methods.
Context `{External}.

(** The type switch on [val], with the [err != nil] test that follows
    it. *)
Definition construct (c : t) (val : any) : M int128.Num :=
  let rescale v := try (int128.Rescale v (precision c) (scale c)) in
  match val with
  | VInt t => rescale (int128.FromInt64 t)
  | VInt8 t => rescale (int128.FromInt64 t)
  | VInt16 t => rescale (int128.FromInt64 t)
  | VInt32 t => rescale (int128.FromInt64 t)
  | VInt64 t => rescale (int128.FromInt64 t)
  | VUint t => rescale (int128.FromUint64 t)
  | VUint8 t => rescale (int128.FromUint64 t)
  | VUint16 t => rescale (int128.FromUint64 t)
  | VUint32 t => rescale (int128.FromUint64 t)
  | VUint64 t => rescale (int128.FromUint64 t)
  | VFloat32 t => try (FromFloat32 t (precision c) (scale c))
  | VFloat64 t => try (FromFloat64 t (precision c) (scale c))
  | VString t => try (FromString t (precision c) (scale c))
  | VJSONNumber t => try (FromString t (precision c) (scale c))
  | _ =>
      i ← try (ValueAsInt64 val);
      rescale (int128.FromInt64 i)
  end.

Definition ValidateAndConvert (c : t) (val : any) : M unit :=
  if isNil val then nullBranch (nullable c)
  else
    v ← construct c val;
    updateIntStats v;;
    callBuf (fun b => WriteInt128 b v);;
    return_ None.
End Methods.
End numberConverter.

Module doubleConverter.
Record t := mk { nullable : bool }.

Section Methods.
Context `{External}.

Definition ValidateAndConvert (c : t) (val : any) : M unit :=
  if isNil val then nullBranch (nullable c)
  else
    v ← try (ValueAsFloat64 val);
    updateRealStats v;;
    callBuf (fun b => WriteFloat64 b v);;
    return_ None.
End Methods.
End doubleConverter.

Module binaryConverter.
Record t := mk { nullable : bool; maxLength : Z; utf8 : bool }.

Section Methods.
Context `{External}.

Definition ValidateAndConvert (c : t) (val : any) : M unit :=
  if isNil val then nullBranch (nullable c)
  else
    v ← try (ValueAsBytes val);
    if maxLength c <? GoInt.len v then
      return_ (Some (errValueTooLong (GoInt.len v) (maxLength c)))
    else if utf8 c && negb (Bytes.Valid v) then
      return_ (Some errInvalidUTF8)
    else
      updateStrStats v;;
      callBuf (fun b => WriteBytes b v);;
      return_ None.
End Methods.
End binaryConverter.

Module jsonConverter.
Record t := mk { nullable : bool; maxLength : Z }.

Section Methods.
Context `{External}.

Definition ValidateAndConvert (c : t) (val : any) : M unit :=
  if isNil val then nullBranch (nullable c)
  else
    let v := gabsBytes val in
    if maxLength c <? GoInt.len v then
      return_ (Some (errValueTooLong (GoInt.len v) (maxLength c)))
    else
      updateStrStats v;;
      callBuf (fun b => WriteBytes b v);;
      return_ None.
End Methods.
End jsonConverter.

Module jsonArrayConverter.
Record t := mk { jsonConverter : jsonConverter.t }.

Section Methods.
Context `{External}.

(** [_, ok := val.([]any)] *)
Definition isArray (val : any) : bool :=
  match val with VArray _ => true | _ => false end.

Definition ValidateAndConvert (c : t) (val : any) : M unit :=
  if negb (isNil val) && negb (isArray val) then
    return_ (Some errNotJSONArray)
  else jsonConverter.ValidateAndConvert (jsonConverter c) val.
End Methods.
End jsonArrayConverter.

Module jsonObjectConverter.
Record t := mk { jsonConverter : jsonConverter.t }.

Section Methods.
Context `{External}.

(** [_, ok := val.(map[string]any)] *)
Definition isObject (val : any) : bool :=
  match val with VObject _ => true | _ => false end.

Definition ValidateAndConvert (c : t) (val : any) : M unit :=
  if negb (isNil val) && negb (isObject val) then
    return_ (Some errNotJSONObject)
  else jsonConverter.ValidateAndConvert (jsonConverter c) val.
End Methods.
End jsonObjectConverter.

Module timestampConverter.
Record t := mk {
  nullable : bool;
  scale : Z;
  precision : Z;
  includeTZ : bool;
  trimTZ : bool;
  defaultTZ : Time.Location
}.

Section Methods.
Context `{External}.

(** [s != ""] *)
Definition nonEmpty (s : list byte) : bool :=
  match s with [] => false | _ :: _ => true end.

Definition ValidateAndConvert (c : t) (val : any) : M unit :=
  if isNil val then nullBranch (nullable c)
  else
    (* var s string; var t time.Time *)
    st ← match val return M (list byte * Time.t) with
         | VBytes v => mret (v, Time.zero)
         | VString v => mret (v, Time.zero)
         | _ => t ← try (ValueAsTimestamp val); mret ([], t)
         end;
    let s := fst st in
    t ← (if nonEmpty s then
           match ParseInLocation s (defaultTZ c) with
           | Ok t => mret t
           | Err _ => return_ (Some (errTimestampParse s))
           end
         else mret (snd st));
    let t := if trimTZ c then Time.toUTC t else t in
    let v := snowflakeTimestampInt t (scale c) (includeTZ c) in
    if negb (int128.FitsInPrecision v (precision c)) then
      return_ (Some (errTimestampPrecision t v (precision c)))
    else
      updateIntStats v;;
      callBuf (fun b => WriteInt128 b v);;
      return_ None.
End Methods.
End timestampConverter.

Module timeConverter.
Record t := mk { nullable : bool; scale : Z }.

Section Methods.
Context `{External}.

Definition ValidateAndConvert (c : t) (val : any) : M unit :=
  if isNil val then nullBranch (nullable c)
  else
    t ← try (ValueAsTimestamp val);
    let t := Time.In t Time.UTC in
    let nanos :=
      GoInt.wrap64
        (Time.Hour t * Time.Hour_Nanoseconds
         + Time.Minute t * Time.Minute_Nanoseconds
         + Time.Second t * Time.Second_Nanoseconds
         + Time.Nanosecond t) in
    d ← orPanic (index pow10TableInt64 (GoInt.wrap32 (9 - scale c)));
    let v := int128.FromInt64 (GoInt.wrap64 (nanos ÷ d)) in
    updateIntStats v;;
    callBuf (fun b => WriteInt128 b v);;
    return_ None.
End Methods.
End timeConverter.

Module dateConverter.
Record t := mk { nullable : bool }.

Section Methods.
Context `{External}.

Definition ValidateAndConvert (c : t) (val : any) : M unit :=
  if isNil val then nullBranch (nullable c)
  else
    t ← try (ValueAsTimestamp val);
    let t := Time.toUTC t in
    if (Time.Year t <? -9999) || (9999 <? Time.Year t) then
      return_ (Some (errDateOutOfRange (Time.Year t)))
    else
      let v := int128.FromInt64 (GoInt.wrap64 (Time.Unix t ÷ 86400)) in
      updateIntStats v;;
      callBuf (fun b => WriteInt128 b v);;
      return_ None.
End Methods.
End dateConverter.

(** The [dataConverter] interface, by implementation. *)
Inductive dataConverter :=
| Bool (c : boolConverter.t)
| Number (c : numberConverter.t)
| Double (c : doubleConverter.t)
| Binary (c : binaryConverter.t)
| JSON (c : jsonConverter.t)
| JSONArray (c : jsonArrayConverter.t)
| JSONObject (c : jsonObjectConverter.t)
| Timestamp (c : timestampConverter.t)
| TimeOfDay (c : timeConverter.t)
| Date (c : dateConverter.t).

Section Dispatch.
Context `{External}.

Definition ValidateAndConvert (c : dataConverter) (val : any) : M unit :=
  match c with
  | Bool c => boolConverter.ValidateAndConvert c val
  | Number c => numberConverter.ValidateAndConvert c val
  | Double c => doubleConverter.ValidateAndConvert c val
  | Binary c => binaryConverter.ValidateAndConvert c val
  | JSON c => jsonConverter.ValidateAndConvert c val
  | JSONArray c => jsonArrayConverter.ValidateAndConvert c val
  | JSONObject c => jsonObjectConverter.ValidateAndConvert c val
  | Timestamp c => timestampConverter.ValidateAndConvert c val
  | TimeOfDay c => timeConverter.ValidateAndConvert c val
  | Date c => dateConverter.ValidateAndConvert c val
  end.

Definition nullable (c : dataConverter) : bool :=
  match c with
  | Bool c => boolConverter.nullable c
  | Number c => numberConverter.nullable c
  | Double c => doubleConverter.nullable c
  | Binary c => binaryConverter.nullable c
  | JSON c => jsonConverter.nullable c
  | JSONArray c =>
      jsonConverter.nullable (jsonArrayConverter.jsonConverter c)
  | JSONObject c =>
      jsonConverter.nullable (jsonObjectConverter.jsonConverter c)
  | Timestamp c => timestampConverter.nullable c
  | TimeOfDay c => timeConverter.nullable c
  | Date c => dateConverter.nullable c
  end.
End Dispatch.

(* ===================================================================== *)
(** ** One column of a chunk *)
(* ===================================================================== *)

(** A call of a function of type [func(...) error], seen from its caller. *)
Definition call (f : M unit) : M (option error) :=
  fun s =>
    match f s with
    | Cont _ s' => Cont None s'
    | Exit e s' => Cont e s'
    | Panic => Panic
    end.

Section Column.
Context `{External}.

(** Modelled from the spec: the conversion driver is outside the sources
    at hand; it "iterates rows x columns, invoking the matching converter,
    aborting the chunk on first error".  This is its work on one column:
    the values of the column's cells, in row order. *)
Fixpoint convertColumn (c : dataConverter) (vals : list any) : M unit :=
  match vals with
  | [] => return_ None
  | val :: rest =>
      err ← call (ValidateAndConvert c val);
      match err with
      | Some e => return_ (Some e)
      | None => convertColumn c rest
      end
  end.
End Column.

(* ===================================================================== *)
(** ** What a converter call amounts to *)
(* ===================================================================== *)

(** The value a converter hands to the statistics and to the buffer. *)
Inductive encoded :=
| EBool (b : bool)
| EInt (v : int128.Num)
| EReal (v : Float64.t)
| EBytes (v : list byte).

(** What becomes of a non-nil input before any state is touched. *)
Inductive conversion :=
| Accepted (v : encoded)
| Rejected (e : error)
| Crashed.

Definition accept {A} (wrap : A -> encoded) (r : result A) : conversion :=
  match r with
  | Ok a => Accepted (wrap a)
  | Err e => Rejected e
  end.

(** The key under which a value enters the integer statistics. *)
Definition intKey (v : encoded) : option Z :=
  match v with
  | EBool b => Some (if b then int128.FromUint64 1 else int128.FromUint64 0)
  | EInt z => Some z
  | _ => None
  end.
Definition realKey (v : encoded) : option Float64.t :=
  match v with EReal f => Some f | _ => None end.
Definition strKey (v : encoded) : option (list byte) :=
  match v with EBytes b => Some b | _ => None end.

Definition observeInt (v : int128.Num) (s : statsBuffer) : statsBuffer :=
  if first s then set_first false (set_maxIntVal v (set_minIntVal v s))
  else
    set_maxIntVal (int128.Max (maxIntVal s) v)
      (set_minIntVal (int128.Min (minIntVal s) v) s).

Definition observeReal (v : Float64.t) (s : statsBuffer) : statsBuffer :=
  if first s then set_first false (set_maxRealVal v (set_minRealVal v s))
  else
    set_maxRealVal (Float64.max (maxRealVal s) v)
      (set_minRealVal (Float64.min (minRealVal s) v) s).

Definition observeStr (v : list byte) (s : statsBuffer) : statsBuffer :=
  if first s then
    set_first false
      (set_maxStrLen (GoInt.len v) (set_maxStrVal v (set_minStrVal v s)))
  else
    let s1 := if Bytes.Compare v (minStrVal s) <? 0
              then set_minStrVal v s else s in
    let s2 := if 0 <? Bytes.Compare v (maxStrVal s1)
              then set_maxStrVal v s1 else s1 in
    set_maxStrLen (Z.max (maxStrLen s2) (GoInt.len v)) s2.

Definition observe (v : encoded) (s : statsBuffer) : statsBuffer :=
  match v with
  | EBool b =>
      observeInt (if b then int128.FromUint64 1 else int128.FromUint64 0) s
  | EInt z => observeInt z s
  | EReal f => observeReal f s
  | EBytes b => observeStr b s
  end.

(** The buffer method a value is written with. *)
Definition write (v : encoded) (b : typedBuffer) : option typedBuffer :=
  match v with
  | EBool x => WriteBool b x
  | EInt z => WriteInt128 b z
  | EReal f => WriteFloat64 b f
  | EBytes x => WriteBytes b x
  end.

Definition countNull (s : statsBuffer) : statsBuffer :=
  set_nullCount (GoInt.wrap64 (nullCount s + 1)) s.

Section Conversion.
Context `{External}.

(** The [int128] construction each native kind of number goes through. *)
Definition numberPath (c : numberConverter.t) (val : any)
    : option (result int128.Num) :=
  let p := numberConverter.precision c in
  let s := numberConverter.scale c in
  match val with
  | VInt n | VInt8 n | VInt16 n | VInt32 n | VInt64 n =>
      Some (int128.Rescale (int128.FromInt64 n) p s)
  | VUint n | VUint8 n | VUint16 n | VUint32 n | VUint64 n =>
      Some (int128.Rescale (int128.FromUint64 n) p s)
  | VFloat32 f => Some (FromFloat32 f p s)
  | VFloat64 f => Some (FromFloat64 f p s)
  | VString t | VJSONNumber t => Some (FromString t p s)
  | _ => None
  end.

Definition convertNumber (c : numberConverter.t) (val : any) : conversion :=
  match numberPath c val with
  | Some r => accept EInt r
  | None =>
      match ValueAsInt64 val with
      | Ok i =>
          accept EInt
            (int128.Rescale (int128.FromInt64 i)
               (numberConverter.precision c) (numberConverter.scale c))
      | Err e => Rejected e
      end
  end.

Definition convertBinary (c : binaryConverter.t) (val : any) : conversion :=
  match ValueAsBytes val with
  | Ok v =>
      if binaryConverter.maxLength c <? GoInt.len v then
        Rejected (errValueTooLong (GoInt.len v) (binaryConverter.maxLength c))
      else if binaryConverter.utf8 c && negb (Bytes.Valid v) then
        Rejected errInvalidUTF8
      else Accepted (EBytes v)
  | Err e => Rejected e
  end.

Definition convertJSON (c : jsonConverter.t) (val : any) : conversion :=
  let v := gabsBytes val in
  if jsonConverter.maxLength c <? GoInt.len v then
    Rejected (errValueTooLong (GoInt.len v) (jsonConverter.maxLength c))
  else Accepted (EBytes v).

(** The timestamp converter from [if c.trimTZ] on. *)
Definition encodeTimestamp (c : timestampConverter.t) (t : Time.t)
    : conversion :=
  let t := if timestampConverter.trimTZ c then Time.toUTC t else t in
  let v := snowflakeTimestampInt t (timestampConverter.scale c)
             (timestampConverter.includeTZ c) in
  if int128.FitsInPrecision v (timestampConverter.precision c)
  then Accepted (EInt v)
  else Rejected (errTimestampPrecision t v (timestampConverter.precision c)).

Definition parseTimestamp (c : timestampConverter.t) (s : list byte)
    : conversion :=
  match ParseInLocation s (timestampConverter.defaultTZ c) with
  | Ok t => encodeTimestamp c t
  | Err _ => Rejected (errTimestampParse s)
  end.

Definition convertTimestamp (c : timestampConverter.t) (val : any)
    : conversion :=
  match val with
  | VBytes s | VString s =>
      if timestampConverter.nonEmpty s then parseTimestamp c s
      else encodeTimestamp c Time.zero
  | _ =>
      match ValueAsTimestamp val with
      | Ok t =>  encodeTimestamp c t
      | Err e => Rejected e
      end
  end.

(** Nanoseconds since midnight, UTC. *)
Definition nanosOfDay (t : Time.t) : Z :=
  let u := Time.toUTC t in
  Time.Hour u * 3600000000000 + Time.Minute u * 60000000000
  + Time.Second u * 1000000000 + Time.Nanosecond u.

Definition convertTime (c : timeConverter.t) (val : any) : conversion :=
  match ValueAsTimestamp val with
  | Ok t =>
      match index pow10TableInt64 (GoInt.wrap32 (9 - timeConverter.scale c)) with
      | Some d => Accepted (EInt (GoInt.wrap64 (GoInt.wrap64 (nanosOfDay t) ÷ d)))
      | None => Crashed
      end
  | Err e => Rejected e
  end.

Definition convertDate (val : any) : conversion :=
  match ValueAsTimestamp val with
  | Ok t =>
      let y := Time.Year (Time.toUTC t) in
      if (y <? -9999) || (9999 <? y) then Rejected (errDateOutOfRange y)
      else Accepted (EInt (GoInt.wrap64 (Time.Unix t ÷ 86400)))
  | Err e => Rejected e
  end.

(** Validation and conversion of a non-nil input, by converter. *)
Definition convert (c : dataConverter) (val : any) : conversion :=
  match c with
  | Bool _ => accept EBool (ValueAsBool val)
  | Number c => convertNumber c val
  | Double _ => accept EReal (ValueAsFloat64 val)
  | Binary c => convertBinary c val
  | JSON c => convertJSON c val
  | JSONArray c =>
      if jsonArrayConverter.isArray val
      then convertJSON (jsonArrayConverter.jsonConverter c) val
      else Rejected errNotJSONArray
  | JSONObject c =>
      if jsonObjectConverter.isObject val
      then convertJSON (jsonObjectConverter.jsonConverter c) val
      else Rejected errNotJSONObject
  | Timestamp c => convertTimestamp c val
  | TimeOfDay c => convertTime c val
  | Date _ => convertDate val
  end.

(** The state a converter call leaves, put together from the pieces
    above; [ValidateAndConvert_run] below shows the code computes it. *)
Definition outcome (c : dataConverter) (val : any) (s : state) : res unit :=
  if isNil val then
    if nullable c then
      match WriteNull (buf s) with
      | Some b => Exit None {| stats := countNull (stats s); buf := b |}
      | None => Panic
      end
    else Exit (Some errNullValue) s
  else
    match convert c val with
    | Rejected e => Exit (Some e) s
    | Crashed => Panic
    | Accepted v =>
        match write v (buf s) with
        | Some b => Exit None {| stats := observe v (stats s); buf := b |}
        | None => Panic
        end
    end.

(** The values of a column that reach the statistics. *)
Definition accepted (c : dataConverter) (vals : list any) : list encoded :=
  omap (fun val =>
          if isNil val then None
          else match convert c val with
               | Accepted v => Some v
               | _ => None
               end) vals.

Definition nulls (vals : list any) : list any := filter (fun v => isNil v = true) vals.
End Conversion.

(** [m] is the least (greatest) element of [l] under [le]. *)
Definition least {A} (le : A -> A -> Prop) (l : list A) (m : A) : Prop :=
  m ∈ l /\ forall x, x ∈ l -> le m x.
Definition greatest {A} (le : A -> A -> Prop) (l : list A) (m : A) : Prop :=
  m ∈ l /\ forall x, x ∈ l -> le x m.

Definition bytes_le (a b : list byte) : Prop := Bytes.lex_le a b.
Definition float_le (a b : Float64.t) : Prop := Float64.le a b = true.

(* ===================================================================== *)
(** ** A concrete environment for worked runs *)
(* ===================================================================== *)

Module Reference.

Definition unsupported {A} (code : nat) : result A := Err (errForeign code).

Definition digit (b : byte) : option Z :=
  let c := Bytes.code b in
  if (48 <=? c) && (c <=? 57) then Some (c - 48) else None.

Fixpoint digits (acc : Z) (s : list byte) : option Z :=
  match s with
  | [] => Some acc
  | b :: r =>
      match digit b with
      | Some d => digits (acc * 10 + d) r
      | None => None
      end
  end.

(** The text up to the first point, and the text after it. *)
Fixpoint splitDot (s : list byte) : list byte * list byte :=
  match s with
  | [] => ([], [])
  | b :: r =>
      if Bytes.code b =? 46 then ([], r)
      else let (i, f) := splitDot r in (b :: i, f)
  end.

(** Decimal text (an optional minus sign, digits, and an optional
    point followed by digits) as an integer at [scale] decimals, further
    decimals cut off. *)
Definition parseDecimal (s : list byte) (scale : Z) : option Z :=
  let (neg, body) :=
    match s with
    | b :: r => if Bytes.code b =? 45 then (true, r) else (false, s)
    | [] => (false, s)
    end in
  let (i, f) := splitDot body in
  match i with
  | [] => None
  | _ :: _ =>
      let f' := take (Z.to_nat scale) f in
      match digits 0 i, digits 0 f, digits 0 f' with
      | Some iv, Some _, Some fv =>
          let v := iv * 10 ^ scale + fv * 10 ^ (scale - GoInt.len f') in
          Some (if neg then - v else v)
      | _, _, _ => None
      end
  end.

Definition checked (v : Z) (precision : Z) : result int128.Num :=
  if int128.FitsInPrecision v precision then Ok v
  else Err (errPrecisionOverflow v precision).

Definition fromString (s : list byte) (precision scale : Z)
    : result int128.Num :=
  match parseDecimal s scale with
  | Some v => checked v precision
  | None => unsupported 3
  end.

(** The float's exact value times [10^scale], cut to an integer. *)
Definition fromFloat (f : Float64.t) (precision scale : Z)
    : result int128.Num :=
  match f with
  | S754_zero _ => checked 0 precision
  | S754_finite sg m e =>
      let mag := if 0 <=? e then Z.pos m * 2 ^ e * 10 ^ scale
                 else (Z.pos m * 10 ^ scale) / 2 ^ (- e) in
      checked (if sg then - mag else mag) precision
  | _ => unsupported 2
  end.

(** Epoch seconds and the fraction of a second at [scale] decimals; with
    the zone, shifted left by 14 bits to make room for the offset in
    minutes, biased by one day. *)
Definition timestampInt (t : Time.t) (scale : Z) (includeTZ : bool)
    : int128.Num :=
  let v := Time.Unix t * 10 ^ scale + Time.Nanosecond t / 10 ^ (9 - scale) in
  if includeTZ then
    v * 2 ^ 14 + (Time.offset (Time.loc t) / 60 + 1440) mod 2 ^ 14
  else v.

(** Each coercion takes the values of the type it is named after and
    turns down every other value; no timestamp text is parsed, and the
    JSON encoder knows the empty array and the empty object. *)
#[export] Instance env : External := {|
  ValueAsBool v := match v with VBool b => Ok b | _ => unsupported 1 end;
  ValueAsInt64 v :=
    match v with
    | VInt n | VInt8 n | VInt16 n | VInt32 n | VInt64 n => Ok n
    | _ => unsupported 1
    end;
  ValueAsFloat64 v :=
    match v with VFloat64 f => Ok f | _ => unsupported 1 end;
  ValueAsBytes v :=
    match v with VString s | VBytes s => Ok s | _ => unsupported 1 end;
  ValueAsTimestamp v :=
    match v with VTime t => Ok t | _ => unsupported 1 end;
  gabsBytes v :=
    match v with
    | VArray [] => Bytes.of_string "[]"
    | VObject [] => Bytes.of_string "{}"
    | _ => Bytes.of_string "null"
    end;
  ParseInLocation _ _ := unsupported 4;
  FromFloat32 := fromFloat;
  FromFloat64 := fromFloat;
  FromString := fromString;
  snowflakeTimestampInt := timestampInt
|}.

(** A chunk of [rows] rows and one column, all cells null, bound to a
    generic buffer. *)
Definition column (rows : nat) : typedBuffer :=
  Prepare (genericBuffer (mkBuffer [] 0 0 0))
    (replicate rows parquet.NullValue) 0 1.

Definition start (rows : nat) : state :=
  {| stats := freshStats; buf := column rows |}.

(** The float64 values 1 and 2. *)
Definition f1 : Float64.t := S754_finite false 4503599627370496 (-52).
Definition f2 : Float64.t := S754_finite false 4503599627370496 (-51).

(** The float64 nearest to 3.333. *)
Definition f3_333 : Float64.t := S754_finite false 7505248779012932 (-51).

(** 23:59:59.999999999 on 1970-01-01, UTC. *)
Definition lastNano : Time.t :=
  {| Time.sec := 86399; Time.nsec := 999999999; Time.loc := Time.UTC |}.

(** The instant [sec] seconds after the epoch, in UTC. *)
Definition instant (sec : Z) : Time.t :=
  {| Time.sec := sec; Time.nsec := 0; Time.loc := Time.UTC |}.

(** -9999-01-01T00:00:00Z and the second before it;
    9999-12-31T23:59:59Z and the second after it. *)
Definition firstOfYearMinus9999 : Time.t := instant (-377705116800).
Definition lastOfYearMinus10000 : Time.t := instant (-377705116801).
Definition lastOfYear9999 : Time.t := instant 253402300799.
Definition firstOfYear10000 : Time.t := instant 253402300800.

End Reference.

(** The buffer once [v] has gone into the cell of the current row. *)
Definition advance (b : typedBufferImpl) (v : parquet.Value) : typedBufferImpl :=
  {| matrix := <[Z.to_nat (cellIndex b) := v]> (matrix b);
     columnIndex := columnIndex b;
     rowWidth := rowWidth b;
     currentRow := GoInt.wrap64 (currentRow b + 1) |}.

(** The same kind of buffer around another [typedBufferImpl]. *)
Definition withImpl (tb : typedBuffer) (b : typedBufferImpl) : typedBuffer :=
  match tb with
  | genericBuffer _ => genericBuffer b
  | int64Buffer _ => int64Buffer b
  | int32Buffer _ => int32Buffer b
  end.

(** [s'] has the statistics of [s] in every field but [nullCount]. *)
Definition sameValueStats (s s' : statsBuffer) : Prop :=
  first s' = first s /\
  minIntVal s' = minIntVal s /\ maxIntVal s' = maxIntVal s /\
  minRealVal s' = minRealVal s /\ maxRealVal s' = maxRealVal s /\
  minStrVal s' = minStrVal s /\ maxStrVal s' = maxStrVal s /\
  maxStrLen s' = maxStrLen s.

(** [b'] is [b] with the cell of the current row set to [v], every other
    cell as it was, and the row cursor moved on. *)
Definition wroteCell (b b' : typedBufferImpl) (v : parquet.Value) : Prop :=
  let i := Z.to_nat (cellIndex b) in
  matrix b' !! i = Some v /\
  (forall j, j <> i -> matrix b' !! j = matrix b !! j) /\
  length (matrix b') = length (matrix b) /\
  columnIndex b' = columnIndex b /\ rowWidth b' = rowWidth b /\
  currentRow b' = GoInt.wrap64 (currentRow b + 1).

(** The cell a buffer stores for a value. *)
Definition cellOf (tb : typedBuffer) (v : encoded) : parquet.Value :=
  parquet.Level
    match v with
    | EBool x => parquet.BooleanValue x
    | EReal f => parquet.DoubleValue f
    | EBytes x => parquet.ByteArrayValue x
    | EInt z =>
        match tb with
        | genericBuffer _ =>
            parquet.FixedLenByteArrayValue (int128.ToBigEndian z)
        | int64Buffer _ => parquet.Int64Value (int128.ToInt64 z)
        | int32Buffer _ =>
            parquet.Int32Value (GoInt.wrap32 (int128.ToInt64 z))
        end
    end
    0 1 (columnIndex (impl tb)).

(** [s'] is [s] after the value [v] has been accepted: the statistics have
    taken it in and the buffer holds its cell in the current row. *)
Definition stored (s s' : state) (v : encoded) : Prop :=
  stats s' = observe v (stats s) /\
  wroteCell (impl (buf s)) (impl (buf s')) (cellOf (buf s) v) /\
  buf s' = withImpl (buf s) (impl (buf s')).

(** The integer read back from the cell of row [row] of a one-column
    chunk after a write ([None] if the write panicked). *)
Definition logicalAt (r : option typedBuffer) (row : nat) : option Z :=
  match r with
  | Some tb =>
      match matrix (impl tb) !! row with
      | Some cell => parquet.logical cell
      | None => None
      end
  | None => None
  end.

(** The integer held by a value of a native signed or unsigned type. *)
Definition nativeInteger (val : any) : option Z :=
  match val with
  | VInt n | VInt8 n | VInt16 n | VInt32 n | VInt64 n
  | VUint n | VUint8 n | VUint16 n | VUint32 n | VUint64 n => Some n
  | _ => None
  end.

(** What a call comes to once the conversion of its input is known. *)
Definition settle (r : conversion) (s : state) : res unit :=
  match r with
  | Rejected e => Exit (Some e) s
  | Crashed => Panic
  | Accepted v =>
      match write v (buf s) with
      | Some b => Exit None {| stats := observe v (stats s); buf := b |}
      | None => Panic
      end
  end.

(** The result is the timestamp parse error. *)
Definition isParseError (r : res unit) : bool :=
  match r with
  | Exit (Some (errTimestampParse _)) _ => true
  | _ => false
  end.

(* ===================================================================== *)
(** ** Orders on the values of the statistics *)
(* ===================================================================== *)

Module FloatOrder.

(** A float that is not NaN, placed on a line: class (negative
    infinity, negative, zero, positive, positive infinity), then
    exponent, then mantissa, and for zeros the sign. *)
Definition cls (x : Float64.t) : Z :=
  match x with
  | S754_infinity true => -2
  | S754_finite true _ _ => -1
  | S754_zero _ => 0
  | S754_finite false _ _ => 1
  | S754_infinity false => 2
  | S754_nan => 3
  end.
Definition expo (x : Float64.t) : Z :=
  match x with
  | S754_finite true _ e => - e
  | S754_finite false _ e => e
  | _ => 0
  end.
Definition mant (x : Float64.t) : Z :=
  match x with
  | S754_finite true m _ => - Z.pos m
  | S754_finite false m _ => Z.pos m
  | _ => 0
  end.
Definition zsign (x : Float64.t) : Z :=
  match x with S754_zero false => 1 | _ => 0 end.

Definition before (x y : Float64.t) : Prop :=
  cls x < cls y \/
  (cls x = cls y /\ (expo x < expo y \/ (expo x = expo y /\ mant x < mant y))).
Definition level (x y : Float64.t) : Prop :=
  cls x = cls y /\ expo x = expo y /\ mant x = mant y.
Definition notAfter (x y : Float64.t) : Prop :=
  before x y \/ (level x y /\ zsign x <= zsign y).

End FloatOrder.

Definition number (x : Float64.t) : Prop := Float64.is_nan x = false.

(** Lower of two byte strings as [binaryConverter] picks it, and higher. *)
Definition lowerBytes (m v : list byte) : list byte :=
  if Bytes.Compare v m <? 0 then v else m.
Definition higherBytes (m v : list byte) : list byte :=
  if 0 <? Bytes.Compare v m then v else m.

(* ===================================================================== *)
(** ** A column's statistics as a fold *)
(* ===================================================================== *)

Section Fold.
Context `{External}.

(** What one cell does to the statistics when its call returns nil. *)
Definition absorb (c : dataConverter) (st : statsBuffer) (val : any)
    : statsBuffer :=
  if isNil val then countNull st
  else match convert c val with
       | Accepted v => observe v st
       | _ => st
       end.
End Fold.

Definition observeAll (l : list encoded) (st : statsBuffer) : statsBuffer :=
  fold_left (fun st v => observe v st) l st.

(** [k] increments of the null counter. *)
Fixpoint bump (k : nat) (n : Z) : Z :=
  match k with
  | O => n
  | S k' => bump k' (GoInt.wrap64 (n + 1))
  end.

(** The field of the statistics a converter's values go to. *)
Inductive family := FInt | FReal | FStr.

Definition familyOf (c : dataConverter) : family :=
  match c with
  | Bool _ | Number _ | Timestamp _ | TimeOfDay _ | Date _ => FInt
  | Double _ => FReal
  | Binary _ | JSON _ | JSONArray _ | JSONObject _ => FStr
  end.

Definition familyOfValue (v : encoded) : family :=
  match v with
  | EBool _ | EInt _ => FInt
  | EReal _ => FReal
  | EBytes _ => FStr
  end.

(** The encoded length of a string value. *)
Definition lenKey (v : encoded) : option Z := GoInt.len <$> strKey v.

(** A Go [statsBuffer{}]: every field zero, [first] included. *)
Definition zeroedStats : statsBuffer := set_first false freshStats.

(* ===================================================================== *)
(** ** The matrix by rows and columns *)
(* ===================================================================== *)

(** The cell of row [r] and column [c] of a row-major matrix whose rows
    are [width] cells wide. *)
Definition cellAt (m : list parquet.Value) (width r c : Z)
    : option parquet.Value :=
  m !! Z.to_nat (r * width + c).

(** The buffer is bound to one column of a matrix of [rows] whole rows,
    as [Prepare] expects it, with the cursor on a row or just past the
    last one. *)
Definition boundTo (rows : Z) (b : typedBufferImpl) : Prop :=
  0 <= columnIndex b < rowWidth b /\
  GoInt.len (matrix b) = rows * rowWidth b /\
  GoInt.len (matrix b) <= GoInt.max_int64 /\
  0 <= currentRow b <= rows.

Section Cells.
Context `{External}.

(** The cell a column holds for an input whose call returned nil. *)
Definition cellFor (c : dataConverter) (tb : typedBuffer) (val : any)
    : option parquet.Value :=
  if isNil val then Some parquet.NullValue
  else match convert c val with
       | Accepted v => Some (cellOf tb v)
       | _ => None
       end.
End Cells.

(* ===================================================================== *)
(** ** The range the statistics record *)
(* ===================================================================== *)

(** Once a value has been seen, the ends of the statistics of a family are
    in order, and no recorded string is longer than [maxStrLen]. *)
Definition ordered (f : family) (st : statsBuffer) : Prop :=
  first st = false ->
  match f with
  | FInt => minIntVal st <= maxIntVal st
  | FReal =>
      Float64.is_nan (minRealVal st) = Float64.is_nan (maxRealVal st) /\
      (number (minRealVal st) -> float_le (minRealVal st) (maxRealVal st))
  | FStr =>
      bytes_le (minStrVal st) (maxStrVal st) /\
      GoInt.len (minStrVal st) <= maxStrLen st /\
      GoInt.len (maxStrVal st) <= maxStrLen st
  end.



(** The statistics of a boolean column stay between 0 and 1. *)
Definition unitRange (st : statsBuffer) : Prop :=
  first st = false ->
  0 <= minIntVal st /\ minIntVal st <= maxIntVal st /\ maxIntVal st <= 1.

(** [val] is a Go [string] or [[]byte]. *)
Definition isText (val : any) : bool :=
  match val with VString _ | VBytes _ => true | _ => false end.

(* ===================================================================== *)
(** * The flags of the Redpanda connection (package cli) *)
(* ===================================================================== *)

Module cli.

Definition rfPipelineID : list byte := Bytes.of_string "x-redpanda-pipeline-id".
Definition rfLogsTopic : list byte := Bytes.of_string "x-redpanda-logs-topic".
Definition rfStatusTopic : list byte := Bytes.of_string "x-redpanda-status-topic".
Definition rfBrokers : list byte := Bytes.of_string "x-redpanda-brokers".
Definition rfTLSEnabled : list byte := Bytes.of_string "x-redpanda-tls-enabled".
Definition rfTLSSkipCertVerify : list byte := Bytes.of_string "x-redpanda-tls-skip-verify".
Definition rfTLSRootCasFile : list byte := Bytes.of_string "x-redpanda-root-cas-file".
Definition rfSASLMechanism : list byte := Bytes.of_string "x-redpanda-sasl-mechanism".
Definition rfSASLUsername : list byte := Bytes.of_string "x-redpanda-sasl-username".
Definition rfSASLPassword : list byte := Bytes.of_string "x-redpanda-sasl-password".

(** A declared flag, [cli.StringFlag], [cli.StringSliceFlag] or
    [cli.BoolFlag], with the fields the code sets. *)
Inductive Flag :=
| StringFlag (Name : list byte) (Hidden : bool) (Value : list byte)
| StringSliceFlag (Name : list byte) (Hidden : bool)
    (Value : list (list byte))
| BoolFlag (Name : list byte) (Hidden : bool) (Value : bool).

Definition redpandaFlags : list Flag :=
  [ StringFlag rfPipelineID true [];
    StringFlag rfLogsTopic true [];
    StringFlag rfStatusTopic true [];
    StringSliceFlag rfBrokers true [];
    BoolFlag rfTLSEnabled true false;
    BoolFlag rfTLSSkipCertVerify true false;
    StringFlag rfTLSRootCasFile true [];
    StringFlag rfSASLMechanism true [];
    StringFlag rfSASLUsername true [];
    StringFlag rfSASLPassword true [] ].

(** [*cli.Context], as far as the code uses it: the typed lookups of a
    flag's value by name. *)
Record Context := {
  String : list byte -> list byte;
  StringSlice : list byte -> list (list byte);
  Bool : list byte -> bool
}.

(** An error of [os.ReadFile], opaque, or one made by [fmt.Errorf], with
    its message. *)
Inductive error :=
| osError (code : Z)
| Errorf (msg : list byte).

(** [x509.CertPool], by the PEM blocks appended to a new pool. *)
Definition CertPool : Type := list (list byte).
Definition NewCertPool : CertPool := [].
Definition AppendCertsFromPEM (pool : CertPool) (pemCerts : list byte)
    : CertPool := pool ++ [pemCerts].

Definition VersionTLS12 : Z := 771.

(** [tls.Config]; the fields the code leaves alone stay zero. *)
Record tlsConfig := {
  MinVersion : Z;
  RootCAs : option CertPool;
  InsecureSkipVerify : bool
}.

(** [scram.Auth], and a SCRAM mechanism by the credentials its callback
    returns. *)
Record Auth := { User : list byte; Pass : list byte }.

Inductive Mechanism :=
| Sha256 (auth : Auth)
| Sha512 (auth : Auth).

(** Nanoseconds of [time.Minute]. *)
Definition Minute : Z := 60000000000.

(** [kafka.FranzConnectionDetails], the fields this package sets. *)
Record FranzConnectionDetails := {
  ClientID : list byte;
  MetaMaxAge : Z;
  SeedBrokers : list (list byte);
  TLSEnabled : bool;
  TLSConf : option tlsConfig;
  SASL : list Mechanism
}.

Definition set_TLSConf (v : option tlsConfig) (d : FranzConnectionDetails)
    : FranzConnectionDetails :=
  {| ClientID := ClientID d; MetaMaxAge := MetaMaxAge d;
     SeedBrokers := SeedBrokers d; TLSEnabled := TLSEnabled d;
     TLSConf := v; SASL := SASL d |}.

Definition set_SASL (v : list Mechanism) (d : FranzConnectionDetails)
    : FranzConnectionDetails :=
  {| ClientID := ClientID d; MetaMaxAge := MetaMaxAge d;
     SeedBrokers := SeedBrokers d; TLSEnabled := TLSEnabled d;
     TLSConf := TLSConf d; SASL := v |}.

Definition set_RootCAs (v : option CertPool) (t : tlsConfig) : tlsConfig :=
  {| MinVersion := MinVersion t; RootCAs := v;
     InsecureSkipVerify := InsecureSkipVerify t |}.

Definition set_InsecureSkipVerify (v : bool) (t : tlsConfig) : tlsConfig :=
  {| MinVersion := MinVersion t; RootCAs := RootCAs t;
     InsecureSkipVerify := v |}.

(** The named results of [parseRedpandaFlags]. *)
Record parsed := {
  pipelineID : list byte;
  logsTopic : list byte;
  statusTopic : list byte;
  connDetails : FranzConnectionDetails;
  err : option error
}.

(** [s != ""]. *)
Definition nonEmpty (s : list byte) : bool :=
  match s with [] => false | _ :: _ => true end.

(** [a == b] on strings. *)
Fixpoint equal (a b : list byte) : bool :=
  match a, b with
  | [], [] => true
  | x :: a', y :: b' => Byte.eqb x y && equal a' b'
  | _, _ => false
  end.

Definition parseLicenseFlag (c : Context) : list byte :=
  String c (Bytes.of_string "redpanda-license").

Section Host.
(** [os.ReadFile] and [strings.ToLower]. *)
Variable ReadFile : list byte -> list byte + error.
Variable ToLower : list byte -> list byte.

Definition parseRedpandaFlags (c : Context) : parsed :=
  let connDetails :=
    {| ClientID := Bytes.of_string "rpcn"; MetaMaxAge := Minute * 5;
       SeedBrokers := StringSlice c rfBrokers;
       TLSEnabled := Bool c rfTLSEnabled;
       TLSConf := None; SASL := [] |} in
  let ret d e :=
    {| pipelineID := String c rfPipelineID;
       logsTopic := String c rfLogsTopic;
       statusTopic := String c rfStatusTopic;
       connDetails := d; err := e |} in
  let sasl d :=
    let mech := String c rfSASLMechanism in
    if nonEmpty mech then
      let auth := {| User := String c rfSASLUsername;
                     Pass := String c rfSASLPassword |} in
      let lower := ToLower mech in
      if equal lower (Bytes.of_string "scram-sha-256") then
        ret (set_SASL (SASL d ++ [Sha256 auth]) d) None
      else if equal lower (Bytes.of_string "scram-sha-512") then
        ret (set_SASL (SASL d ++ [Sha512 auth]) d) None
      else
        ret d (Some (Errorf
                       (Bytes.of_string "unsupported sasl mechanism: "
                        ++ mech)))
    else ret d None in
  if TLSEnabled connDetails then
    let conf := {| MinVersion := VersionTLS12; RootCAs := None;
                   InsecureSkipVerify := false |} in
    let rootCasFile := String c rfTLSRootCasFile in
    let finish conf :=
      sasl (set_TLSConf
              (Some (if Bool c rfTLSSkipCertVerify
                     then set_InsecureSkipVerify true conf else conf))
              connDetails) in
    if nonEmpty rootCasFile then
      match ReadFile rootCasFile with
      | inr e => ret (set_TLSConf (Some conf) connDetails) (Some e)
      | inl caCert =>
          finish (set_RootCAs
                    (Some (AppendCertsFromPEM NewCertPool caCert)) conf)
      end
    else finish conf
  else sasl connDetails.
End Host.

(** The two contexts give every flag of the list the same value, looked
    up as the kind the flag is declared with. *)
Definition agreeOn (flags : list Flag) (c1 c2 : Context) : Prop :=
  Forall (fun f =>
            match f with
            | StringFlag n _ _ => String c1 n = String c2 n
            | StringSliceFlag n _ _ => StringSlice c1 n = StringSlice c2 n
            | BoolFlag n _ _ => Bool c1 n = Bool c2 n
            end) flags.

Definition Name (f : Flag) : list byte :=
  match f with
  | StringFlag n _ _ | StringSliceFlag n _ _ | BoolFlag n _ _ => n
  end.

(** The flags of the list other than the named ones. *)
Definition without (names : list (list byte)) (flags : list Flag)
    : list Flag :=
  List.filter (fun f => negb (existsb (equal (Name f)) names)) flags.

(** A context for examples: every lookup finds the value the list
    [given] holds for the name, and the zero value otherwise. *)
Definition lookup {A} (zero : A) (given : list (list byte * A))
    (name : list byte) : A :=
  match List.find (fun kv => equal (fst kv) name) given with
  | Some kv => snd kv
  | None => zero
  end.

Definition context (strings : list (list byte * list byte))
    (slices : list (list byte * list (list byte)))
    (bools : list (list byte * bool)) : Context :=
  {| String := lookup [] strings;
     StringSlice := lookup [] slices;
     Bool := lookup false bools |}.

(** The ASCII part of [strings.ToLower], for examples. *)
Definition lowerASCII (s : list byte) : list byte :=
  map (fun b =>
         if Bytes.between 65 90 b
         then match Byte.of_N (Byte.to_N b + 32) with
              | Some b' => b'
              | None => b
              end
         else b) s.

(** A file system for examples: one readable file. *)
Definition oneFile (path content : list byte) (name : list byte)
    : list byte + error :=
  if equal name path then inl content else inr (osError 2).

End cli.

(* ===================================================================== *)
(** * Properties *)
(* ===================================================================== *)

(** ** Running the shared blocks *)

Ltac run_M :=
  unfold mbind, M_bind, mret, M_ret, return_, try, assign, modifyStats,
    getStats, callBuf, when, orPanic, call in *; simpl in *.

Lemma updateIntStats_run v s :
  updateIntStats v s
  = Cont tt {| stats := observeInt v (stats s); buf := buf s |}.
Proof.
  destruct s as [st b]. unfold updateIntStats, observeInt. run_M.
  destruct (first st); reflexivity.
Qed.

Lemma updateRealStats_run v s :
  updateRealStats v s
  = Cont tt {| stats := observeReal v (stats s); buf := buf s |}.
Proof.
  destruct s as [st b]. unfold updateRealStats, observeReal. run_M.
  destruct (first st); reflexivity.
Qed.

Lemma updateStrStats_run v s :
  updateStrStats v s
  = Cont tt {| stats := observeStr v (stats s); buf := buf s |}.
Proof.
  destruct s as [st b]. unfold updateStrStats, observeStr. run_M.
  destruct (first st); [reflexivity|]. cbn.
  destruct (Bytes.Compare v (minStrVal st) <? 0); cbn;
    destruct (0 <? Bytes.Compare v (maxStrVal st)); reflexivity.
Qed.

Lemma nullBranch_run nullable s :
  nullBranch nullable s
  = if nullable then
      match WriteNull (buf s) with
      | Some b => Exit None {| stats := countNull (stats s); buf := b |}
      | None => Panic
      end
    else Exit (Some errNullValue) s.
Proof.
  destruct s as [st b]. unfold nullBranch, countNull. run_M.
  destruct nullable; simpl; [|reflexivity].
  destruct (WriteNull b); reflexivity.
Qed.

(** The tail every converter ends with: statistics, then the buffer. *)
Lemma finish_run (upd : M unit) (w : typedBuffer -> option typedBuffer)
    (f : statsBuffer -> statsBuffer) s :
  (forall s, upd s = Cont tt {| stats := f (stats s); buf := buf s |}) ->
  (upd;; callBuf w;; (return_ None : M unit)) s
  = match w (buf s) with
    | Some b => Exit None {| stats := f (stats s); buf := b |}
    | None => Panic
    end.
Proof.
  intros Hupd. unfold mbind, M_bind. rewrite Hupd. unfold callBuf, return_.
  simpl. destruct (w (buf s)); reflexivity.
Qed.

Section Run.
Context `{External}.

Lemma construct_run c val s :
  numberConverter.construct c val s
  = match convertNumber c val with
    | Accepted (EInt v) => Cont v s
    | Accepted _ => Panic
    | Rejected e => Exit (Some e) s
    | Crashed => Panic
    end.
Proof.
  unfold numberConverter.construct, convertNumber, numberPath, accept.
  destruct val; run_M;
    repeat match goal with
           | |- context [match ?r with Ok _ => _ | Err _ => _ end] =>
               destruct r; simpl
           end; reflexivity.
Qed.

(** The code of every converter computes [outcome]. *)
Lemma ValidateAndConvert_run c val s :
  ValidateAndConvert c val s = outcome c val s.
Proof.
  unfold outcome.
  destruct c as [c|c|c|c|c|c|c|c|c|c]; simpl.
  - unfold boolConverter.ValidateAndConvert.
    destruct (isNil val); [apply nullBranch_run|].
    unfold mbind at 1, M_bind at 1. unfold try, accept.
    destruct (ValueAsBool val) as [v|e]; [|reflexivity].
    unfold mret, M_ret.
    rewrite (finish_run _ _ _ _ (updateIntStats_run _)). reflexivity.
  - unfold numberConverter.ValidateAndConvert.
    destruct (isNil val); [apply nullBranch_run|].
    unfold mbind at 1, M_bind at 1. rewrite construct_run.
    unfold convertNumber, accept.
    destruct (numberPath c val) as [[v|e]|];
      [ | reflexivity | destruct (ValueAsInt64 val) as [i|e];
                        [destruct (int128.Rescale _ _ _)|] ];
      try reflexivity;
      rewrite (finish_run _ _ _ _ (updateIntStats_run _)); reflexivity.
  - unfold doubleConverter.ValidateAndConvert.
    destruct (isNil val); [apply nullBranch_run|].
    unfold mbind at 1, M_bind at 1. unfold try, accept.
    destruct (ValueAsFloat64 val) as [v|e]; [|reflexivity].
    unfold mret, M_ret.
    rewrite (finish_run _ _ _ _ (updateRealStats_run _)). reflexivity.
  - unfold binaryConverter.ValidateAndConvert, convertBinary.
    destruct (isNil val); [apply nullBranch_run|].
    unfold mbind at 1, M_bind at 1. unfold try.
    destruct (ValueAsBytes val) as [v|e]; [|reflexivity].
    unfold mret, M_ret.
    destruct (_ <? _); [reflexivity|].
    destruct (_ && _); [reflexivity|].
    rewrite (finish_run _ _ _ _ (updateStrStats_run _)). reflexivity.
  - unfold jsonConverter.ValidateAndConvert, convertJSON.
    destruct (isNil val); [apply nullBranch_run|].
    destruct (_ <? _); [reflexivity|].
    rewrite (finish_run _ _ _ _ (updateStrStats_run _)). reflexivity.
  - unfold jsonArrayConverter.ValidateAndConvert.
    destruct val; simpl; try reflexivity; [apply nullBranch_run|].
    unfold jsonConverter.ValidateAndConvert, convertJSON. simpl.
    destruct (_ <? _); [reflexivity|].
    rewrite (finish_run _ _ _ _ (updateStrStats_run _)). reflexivity.
  - unfold jsonObjectConverter.ValidateAndConvert.
    destruct val; simpl; try reflexivity; [apply nullBranch_run|].
    unfold jsonConverter.ValidateAndConvert, convertJSON. simpl.
    destruct (_ <? _); [reflexivity|].
    rewrite (finish_run _ _ _ _ (updateStrStats_run _)). reflexivity.
  - unfold timestampConverter.ValidateAndConvert.
    destruct (isNil val) eqn:Hnil; [apply nullBranch_run|].
    assert (Henc : forall t s,
      (let t := if timestampConverter.trimTZ c then Time.toUTC t else t in
       let v := snowflakeTimestampInt t (timestampConverter.scale c)
                  (timestampConverter.includeTZ c) in
       if negb (int128.FitsInPrecision v (timestampConverter.precision c))
       then return_ (Some (errTimestampPrecision t v
                             (timestampConverter.precision c)))
       else updateIntStats v;; callBuf (fun b => WriteInt128 b v);;
            (return_ None : M unit)) s
      = match encodeTimestamp c t with
        | Rejected e => Exit (Some e) s
        | Crashed => Panic
        | Accepted v =>
            match write v (buf s) with
            | Some b => Exit None {| stats := observe v (stats s); buf := b |}
            | None => Panic
            end
        end).
    { intros t s0. unfold encodeTimestamp. cbv zeta.
      destruct (int128.FitsInPrecision _ _); simpl; [|reflexivity].
      rewrite (finish_run _ _ _ _ (updateIntStats_run _)). reflexivity. }
    unfold convertTimestamp, parseTimestamp.
    destruct val; try discriminate Hnil; run_M;
      repeat match goal with
        | |- context [match ValueAsTimestamp ?v with _ => _ end] =>
            destruct (ValueAsTimestamp v); simpl
        | |- context [timestampConverter.nonEmpty ?v] =>
            destruct (timestampConverter.nonEmpty v); simpl
        | |- context [match ParseInLocation ?a ?b with _ => _ end] =>
            destruct (ParseInLocation a b); simpl
        end; try reflexivity; apply Henc.
  - unfold timeConverter.ValidateAndConvert, convertTime.
    destruct (isNil val); [apply nullBranch_run|].
    unfold mbind at 1, M_bind at 1. unfold try.
    destruct (ValueAsTimestamp val) as [t|e]; [|reflexivity].
    unfold mret, M_ret.
    unfold mbind at 1, M_bind at 1. unfold orPanic.
    destruct (index _ _) as [d|]; [|reflexivity].
    unfold mret, M_ret.
    rewrite (finish_run _ _ _ _ (updateIntStats_run _)). reflexivity.
  - unfold dateConverter.ValidateAndConvert, convertDate.
    destruct (isNil val); [apply nullBranch_run|].
    unfold mbind at 1, M_bind at 1. unfold try.
    destruct (ValueAsTimestamp val) as [t|e]; [|reflexivity].
    unfold mret, M_ret. cbv zeta.
    destruct (_ || _); [reflexivity|].
    rewrite (finish_run _ _ _ _ (updateIntStats_run _)). reflexivity.
Qed.
End Run.

(** ** Writing a cell *)

Lemma WriteValue_room b v :
  hasRoom b -> typedBufferImpl_WriteValue b v = Some (advance b v).
Proof.
  unfold hasRoom, typedBufferImpl_WriteValue, advance. intros [Hlo Hhi].
  destruct (Z.leb_spec 0 (cellIndex b)); [|lia].
  destruct (Z.ltb_spec (cellIndex b) (GoInt.len (matrix b))); [|lia].
  reflexivity.
Qed.

Lemma WriteValue_full b v :
  ~ hasRoom b -> typedBufferImpl_WriteValue b v = None.
Proof.
  unfold hasRoom, typedBufferImpl_WriteValue. intros Hno.
  destruct (Z.leb_spec 0 (cellIndex b));
    destruct (Z.ltb_spec (cellIndex b) (GoInt.len (matrix b)));
    simpl; try reflexivity.
  exfalso. apply Hno. lia.
Qed.

Lemma hasRoom_dec b : {hasRoom b} + {~ hasRoom b}.
Proof.
  unfold hasRoom.
  destruct (Z_le_dec 0 (cellIndex b));
    destruct (Z_lt_dec (cellIndex b) (GoInt.len (matrix b)));
    [left | right | right | right]; lia.
Qed.

Lemma advance_wroteCell b v : hasRoom b -> wroteCell b (advance b v) v.
Proof.
  unfold hasRoom, wroteCell, advance, GoInt.len. intros [Hlo Hhi]. simpl.
  repeat split.
  - apply list_lookup_insert_eq. lia.
  - intros j Hj. apply list_lookup_insert_ne. congruence.
  - apply length_insert.
Qed.

Lemma promoted_room f tb v :
  (forall b, f b = typedBufferImpl_WriteValue b (v b)) ->
  hasRoom (impl tb) ->
  promoted f tb = Some (withImpl tb (advance (impl tb) (v (impl tb)))).
Proof.
  intros Hf Hroom. destruct tb as [b|b|b]; simpl in *;
    rewrite Hf, (WriteValue_room _ _ Hroom); reflexivity.
Qed.

Lemma promoted_full f tb v :
  (forall b, f b = typedBufferImpl_WriteValue b (v b)) ->
  ~ hasRoom (impl tb) -> promoted f tb = None.
Proof.
  intros Hf Hroom. destruct tb as [b|b|b]; simpl in *;
    rewrite Hf, (WriteValue_full _ _ Hroom); reflexivity.
Qed.

Lemma impl_withImpl tb b : impl (withImpl tb b) = b.
Proof. destruct tb; reflexivity. Qed.

Lemma WriteNull_room tb :
  hasRoom (impl tb) ->
  WriteNull tb = Some (withImpl tb (advance (impl tb) parquet.NullValue)).
Proof.
  intros Hroom. unfold WriteNull.
  apply (promoted_room _ tb (fun _ => parquet.NullValue)); [reflexivity|assumption].
Qed.

Lemma wrap64_id z : GoInt.in_int64 z -> GoInt.wrap64 z = z.
Proof.
  unfold GoInt.in_int64, GoInt.min_int64, GoInt.max_int64, GoInt.wrap64,
    GoInt.wrap.
  intros Hz. change (2 ^ (64 - 1)) with 9223372036854775808.
  change (2 ^ 64) with 18446744073709551616.
  change (2 ^ 63) with 9223372036854775808 in Hz.
  rewrite Z.mod_small; lia.
Qed.

Lemma wrap32_id z : GoInt.in_int32 z -> GoInt.wrap32 z = z.
Proof.
  unfold GoInt.in_int32, GoInt.min_int32, GoInt.max_int32, GoInt.wrap32,
    GoInt.wrap.
  intros Hz. change (2 ^ (32 - 1)) with 2147483648.
  change (2 ^ 32) with 4294967296.
  change (2 ^ 31) with 2147483648 in Hz.
  rewrite Z.mod_small; lia.
Qed.

(** ** Absent values *)

Section Null.
Context `{External}.

(** C2. An absent input to any converter: a column that is not nullable
    answers with the null-value error and leaves the state alone; a
    nullable column (with room in the buffer and a counter below its
    largest value) returns nil, adds exactly one to [nullCount], sets
    exactly the cell of the current row to the null value, and keeps
    [first], the minima, the maxima and [maxStrLen] as they were. *)
Theorem null_input (c : dataConverter) (s : state) :
  (nullable c = false ->
   ValidateAndConvert c VNil s = Exit (Some errNullValue) s) /\
  (nullable c = true ->
   hasRoom (impl (buf s)) ->
   GoInt.min_int64 <= nullCount (stats s) < GoInt.max_int64 ->
   exists s',
     ValidateAndConvert c VNil s = Exit None s' /\
     nullCount (stats s') = nullCount (stats s) + 1 /\
     sameValueStats (stats s) (stats s') /\
     wroteCell (impl (buf s)) (impl (buf s')) parquet.NullValue).
Proof.
  rewrite ValidateAndConvert_run. unfold outcome. simpl. split.
  - intros ->. reflexivity.
  - intros -> Hroom Hcount. rewrite (WriteNull_room _ Hroom).
    eexists. split; [reflexivity|]. simpl. rewrite impl_withImpl.
    split; [|split].
    + apply wrap64_id. unfold GoInt.in_int64, GoInt.min_int64 in *.
      unfold GoInt.max_int64 in *. lia.
    + repeat split.
    + apply advance_wroteCell. assumption.
Qed.
End Null.

Lemma null_input_witness :
  let c := Date (dateConverter.mk true) in
  let s := Reference.start 1 in
  exists s',
    @ValidateAndConvert Reference.env c VNil s = Exit None s' /\
    nullCount (stats s') = nullCount (stats s) + 1 /\
    sameValueStats (stats s) (stats s') /\
    wroteCell (impl (buf s)) (impl (buf s')) parquet.NullValue.
Proof.
  intros c s.
  apply (proj2 (@null_input Reference.env c s)).
  - reflexivity.
  - unfold hasRoom. vm_compute. split; [discriminate | reflexivity].
  - vm_compute. split; [discriminate | reflexivity].
Defined.

(** ** A failed conversion changes nothing *)

Section Atomic.
Context `{External}.

(** C10. Whatever the converter and the input, a call that returns an
    error returns with the statistics and the buffer it was given: no
    cell written, the row cursor where it was, no statistics field
    changed. *)
Theorem error_leaves_state (c : dataConverter) (val : any)
    (s s' : state) (e : error) :
  ValidateAndConvert c val s = Exit (Some e) s' -> s' = s.
Proof.
  rewrite ValidateAndConvert_run. unfold outcome.
  destruct (isNil val).
  - destruct (nullable c).
    + destruct (WriteNull (buf s)); discriminate.
    + intros [= _ <-]. reflexivity.
  - destruct (convert c val) as [v|e'|].
    + destruct (write v (buf s)); discriminate.
    + intros [= _ <-]. reflexivity.
    + discriminate.
Qed.
End Atomic.

Lemma error_leaves_state_witness :
  let c := Binary (binaryConverter.mk false 3 true) in
  let val := VString (Bytes.of_string "abcd") in
  let s := Reference.start 1 in
  @ValidateAndConvert Reference.env c val s
  = Exit (Some (errValueTooLong 4 3)) s /\
  s = s.
Proof.
  intros c val s.
  assert (Hrun : @ValidateAndConvert Reference.env c val s
                 = Exit (Some (errValueTooLong 4 3)) s)
    by (vm_compute; reflexivity).
  split; [exact Hrun|].
  exact (@error_leaves_state Reference.env c val s s _ Hrun).
Defined.

(** ** Accepted values *)

Lemma write_room tb v :
  hasRoom (impl tb) ->
  write v tb = Some (withImpl tb (advance (impl tb) (cellOf tb v))).
Proof.
  intros Hroom. destruct v as [x|z|f|x]; simpl.
  - apply (promoted_room _ tb
             (fun b => parquet.Level (parquet.BooleanValue x) 0 1 (columnIndex b)));
      [reflexivity|assumption].
  - destruct tb as [b|b|b]; simpl in *; unfold cellOf; simpl.
    + unfold typedBufferImpl_WriteInt128.
      rewrite (WriteValue_room _ _ Hroom). reflexivity.
    + unfold int64Buffer_WriteInt128.
      rewrite (WriteValue_room _ _ Hroom). reflexivity.
    + unfold int32Buffer_WriteInt128.
      rewrite (WriteValue_room _ _ Hroom). reflexivity.
  - apply (promoted_room _ tb
             (fun b => parquet.Level (parquet.DoubleValue f) 0 1 (columnIndex b)));
      [reflexivity|assumption].
  - apply (promoted_room _ tb
             (fun b => parquet.Level (parquet.ByteArrayValue x) 0 1 (columnIndex b)));
      [reflexivity|assumption].
Qed.

Lemma write_full tb v : ~ hasRoom (impl tb) -> write v tb = None.
Proof.
  intros Hroom. destruct v as [x|z|f|x]; simpl.
  - apply (promoted_full _ tb
             (fun b => parquet.Level (parquet.BooleanValue x) 0 1 (columnIndex b)));
      [reflexivity|assumption].
  - destruct tb as [b|b|b]; simpl in *.
    + unfold typedBufferImpl_WriteInt128.
      rewrite (WriteValue_full _ _ Hroom). reflexivity.
    + unfold int64Buffer_WriteInt128.
      rewrite (WriteValue_full _ _ Hroom). reflexivity.
    + unfold int32Buffer_WriteInt128.
      rewrite (WriteValue_full _ _ Hroom). reflexivity.
  - apply (promoted_full _ tb
             (fun b => parquet.Level (parquet.DoubleValue f) 0 1 (columnIndex b)));
      [reflexivity|assumption].
  - apply (promoted_full _ tb
             (fun b => parquet.Level (parquet.ByteArrayValue x) 0 1 (columnIndex b)));
      [reflexivity|assumption].
Qed.

Section Accepted.
Context `{External}.

Lemma accepted_run c val s v :
  isNil val = false -> convert c val = Accepted v ->
  hasRoom (impl (buf s)) ->
  exists s', ValidateAndConvert c val s = Exit None s' /\ stored s s' v.
Proof.
  intros Hnil Hconv Hroom. rewrite ValidateAndConvert_run. unfold outcome.
  rewrite Hnil, Hconv, (write_room _ _ Hroom).
  eexists. split; [reflexivity|]. unfold stored. simpl.
  rewrite impl_withImpl. split; [reflexivity|]. split.
  - apply advance_wroteCell. assumption.
  - reflexivity.
Qed.

Lemma convertColumn_cons c val rest s :
  convertColumn c (val :: rest) s
  = match ValidateAndConvert c val s with
    | Cont _ s' | Exit None s' => convertColumn c rest s'
    | Exit (Some e) s' => Exit (Some e) s'
    | Panic => Panic
    end.
Proof.
  change (convertColumn c (val :: rest) s)
    with (mbind (fun err : option error =>
                   match err with
                   | Some e => return_ (Some e)
                   | None => convertColumn c rest
                   end) (call (ValidateAndConvert c val)) s).
  unfold mbind, M_bind, call.
  destruct (ValidateAndConvert c val s) as [a s'|[e|] s'|]; reflexivity.
Qed.

Lemma rejected_run c val s e :
  isNil val = false -> convert c val = Rejected e ->
  ValidateAndConvert c val s = Exit (Some e) s.
Proof.
  intros Hnil Hconv. rewrite ValidateAndConvert_run. unfold outcome.
  rewrite Hnil, Hconv. reflexivity.
Qed.
End Accepted.

(** ** Binary and string columns *)

Section BinaryChecks.
Context `{External}.

(** C7. A non-nil input that [ValueAsBytes] turns into [v]: longer than
    [maxLength], it is refused with the too-long error carrying [len(v)]
    and [maxLength]; else, on a UTF-8 column, bytes that are not valid
    UTF-8 are refused with the invalid-UTF8 error; in both cases nothing
    is written or counted.  A value passing both checks is written and
    counted.  With [maxLength] 3 and UTF-8 required, "ab" is accepted
    and "abcd" then refused with lengths 4 and 3, leaving [nullCount] 0
    and [maxStrLen] 2. *)
Theorem binary_checks (c : binaryConverter.t) (val : any)
    (v : list byte) (s : state) :
  isNil val = false ->
  ValueAsBytes val = Ok v ->
  (binaryConverter.maxLength c < GoInt.len v ->
   ValidateAndConvert (Binary c) val s
   = Exit (Some (errValueTooLong (GoInt.len v) (binaryConverter.maxLength c))) s)
  /\
  (GoInt.len v <= binaryConverter.maxLength c ->
   binaryConverter.utf8 c = true -> Bytes.Valid v = false ->
   ValidateAndConvert (Binary c) val s = Exit (Some errInvalidUTF8) s)
  /\
  (GoInt.len v <= binaryConverter.maxLength c ->
   (binaryConverter.utf8 c = true -> Bytes.Valid v = true) ->
   hasRoom (impl (buf s)) ->
   exists s', ValidateAndConvert (Binary c) val s = Exit None s'
              /\ stored s s' (EBytes v))
  /\
  (ValueAsBytes (VString (Bytes.of_string "ab"))
     = Ok (Bytes.of_string "ab") ->
   ValueAsBytes (VString (Bytes.of_string "abcd"))
     = Ok (Bytes.of_string "abcd") ->
   stats s = freshStats ->
   hasRoom (impl (buf s)) ->
   let c3 := Binary (binaryConverter.mk false 3 true) in
   exists s1,
     ValidateAndConvert c3 (VString (Bytes.of_string "ab")) s = Exit None s1
     /\ ValidateAndConvert c3 (VString (Bytes.of_string "abcd")) s1
        = Exit (Some (errValueTooLong 4 3)) s1
     /\ convertColumn c3
          [VString (Bytes.of_string "ab"); VString (Bytes.of_string "abcd")] s
        = Exit (Some (errValueTooLong 4 3)) s1
     /\ stored s s1 (EBytes (Bytes.of_string "ab"))
     /\ nullCount (stats s1) = 0 /\ maxStrLen (stats s1) = 2
     /\ minStrVal (stats s1) = Bytes.of_string "ab"
     /\ maxStrVal (stats s1) = Bytes.of_string "ab").
Proof.
  intros Hnil Hv. repeat split.
  - intros Hlong. apply rejected_run; [assumption|].
    simpl. unfold convertBinary. rewrite Hv.
    destruct (Z.ltb_spec (binaryConverter.maxLength c) (GoInt.len v));
      [reflexivity|lia].
  - intros Hfit Hutf Hbad. apply rejected_run; [assumption|].
    simpl. unfold convertBinary. rewrite Hv, Hutf, Hbad.
    destruct (Z.ltb_spec (binaryConverter.maxLength c) (GoInt.len v));
      [lia|reflexivity].
  - intros Hfit Hutf Hroom. apply accepted_run; [assumption| |assumption].
    simpl. unfold convertBinary. rewrite Hv.
    destruct (Z.ltb_spec (binaryConverter.maxLength c) (GoInt.len v));
      [lia|].
    destruct (binaryConverter.utf8 c); [|reflexivity].
    rewrite Hutf; reflexivity.
  - intros Hab Habcd Hfresh Hroom c3.
    destruct (accepted_run c3 (VString (Bytes.of_string "ab")) s
                (EBytes (Bytes.of_string "ab")))
      as (s1 & Hrun1 & Hst); [reflexivity| |assumption|].
    { simpl. unfold convertBinary. rewrite Hab. reflexivity. }
    assert (Hrun2 : ValidateAndConvert c3 (VString (Bytes.of_string "abcd")) s1
                    = Exit (Some (errValueTooLong 4 3)) s1).
    { apply rejected_run; [reflexivity|].
      simpl. unfold convertBinary. rewrite Habcd. reflexivity. }
    exists s1. split; [assumption|]. split; [assumption|].
    split.
    { rewrite convertColumn_cons, Hrun1, convertColumn_cons, Hrun2.
      reflexivity. }
    split; [assumption|].
    destruct Hst as (Hstats & _). rewrite Hstats, Hfresh.
    repeat split.
Qed.
End BinaryChecks.

Lemma binary_checks_witness :
  let c := binaryConverter.mk false 3 true in
  let val := VString (Bytes.of_string "ab") in
  let s := Reference.start 2 in
  exists s1,
    @ValidateAndConvert Reference.env (Binary c) val s = Exit None s1
    /\ @ValidateAndConvert Reference.env (Binary c)
         (VString (Bytes.of_string "abcd")) s1
       = Exit (Some (errValueTooLong 4 3)) s1
    /\ nullCount (stats s1) = 0 /\ maxStrLen (stats s1) = 2.
Proof.
  intros c val s.
  assert (Hroom : hasRoom (impl (buf s))).
  { unfold hasRoom. vm_compute. split; [discriminate|reflexivity]. }
  destruct (@binary_checks Reference.env c val (Bytes.of_string "ab") s
              eq_refl eq_refl)
    as (_ & _ & _ & Hscen).
  destruct (Hscen eq_refl eq_refl eq_refl Hroom)
    as (s1 & H1 & H2 & _ & _ & Hn & Hl & _).
  exists s1. repeat split; assumption.
Defined.

(** ** Dates *)

Lemma quot_in_int64 z d :
  GoInt.in_int64 z -> 0 < d -> GoInt.wrap64 (z ÷ d) = z ÷ d.
Proof.
  intros Hz Hd. apply wrap64_id.
  unfold GoInt.in_int64, GoInt.min_int64, GoInt.max_int64 in *.
  destruct (Z_le_gt_dec 0 z) as [Hpos|Hneg].
  - rewrite Z.quot_div_nonneg by lia.
    assert (0 <= z / d) by (apply Z.div_pos; lia).
    assert (z / d <= z) by (apply Z.div_le_upper_bound; nia).
    lia.
  - assert (Hopp : z ÷ d = - ((- z) ÷ d)) by (rewrite Z.quot_opp_l by lia; lia).
    rewrite Hopp. rewrite Z.quot_div_nonneg by lia.
    assert (0 <= (- z) / d) by (apply Z.div_pos; lia).
    assert ((- z) / d <= - z) by (apply Z.div_le_upper_bound; nia).
    lia.
Qed.

Section DateColumn.
Context `{External}.

Lemma convertDate_in val t :
  ValueAsTimestamp val = Ok t ->
  -9999 <= Time.Year (Time.toUTC t) <= 9999 ->
  GoInt.in_int64 (Time.Unix t) ->
  convertDate val = Accepted (EInt (Time.Unix t ÷ 86400)).
Proof.
  intros Ht Hy Hu. unfold convertDate. rewrite Ht. cbv zeta.
  destruct (Z.ltb_spec (Time.Year (Time.toUTC t)) (-9999)); [lia|].
  destruct (Z.ltb_spec 9999 (Time.Year (Time.toUTC t))); [lia|].
  simpl. rewrite quot_in_int64; [reflexivity|assumption|lia].
Qed.

Lemma convertDate_out val t :
  ValueAsTimestamp val = Ok t ->
  Time.Year (Time.toUTC t) < -9999 \/ 9999 < Time.Year (Time.toUTC t) ->
  convertDate val = Rejected (errDateOutOfRange (Time.Year (Time.toUTC t))).
Proof.
  intros Ht Hy. unfold convertDate. rewrite Ht. cbv zeta.
  destruct (Z.ltb_spec (Time.Year (Time.toUTC t)) (-9999)); [reflexivity|].
  destruct (Z.ltb_spec 9999 (Time.Year (Time.toUTC t))); [reflexivity|lia].
Qed.

(** C5. A non-nil input that [ValueAsTimestamp] turns into [t]: with
    the UTC year of [t] below -9999 or above 9999 the date converter
    returns the out-of-range error carrying that year, and nothing is
    written; otherwise it stores [t.Unix() / 86400] (Go's integer
    division).  The first second of year -9999 and the last second of
    year 9999 are stored; the second before and the second after are
    refused with years -10000 and 10000.  The division counts the whole
    days between the epoch and [t]: the floor of the quotient from the
    epoch on, and its negated mirror image before it. *)
Theorem date_range_and_days (c : dateConverter.t) (val : any)
    (t : Time.t) (s : state) :
  isNil val = false ->
  ValueAsTimestamp val = Ok t ->
  GoInt.in_int64 (Time.Unix t) ->
  let y := Time.Year (Time.toUTC t) in
  (y < -9999 \/ 9999 < y ->
   ValidateAndConvert (Date c) val s = Exit (Some (errDateOutOfRange y)) s)
  /\
  (-9999 <= y <= 9999 -> hasRoom (impl (buf s)) ->
   exists s', ValidateAndConvert (Date c) val s = Exit None s'
              /\ stored s s' (EInt (Time.Unix t ÷ 86400)))
  /\
  (t = Reference.firstOfYearMinus9999 -> hasRoom (impl (buf s)) ->
   y = -9999 /\
   exists s', ValidateAndConvert (Date c) val s = Exit None s'
              /\ stored s s' (EInt (-4371587)))
  /\
  (t = Reference.lastOfYear9999 -> hasRoom (impl (buf s)) ->
   y = 9999 /\
   exists s', ValidateAndConvert (Date c) val s = Exit None s'
              /\ stored s s' (EInt 2932896))
  /\
  (t = Reference.lastOfYearMinus10000 ->
   ValidateAndConvert (Date c) val s
   = Exit (Some (errDateOutOfRange (-10000))) s)
  /\
  (t = Reference.firstOfYear10000 ->
   ValidateAndConvert (Date c) val s
   = Exit (Some (errDateOutOfRange 10000)) s)
  /\
  (0 <= Time.Unix t -> Time.Unix t ÷ 86400 = Time.Unix t / 86400)
  /\
  (Time.Unix t <= 0 -> Time.Unix t ÷ 86400 = - ((- Time.Unix t) / 86400)).
Proof.
  intros Hnil Ht Hu y.
  assert (Hout : y < -9999 \/ 9999 < y ->
    ValidateAndConvert (Date c) val s = Exit (Some (errDateOutOfRange y)) s).
  { intros Hy. apply rejected_run; [assumption|].
    apply convertDate_out; assumption. }
  assert (Hin : -9999 <= y <= 9999 -> hasRoom (impl (buf s)) ->
    exists s', ValidateAndConvert (Date c) val s = Exit None s'
               /\ stored s s' (EInt (Time.Unix t ÷ 86400))).
  { intros Hy Hroom. apply accepted_run; [assumption| |assumption].
    apply convertDate_in; assumption. }
  split; [exact Hout|]. split; [exact Hin|].
  split; [|split; [|split; [|split; [|split]]]].
  - intros Heq Hroom. subst y.
    assert (Hy : Time.Year (Time.toUTC t) = -9999)
      by (rewrite Heq; vm_compute; reflexivity).
    split; [exact Hy|].
    replace (-4371587) with (Time.Unix t ÷ 86400)
      by (rewrite Heq; vm_compute; reflexivity).
    apply Hin; [lia|assumption].
  - intros Heq Hroom. subst y.
    assert (Hy : Time.Year (Time.toUTC t) = 9999)
      by (rewrite Heq; vm_compute; reflexivity).
    split; [exact Hy|].
    replace 2932896 with (Time.Unix t ÷ 86400)
      by (rewrite Heq; vm_compute; reflexivity).
    apply Hin; [lia|assumption].
  - intros Heq. subst y.
    assert (Hy : Time.Year (Time.toUTC t) = -10000)
      by (rewrite Heq; vm_compute; reflexivity).
    rewrite <- Hy. apply Hout. lia.
  - intros Heq. subst y.
    assert (Hy : Time.Year (Time.toUTC t) = 10000)
      by (rewrite Heq; vm_compute; reflexivity).
    rewrite <- Hy. apply Hout. lia.
  - intros Hpos. apply Z.quot_div_nonneg; lia.
  - intros Hneg.
    replace (Time.Unix t) with (- (- Time.Unix t)) at 1 by lia.
    rewrite Z.quot_opp_l by lia. rewrite Z.quot_div_nonneg by lia.
    reflexivity.
Qed.
End DateColumn.

Lemma date_range_and_days_witness :
  let c := dateConverter.mk false in
  let t := Reference.firstOfYearMinus9999 in
  let s := Reference.start 1 in
  Time.Year (Time.toUTC t) = -9999 /\
  exists s', @ValidateAndConvert Reference.env (Date c) (VTime t) s = Exit None s'
             /\ stored s s' (EInt (-4371587)).
Proof.
  intros c t s.
  assert (Hroom : hasRoom (impl (buf s))).
  { unfold hasRoom. vm_compute. split; [discriminate|reflexivity]. }
  assert (Hu : GoInt.in_int64 (Time.Unix t)).
  { vm_compute. split; discriminate. }
  destruct (@date_range_and_days Reference.env c (VTime t) t s
              eq_refl eq_refl Hu)
    as (_ & _ & Hfirst & _).
  exact (Hfirst eq_refl Hroom).
Defined.

(** ** Time of day *)

Lemma nanosOfDay_range t :
  0 <= Time.nsec t < 1000000000 ->
  0 <= nanosOfDay t < 86400000000000.
Proof.
  intros Hn. unfold nanosOfDay, Time.Hour, Time.Minute, Time.Second,
    Time.Nanosecond, Time.secondsOfDay, Time.toUTC, Time.In, Time.wall.
  simpl. set (w := (Time.sec t + 0) mod 86400).
  assert (Hw : 0 <= w < 86400) by (apply Z.mod_pos_bound; lia).
  assert (Hh : 0 <= w / 3600 <= 23).
  { split; [apply Z.div_pos; lia|].
    apply Z.lt_succ_r. apply Z.div_lt_upper_bound; lia. }
  assert (Hm3 : 0 <= w mod 3600 < 3600) by (apply Z.mod_pos_bound; lia).
  assert (Hm : 0 <= (w mod 3600) / 60 <= 59).
  { split; [apply Z.div_pos; lia|].
    apply Z.lt_succ_r. apply Z.div_lt_upper_bound; lia. }
  assert (Hs : 0 <= w mod 60 < 60) by (apply Z.mod_pos_bound; lia).
  lia.
Qed.

Lemma pow10Table_scale sc :
  0 <= sc <= 9 ->
  index pow10TableInt64 (GoInt.wrap32 (9 - sc)) = Some (10 ^ (9 - sc)).
Proof.
  intros Hsc.
  assert (Hcases : sc = 0 \/ sc = 1 \/ sc = 2 \/ sc = 3 \/ sc = 4 \/ sc = 5
                   \/ sc = 6 \/ sc = 7 \/ sc = 8 \/ sc = 9) by lia.
  repeat (destruct Hcases as [-> | Hcases]; [vm_compute; reflexivity|]).
  subst sc. vm_compute. reflexivity.
Qed.

Section TimeColumn.
Context `{External}.

(** C6. A non-nil input that [ValueAsTimestamp] turns into [t], on a
    time-of-day column of scale 0 to 9: the value stored is the
    nanoseconds since midnight UTC (hour, minute, second and nanosecond
    of [t] in UTC) divided by [10^(9-scale)], cut off and never rounded
    up: it is the largest integer whose multiple of [10^(9-scale)] does
    not exceed the nanoseconds.  At 23:59:59.999999999 the ten scales
    give 86399, 863999, ..., 86399999999999. *)
Theorem time_of_day_truncates (c : timeConverter.t) (val : any)
    (t : Time.t) (s : state) :
  isNil val = false ->
  ValueAsTimestamp val = Ok t ->
  0 <= Time.nsec t < 1000000000 ->
  0 <= timeConverter.scale c <= 9 ->
  hasRoom (impl (buf s)) ->
  let nanos :=
    Time.Hour (Time.toUTC t) * 3600000000000
    + Time.Minute (Time.toUTC t) * 60000000000
    + Time.Second (Time.toUTC t) * 1000000000
    + Time.Nanosecond (Time.toUTC t) in
  let unit := 10 ^ (9 - timeConverter.scale c) in
  let v := nanos ÷ unit in
  (exists s', ValidateAndConvert (TimeOfDay c) val s = Exit None s'
              /\ stored s s' (EInt v))
  /\ v * unit <= nanos < (v + 1) * unit
  /\ (t = Reference.lastNano ->
      nanos = 86399999999999 /\
      map (fun sc => nanos ÷ 10 ^ (9 - sc)) [0; 1; 2; 3; 4; 5; 6; 7; 8; 9]
      = [86399; 863999; 8639999; 86399999; 863999999; 8639999999;
         86399999999; 863999999999; 8639999999999; 86399999999999]).
Proof.
  intros Hnil Ht Hns Hsc Hroom nanos unit v.
  change nanos with (nanosOfDay t) in *.
  pose proof (nanosOfDay_range t Hns) as Hrange.
  assert (Hunit : 0 < unit) by (apply Z.pow_pos_nonneg; lia).
  assert (Hv : v = nanosOfDay t / unit)
    by (apply Z.quot_div_nonneg; lia).
  split; [|split].
  - apply accepted_run; [assumption| |assumption].
    simpl. unfold convertTime. rewrite Ht, (pow10Table_scale _ Hsc).
    fold unit.
    rewrite (wrap64_id (nanosOfDay t))
      by (unfold GoInt.in_int64, GoInt.min_int64, GoInt.max_int64; lia).
    rewrite quot_in_int64;
      [reflexivity
      |unfold GoInt.in_int64, GoInt.min_int64, GoInt.max_int64; lia
      |assumption].
  - rewrite Hv.
    pose proof (Z.mul_div_le (nanosOfDay t) unit Hunit).
    pose proof (Z.mul_succ_div_gt (nanosOfDay t) unit Hunit).
    lia.
  - intros ->. vm_compute. split; reflexivity.
Qed.
End TimeColumn.

Lemma time_of_day_truncates_witness :
  let c := timeConverter.mk false 3 in
  let s := Reference.start 1 in
  exists s',
    @ValidateAndConvert Reference.env (TimeOfDay c)
      (VTime Reference.lastNano) s = Exit None s'
    /\ stored s s' (EInt 86399999).
Proof.
  intros c s.
  assert (Hroom : hasRoom (impl (buf s))).
  { unfold hasRoom. vm_compute. split; [discriminate|reflexivity]. }
  destruct (@time_of_day_truncates Reference.env c (VTime Reference.lastNano)
              Reference.lastNano s eq_refl eq_refl)
    as (Hrun & _); [vm_compute; split; [discriminate|reflexivity]
                   |vm_compute; split; discriminate
                   |exact Hroom|].
  exact Hrun.
Defined.

(** ** Big-endian bytes *)

Lemma code_byte_of_Z z : Bytes.code (int128.byte_of_Z z) = z mod 256.
Proof.
  unfold Bytes.code, int128.byte_of_Z.
  assert (Hm : 0 <= z mod 256 < 256) by (apply Z.mod_pos_bound; lia).
  destruct (Byte.of_N (Z.to_N (z mod 256))) as [b|] eqn:Hb.
  - apply Byte.to_of_N in Hb. rewrite Hb. lia.
  - apply Byte.of_N_None_iff in Hb. lia.
Qed.

Lemma be_unsigned_snoc l b :
  int128.be_unsigned (l ++ [b]) = int128.be_unsigned l * 256 + Bytes.code b.
Proof. unfold int128.be_unsigned. rewrite fold_left_app. reflexivity. Qed.

Lemma be_bytes_length n z : length (int128.be_bytes n z) = n.
Proof.
  revert z. induction n as [|n IH]; intros z; simpl; [reflexivity|].
  rewrite length_app, IH. simpl. lia.
Qed.

Lemma be_unsigned_be_bytes n z :
  int128.be_unsigned (int128.be_bytes n z) = z mod 256 ^ Z.of_nat n.
Proof.
  revert z. induction n as [|n IH]; intros z.
  - simpl. rewrite Z.mod_1_r. reflexivity.
  - cbn [int128.be_bytes]. rewrite be_unsigned_snoc, IH, code_byte_of_Z.
    rewrite Nat2Z.inj_succ, Z.pow_succ_r by lia.
    rewrite (Z.rem_mul_r z 256 (256 ^ Z.of_nat n)); [lia|lia|].
    apply Z.pow_pos_nonneg; lia.
Qed.

(** The sixteen bytes of [ToBigEndian] read back as the number. *)
Lemma be_signed_ToBigEndian v :
  int128.in_range v -> int128.be_signed (int128.ToBigEndian v) = v.
Proof.
  unfold int128.in_range, int128.MinInt128, int128.MaxInt128,
    int128.be_signed, int128.ToBigEndian, GoInt.len.
  intros Hv. rewrite be_bytes_length, be_unsigned_be_bytes.
  change (8 * Z.of_nat 16) with 128. change (256 ^ Z.of_nat 16) with (2 ^ 128).
  unfold GoInt.wrap. change (128 - 1) with 127.
  rewrite Zplus_mod_idemp_l.
  assert (H127 : 2 ^ 128 = 2 * 2 ^ 127) by reflexivity.
  assert (0 < 2 ^ 127) by (apply Z.pow_pos_nonneg; lia).
  rewrite Z.mod_small; lia.
Qed.

(** ** Narrow buffers *)

Lemma in_int64_in_range v : GoInt.in_int64 v -> int128.in_range v.
Proof.
  unfold GoInt.in_int64, int128.in_range, GoInt.min_int64, GoInt.max_int64,
    int128.MinInt128, int128.MaxInt128.
  assert (2 ^ 63 < 2 ^ 127) by (apply Z.pow_lt_mono_r; lia). lia.
Qed.

Lemma in_int32_in_int64 v : GoInt.in_int32 v -> GoInt.in_int64 v.
Proof.
  unfold GoInt.in_int64, GoInt.in_int32, GoInt.min_int64, GoInt.max_int64,
    GoInt.min_int32, GoInt.max_int32.
  assert (2 ^ 31 < 2 ^ 63) by (apply Z.pow_lt_mono_r; lia). lia.
Qed.

(** The wrap to [bits] bits is the integer of the signed range that is
    congruent to the number modulo [2^bits]. *)
Lemma wrap_low bits z :
  0 < bits ->
  - 2 ^ (bits - 1) <= GoInt.wrap bits z < 2 ^ (bits - 1) /\
  GoInt.wrap bits z mod 2 ^ bits = z mod 2 ^ bits.
Proof.
  intros Hb. unfold GoInt.wrap.
  assert (Hp : 2 ^ bits = 2 * 2 ^ (bits - 1)).
  { rewrite <- Z.pow_succ_r by lia. f_equal. lia. }
  assert (Hh : 0 < 2 ^ (bits - 1)) by (apply Z.pow_pos_nonneg; lia).
  pose proof (Z.mod_pos_bound (z + 2 ^ (bits - 1)) (2 ^ bits) ltac:(lia)).
  split; [lia|].
  rewrite Zminus_mod_idemp_l. f_equal. lia.
Qed.

Lemma wrap32_wrap64_low z :
  GoInt.wrap32 (GoInt.wrap64 z) mod 2 ^ 32 = z mod 2 ^ 32.
Proof.
  unfold GoInt.wrap32, GoInt.wrap64.
  rewrite (proj2 (wrap_low 32 _ ltac:(lia))).
  assert (Hdiv : (2 ^ 32 | 2 ^ 64)) by (exists (2 ^ 32); reflexivity).
  rewrite <- (Z.mod_mod_divide (GoInt.wrap 64 z) (2 ^ 64) (2 ^ 32) Hdiv).
  rewrite (proj2 (wrap_low 64 z ltac:(lia))).
  apply Z.mod_mod_divide. assumption.
Qed.

(** C4, as the code has it.  In a buffer with room, for a number within
    the [int64] range, [int64Buffer.WriteInt128] and the generic
    [typedBufferImpl.WriteInt128] fill the same cell, move the same row
    cursor and store cells with the same levels and column that stand for
    the same integer, the number itself; likewise [int32Buffer.WriteInt128]
    for a number within the [int32] range.  Without room all three panic.
    For any number, the cell [int64Buffer] stores stands for the integer
    of the [int64] range congruent to the number modulo [2^64], and the
    cell [int32Buffer] stores for the integer of the [int32] range
    congruent to it modulo [2^32]: the low 64 or 32 bits, read as signed,
    which is not the number when the number is outside that range; the
    generic buffer stores the number itself over the whole 128-bit
    range. *)
Theorem narrow_buffers_agree_in_range (b : typedBufferImpl) (v : int128.Num) :
  let same (narrow : typedBufferImpl -> int128.Num -> option typedBufferImpl) :=
    exists bn bg cn cg,
      narrow b v = Some bn /\
      typedBufferImpl_WriteInt128 b v = Some bg /\
      wroteCell b bn cn /\ wroteCell b bg cg /\
      parquet.logical cn = Some v /\ parquet.logical cg = Some v /\
      parquet.repetitionLevel cn = parquet.repetitionLevel cg /\
      parquet.definitionLevel cn = parquet.definitionLevel cg /\
      parquet.column cn = parquet.column cg in
  let low (narrow : typedBufferImpl -> int128.Num -> option typedBufferImpl)
      (bits : Z) :=
    exists bn cn r,
      narrow b v = Some bn /\ wroteCell b bn cn /\
      parquet.logical cn = Some r /\
      - 2 ^ (bits - 1) <= r < 2 ^ (bits - 1) /\
      r mod 2 ^ bits = v mod 2 ^ bits /\
      (~ - 2 ^ (bits - 1) <= v < 2 ^ (bits - 1) -> r <> v) in
  (hasRoom b -> GoInt.in_int64 v -> same int64Buffer_WriteInt128) /\
  (hasRoom b -> GoInt.in_int32 v -> same int32Buffer_WriteInt128) /\
  (~ hasRoom b ->
   int64Buffer_WriteInt128 b v = None /\
   int32Buffer_WriteInt128 b v = None /\
   typedBufferImpl_WriteInt128 b v = None) /\
  (hasRoom b -> low int64Buffer_WriteInt128 64) /\
  (hasRoom b -> low int32Buffer_WriteInt128 32) /\
  (hasRoom b -> int128.in_range v ->
   exists bg cg,
     typedBufferImpl_WriteInt128 b v = Some bg /\ wroteCell b bg cg /\
     parquet.logical cg = Some v).
Proof.
  cbv zeta. split; [|split; [|split; [|split; [|split]]]].
  - intros Hroom Hv.
    unfold int64Buffer_WriteInt128, typedBufferImpl_WriteInt128.
    rewrite !(WriteValue_room _ _ Hroom).
    do 4 eexists. split; [reflexivity|]. split; [reflexivity|].
    split; [apply advance_wroteCell; assumption|].
    split; [apply advance_wroteCell; assumption|].
    unfold parquet.logical. simpl.
    rewrite be_signed_ToBigEndian by (apply in_int64_in_range; assumption).
    unfold int128.ToInt64. rewrite wrap64_id by assumption.
    repeat split.
  - intros Hroom Hv.
    unfold int32Buffer_WriteInt128, typedBufferImpl_WriteInt128.
    rewrite !(WriteValue_room _ _ Hroom).
    do 4 eexists. split; [reflexivity|]. split; [reflexivity|].
    split; [apply advance_wroteCell; assumption|].
    split; [apply advance_wroteCell; assumption|].
    unfold parquet.logical. simpl.
    rewrite be_signed_ToBigEndian
      by (apply in_int64_in_range, in_int32_in_int64; assumption).
    unfold int128.ToInt64.
    rewrite wrap64_id by (apply in_int32_in_int64; assumption).
    rewrite wrap32_id by assumption.
    repeat split.
  - intros Hfull.
    unfold int64Buffer_WriteInt128, int32Buffer_WriteInt128,
      typedBufferImpl_WriteInt128.
    rewrite !(WriteValue_full _ _ Hfull). repeat split.
  - intros Hroom. unfold int64Buffer_WriteInt128.
    rewrite (WriteValue_room _ _ Hroom).
    exists (advance b (parquet.Level (parquet.Int64Value (int128.ToInt64 v))
                         0 1 (columnIndex b))),
      (parquet.Level (parquet.Int64Value (int128.ToInt64 v))
         0 1 (columnIndex b)),
      (GoInt.wrap64 v).
    split; [reflexivity|].
    split; [apply advance_wroteCell; assumption|].
    split; [reflexivity|].
    destruct (wrap_low 64 v ltac:(lia)) as [Hr Hm].
    split; [exact Hr|]. split; [exact Hm|].
    intros Hout Heq. apply Hout. unfold GoInt.wrap64 in Heq.
    rewrite <- Heq. exact Hr.
  - intros Hroom. unfold int32Buffer_WriteInt128.
    rewrite (WriteValue_room _ _ Hroom).
    exists (advance b (parquet.Level
                         (parquet.Int32Value
                            (GoInt.wrap32 (int128.ToInt64 v)))
                         0 1 (columnIndex b))),
      (parquet.Level (parquet.Int32Value (GoInt.wrap32 (int128.ToInt64 v)))
         0 1 (columnIndex b)),
      (GoInt.wrap32 (GoInt.wrap64 v)).
    split; [reflexivity|].
    split; [apply advance_wroteCell; assumption|].
    split; [reflexivity|].
    destruct (wrap_low 32 (GoInt.wrap64 v) ltac:(lia)) as [Hr _].
    split; [exact Hr|]. split; [apply wrap32_wrap64_low|].
    intros Hout Heq. apply Hout. unfold GoInt.wrap32 in Heq.
    rewrite <- Heq. exact Hr.
  - intros Hroom Hv. unfold typedBufferImpl_WriteInt128.
    rewrite (WriteValue_room _ _ Hroom).
    do 2 eexists. split; [reflexivity|].
    split; [apply advance_wroteCell; assumption|].
    unfold parquet.logical. simpl.
    rewrite be_signed_ToBigEndian by assumption. reflexivity.
Qed.

Lemma narrow_buffers_agree_in_range_witness :
  let b := impl (Reference.column 1) in
  exists bn bg cn cg,
    int32Buffer_WriteInt128 b (-7) = Some bn /\
    typedBufferImpl_WriteInt128 b (-7) = Some bg /\
    wroteCell b bn cn /\ wroteCell b bg cg /\
    parquet.logical cn = Some (-7) /\ parquet.logical cg = Some (-7) /\
    parquet.repetitionLevel cn = parquet.repetitionLevel cg /\
    parquet.definitionLevel cn = parquet.definitionLevel cg /\
    parquet.column cn = parquet.column cg.
Proof.
  intros b.
  apply (proj1 (proj2 (narrow_buffers_agree_in_range b (-7)))).
  - unfold hasRoom. vm_compute. split; [discriminate|reflexivity].
  - vm_compute. split; discriminate.
Defined.

(** C4, as stated, fails: 2^31 written through [int32Buffer] reads back as
    -2^31, and 2^63 written through [int64Buffer] as -2^63, while the
    generic buffer keeps both. *)
Lemma narrow_buffers_differ_out_of_range :
  let b := impl (Reference.column 1) in
  logicalAt (WriteInt128 (int32Buffer b) (2 ^ 31)) 0 = Some (- 2 ^ 31) /\
  logicalAt (WriteInt128 (genericBuffer b) (2 ^ 31)) 0 = Some (2 ^ 31) /\
  logicalAt (WriteInt128 (int64Buffer b) (2 ^ 63)) 0 = Some (- 2 ^ 63) /\
  logicalAt (WriteInt128 (genericBuffer b) (2 ^ 63)) 0 = Some (2 ^ 63) /\
  logicalAt (WriteInt128 (int32Buffer b) (2 ^ 31)) 0
  <> logicalAt (WriteInt128 (genericBuffer b) (2 ^ 31)) 0.
Proof.
  cbv zeta. repeat split; try (vm_compute; reflexivity).
  vm_compute. discriminate.
Qed.

(** ** What a successful call has done *)

Section Success.
Context `{External}.

Lemma success_inv c val s s' :
  isNil val = false ->
  ValidateAndConvert c val s = Exit None s' ->
  exists v, convert c val = Accepted v /\ stored s s' v.
Proof.
  intros Hnil. destruct (hasRoom_dec (impl (buf s))) as [Hroom|Hfull].
  - destruct (convert c val) as [v|e|] eqn:Hconv.
    + destruct (accepted_run c val s v Hnil Hconv Hroom) as (s1 & Hrun & Hst).
      rewrite Hrun. intros [= <-]. exists v. split; [reflexivity|assumption].
    + rewrite (rejected_run c val s e Hnil Hconv). discriminate.
    + rewrite ValidateAndConvert_run. unfold outcome.
      rewrite Hnil, Hconv. discriminate.
  - rewrite ValidateAndConvert_run. unfold outcome. rewrite Hnil.
    destruct (convert c val) as [v|e|]; try discriminate.
    rewrite (write_full _ _ Hfull). discriminate.
Qed.
End Success.

(** ** Floating-point columns *)

Lemma float_min_nan_r x v :
  Float64.is_nan v = true -> Float64.is_nan (Float64.min x v) = true.
Proof.
  intros Hv. unfold Float64.min.
  destruct (Float64.is_nan x) eqn:Hx; [assumption|].
  rewrite Hv. assumption.
Qed.

Lemma float_max_nan_r x v :
  Float64.is_nan v = true -> Float64.is_nan (Float64.max x v) = true.
Proof.
  intros Hv. unfold Float64.max.
  destruct (Float64.is_nan x) eqn:Hx; [assumption|].
  rewrite Hv. assumption.
Qed.

Lemma float_min_nan_l x v :
  Float64.is_nan x = true -> Float64.is_nan (Float64.min x v) = true.
Proof. intros Hx. unfold Float64.min. rewrite Hx. assumption. Qed.

Lemma float_max_nan_l x v :
  Float64.is_nan x = true -> Float64.is_nan (Float64.max x v) = true.
Proof. intros Hx. unfold Float64.max. rewrite Hx. assumption. Qed.

Lemma float_min_cases x v :
  Float64.is_nan x = false -> Float64.is_nan v = false ->
  Float64.min x v = x \/ Float64.min x v = v.
Proof.
  intros Hx Hv. unfold Float64.min. rewrite Hx, Hv.
  destruct (Float64.lt v x); [right; reflexivity|].
  destruct (Float64.lt x v); [left; reflexivity|].
  destruct (Float64.is_neg_zero v); [right|left]; reflexivity.
Qed.

Lemma float_max_cases x v :
  Float64.is_nan x = false -> Float64.is_nan v = false ->
  Float64.max x v = x \/ Float64.max x v = v.
Proof.
  intros Hx Hv. unfold Float64.max. rewrite Hx, Hv.
  destruct (Float64.lt x v); [right; reflexivity|].
  destruct (Float64.lt v x); [left; reflexivity|].
  destruct (Float64.is_pos_zero v); [right|left]; reflexivity.
Qed.

Section DoubleColumn.
Context `{External}.

(** C9, as the code has it.  The floating-point converter has no test
    for NaN: a successful call on a non-nil input has stored exactly the
    float64 [ValueAsFloat64] returned, NaN or not.  If that value is NaN,
    [minRealVal] and [maxRealVal] are NaN afterwards; if it is not, and
    the buffer was fresh or held no NaN, they are not NaN afterwards. *)
Theorem double_stores_coerced_value (c : doubleConverter.t) (val : any)
    (s s' : state) :
  isNil val = false ->
  ValidateAndConvert (Double c) val s = Exit None s' ->
  exists v,
    ValueAsFloat64 val = Ok v /\ stored s s' (EReal v) /\
    (Float64.is_nan v = true ->
     Float64.is_nan (minRealVal (stats s')) = true /\
     Float64.is_nan (maxRealVal (stats s')) = true) /\
    (Float64.is_nan v = false ->
     first (stats s) = true \/
     (Float64.is_nan (minRealVal (stats s)) = false /\
      Float64.is_nan (maxRealVal (stats s)) = false) ->
     Float64.is_nan (minRealVal (stats s')) = false /\
     Float64.is_nan (maxRealVal (stats s')) = false).
Proof.
  intros Hnil Hrun.
  destruct (success_inv _ _ _ _ Hnil Hrun) as (e & Hconv & Hst).
  simpl in Hconv. unfold accept in Hconv.
  destruct (ValueAsFloat64 val) as [v|err]; [|discriminate].
  injection Hconv as <-. exists v. split; [reflexivity|].
  split; [assumption|].
  destruct Hst as (Hstats & _). rewrite Hstats. simpl.
  unfold observeReal. destruct (first (stats s)) eqn:Hfirst; simpl.
  - split; [intros Hv; split; assumption|].
    intros Hv _. split; assumption.
  - split.
    + intros Hv. split; [apply float_min_nan_r|apply float_max_nan_r];
        assumption.
    + intros Hv [Hf|[Hmin Hmax]]; [discriminate|]. split.
      * destruct (float_min_cases _ _ Hmin Hv) as [-> | ->]; assumption.
      * destruct (float_max_cases _ _ Hmax Hv) as [-> | ->]; assumption.
Qed.
End DoubleColumn.

Lemma double_stores_coerced_value_witness :
  let c := doubleConverter.mk false in
  let s := Reference.start 1 in
  exists s' v,
    @ValidateAndConvert Reference.env (Double c) (VFloat64 Reference.f1) s
    = Exit None s' /\
    v = Reference.f1 /\ stored s s' (EReal v) /\
    Float64.is_nan (minRealVal (stats s')) = false /\
    Float64.is_nan (maxRealVal (stats s')) = false.
Proof.
  intros c s.
  destruct (@ValidateAndConvert Reference.env (Double c)
              (VFloat64 Reference.f1) s) as [a s'|e s'|] eqn:Hrun;
    [vm_compute in Hrun; discriminate Hrun| |vm_compute in Hrun; discriminate Hrun].
  destruct e as [e|]; [vm_compute in Hrun; discriminate Hrun|].
  destruct (@double_stores_coerced_value Reference.env c
              (VFloat64 Reference.f1) s s' eq_refl Hrun)
    as (v & Hv & Hst & _ & Hok).
  injection Hv as <-.
  exists s', Reference.f1. split; [reflexivity|]. split; [reflexivity|].
  split; [assumption|]. apply Hok; [reflexivity|left; reflexivity].
Defined.

(** C9, as stated, fails: a float64 NaN is accepted, written to the
    buffer, and taken into [minRealVal] and [maxRealVal]; in a column
    holding 1, NaN, 2 the final minimum and maximum are NaN. *)
Lemma double_accepts_nan :
  let c := Double (doubleConverter.mk false) in
  (exists s',
     @ValidateAndConvert Reference.env c (VFloat64 S754_nan) (Reference.start 1)
     = Exit None s' /\
     minRealVal (stats s') = S754_nan /\ maxRealVal (stats s') = S754_nan /\
     matrix (impl (buf s')) !! 0%nat
     = Some (parquet.Level (parquet.DoubleValue S754_nan) 0 1 0)) /\
  (exists s',
     @convertColumn Reference.env c
       [VFloat64 Reference.f1; VFloat64 S754_nan; VFloat64 Reference.f2]
       (Reference.start 3)
     = Exit None s' /\
     minRealVal (stats s') = S754_nan /\ maxRealVal (stats s') = S754_nan).
Proof.
  cbv zeta. split; eexists; (split; [vm_compute; reflexivity|]);
    repeat split.
Qed.

(** ** Timestamps *)

Section TimestampColumn.
Context `{External}.

Lemma timestamp_run c val s :
  isNil val = false ->
  ValidateAndConvert (Timestamp c) val s = settle (convertTimestamp c val) s.
Proof.
  intros Hnil. rewrite ValidateAndConvert_run. unfold outcome, settle.
  rewrite Hnil. reflexivity.
Qed.

Lemma encodeTimestamp_not_parse_error c t s :
  isParseError (settle (encodeTimestamp c t) s) = false.
Proof.
  unfold encodeTimestamp, settle. cbv zeta.
  destruct (int128.FitsInPrecision _ _); simpl; [|reflexivity].
  destruct (WriteInt128 _ _); reflexivity.
Qed.

(** Text that is not empty is parsed in the default zone: the call
    returns the parse error naming the text exactly when
    [ParseInLocation] fails, and otherwise goes on with the parsed time,
    moved to UTC first when [trimTZ] is set. *)
Lemma timestamp_text_parsed c (text : list byte) s :
  text <> [] ->
  let parsed := ParseInLocation text (timestampConverter.defaultTZ c) in
  let run := ValidateAndConvert (Timestamp c) (VString text) s in
  ValidateAndConvert (Timestamp c) (VBytes text) s = run /\
  (isParseError run = true <-> exists e, parsed = Err e) /\
  (forall e, parsed = Err e -> run = Exit (Some (errTimestampParse text)) s) /\
  (forall t, parsed = Ok t ->
     let t' := if timestampConverter.trimTZ c then Time.toUTC t else t in
     let v := snowflakeTimestampInt t' (timestampConverter.scale c)
                (timestampConverter.includeTZ c) in
     run = settle
             (if int128.FitsInPrecision v (timestampConverter.precision c)
              then Accepted (EInt v)
              else Rejected (errTimestampPrecision t' v
                               (timestampConverter.precision c))) s).
Proof.
  intros Hne parsed run. subst run parsed.
  rewrite !timestamp_run by reflexivity. simpl.
  assert (Hnon : timestampConverter.nonEmpty text = true)
    by (destruct text; [congruence|reflexivity]).
  rewrite Hnon. unfold parseTimestamp.
  split; [reflexivity|].
  destruct (ParseInLocation text (timestampConverter.defaultTZ c))
    as [t|e]; simpl.
  - split; [|split]; [|discriminate|].
    + rewrite encodeTimestamp_not_parse_error.
      split; [discriminate|]. intros [e He]. discriminate.
    + intros t0 [= <-]. reflexivity.
  - split; [|split]; [|reflexivity|discriminate].
    split; [eauto|reflexivity].
Qed.

(** C8 at the input it fails on.  The empty string, and the empty byte
    sequence, are never handed to [ParseInLocation]: whatever the parser
    would say, the call goes on with the zero [time.Time]
    (0001-01-01T00:00:00Z) and never returns the parse error. *)
Theorem timestamp_empty_text_not_parsed (c : timestampConverter.t)
    (s : state) :
  ValidateAndConvert (Timestamp c) (VString []) s
  = settle (encodeTimestamp c Time.zero) s
  /\ ValidateAndConvert (Timestamp c) (VBytes []) s
     = settle (encodeTimestamp c Time.zero) s
  /\ isParseError (ValidateAndConvert (Timestamp c) (VString []) s) = false
  /\ isParseError (ValidateAndConvert (Timestamp c) (VBytes []) s) = false.
Proof.
  rewrite !timestamp_run by reflexivity. simpl.
  repeat split; apply encodeTimestamp_not_parse_error.
Qed.
End TimestampColumn.

(** In the reference environment no text parses, the empty string
    included; yet on a column of scale 0 and precision 18 the empty string
    is stored as -62135596800, the seconds of 0001-01-01T00:00:00Z. *)
Lemma timestamp_empty_text_stored :
  let c := timestampConverter.mk false 0 18 false false Time.UTC in
  @ParseInLocation Reference.env [] Time.UTC = Err (errForeign 4) /\
  exists s',
    @ValidateAndConvert Reference.env (Timestamp c) (VString [])
      (Reference.start 1) = Exit None s' /\
    minIntVal (stats s') = -62135596800 /\
    maxIntVal (stats s') = -62135596800 /\
    logicalAt (Some (buf s')) 0 = Some (-62135596800).
Proof.
  cbv zeta. split; [reflexivity|].
  eexists. split; [vm_compute; reflexivity|]. repeat split.
Qed.

(** ** Fixed-point numbers *)

Lemma Rescale_Ok v p sc r :
  int128.Rescale v p sc = Ok r ->
  r = v * 10 ^ sc /\ int128.FitsInPrecision r p = true.
Proof.
  unfold int128.Rescale.
  destruct (int128.FitsInPrecision (v * 10 ^ sc) p) eqn:Hfit; [|discriminate].
  intros [= <-]. split; [reflexivity|assumption].
Qed.

Lemma numberPath_not_nil `{External} c val r :
  numberPath c val = Some r -> isNil val = false.
Proof. destruct val; simpl; congruence. Qed.

Lemma numberPath_integer `{External} c val n :
  nativeInteger val = Some n ->
  numberPath c val
  = Some (int128.Rescale n (numberConverter.precision c)
            (numberConverter.scale c)).
Proof. destruct val; simpl; try discriminate; intros [= <-]; reflexivity. Qed.

Section NumberColumn.
Context `{External}.

(** What package [int128] promises of its parsing constructors: a number
    they return fits the precision they were asked for. *)
Hypothesis FromFloat32_fits : forall f p sc v,
  FromFloat32 f p sc = Ok v -> int128.FitsInPrecision v p = true.
Hypothesis FromFloat64_fits : forall f p sc v,
  FromFloat64 f p sc = Ok v -> int128.FitsInPrecision v p = true.
Hypothesis FromString_fits : forall t p sc v,
  FromString t p sc = Ok v -> int128.FitsInPrecision v p = true.

Lemma numberPath_fits c val v :
  numberPath c val = Some (Ok v) ->
  int128.FitsInPrecision v (numberConverter.precision c) = true.
Proof.
  destruct val; simpl; try discriminate; intros [= Hr];
    first [ apply Rescale_Ok in Hr; apply Hr
          | eapply FromFloat32_fits; eassumption
          | eapply FromFloat64_fits; eassumption
          | eapply FromString_fits; eassumption ].
Qed.

(** C3. An input of a native signed, unsigned or floating-point type, a
    string, or a [json.Number] goes through [FromInt64]/[FromUint64] and
    [Rescale], [FromFloat32], [FromFloat64] or [FromString] at the
    column's precision and scale, with result [r].  If [r] is an error,
    the call returns that very error and leaves statistics and buffer
    alone.  If [r] is a number, it fits the precision, it is the number
    stored (a native integer [n] is stored as [n * 10^scale], and is
    refused when that does not fit), and nothing else can be stored. *)
Theorem number_rescale_path (c : numberConverter.t) (val : any)
    (r : result int128.Num) (s : state) :
  numberPath c val = Some r ->
  (forall e, r = Err e ->
     ValidateAndConvert (Number c) val s = Exit (Some e) s)
  /\
  (forall v, r = Ok v ->
     int128.FitsInPrecision v (numberConverter.precision c) = true /\
     (forall n, nativeInteger val = Some n ->
                v = n * 10 ^ numberConverter.scale c) /\
     (hasRoom (impl (buf s)) ->
      exists s', ValidateAndConvert (Number c) val s = Exit None s'
                 /\ stored s s' (EInt v)) /\
     (~ hasRoom (impl (buf s)) ->
      ValidateAndConvert (Number c) val s = Panic))
  /\
  (forall n, nativeInteger val = Some n ->
     int128.FitsInPrecision (n * 10 ^ numberConverter.scale c)
       (numberConverter.precision c) = false ->
     exists e, r = Err e)
  /\
  (forall s', ValidateAndConvert (Number c) val s = Exit None s' ->
     exists v, r = Ok v /\ stored s s' (EInt v)).
Proof.
  intros Hpath. pose proof (numberPath_not_nil _ _ _ Hpath) as Hnil.
  assert (Hconv : convert (Number c) val = accept EInt r)
    by (simpl; unfold convertNumber; rewrite Hpath; reflexivity).
  split; [|split; [|split]].
  - intros e ->. apply rejected_run; assumption.
  - intros v ->. split; [eapply numberPath_fits; eassumption|].
    split; [|split].
    + intros n Hn. rewrite (numberPath_integer c val n Hn) in Hpath.
      injection Hpath as Hr. apply Rescale_Ok in Hr. apply Hr.
    + intros Hroom. apply accepted_run; assumption.
    + intros Hfull. rewrite ValidateAndConvert_run. unfold outcome.
      rewrite Hnil, Hconv. simpl.
      destruct (buf s) as [b|b|b]; simpl in *;
        [unfold typedBufferImpl_WriteInt128
        |unfold int64Buffer_WriteInt128
        |unfold int32Buffer_WriteInt128];
        rewrite (WriteValue_full _ _ Hfull); reflexivity.
  - intros n Hn Hfit. rewrite (numberPath_integer c val n Hn) in Hpath.
    injection Hpath as <-. unfold int128.Rescale. rewrite Hfit. eauto.
  - intros s' Hrun.
    destruct (success_inv _ _ _ _ Hnil Hrun) as (e & He & Hst).
    rewrite Hconv in He. destruct r as [v|err]; [|discriminate].
    injection He as <-. eauto.
Qed.
End NumberColumn.

Lemma Reference_checked_fits v p r :
  Reference.checked v p = Ok r -> int128.FitsInPrecision r p = true.
Proof.
  unfold Reference.checked.
  destruct (int128.FitsInPrecision v p) eqn:Hfit; [|discriminate].
  intros [= <-]. assumption.
Qed.

Lemma Reference_fromFloat_fits f p sc v :
  Reference.fromFloat f p sc = Ok v -> int128.FitsInPrecision v p = true.
Proof.
  unfold Reference.fromFloat, Reference.unsupported.
  destruct f; try discriminate; apply Reference_checked_fits.
Qed.

Lemma Reference_fromString_fits t p sc v :
  Reference.fromString t p sc = Ok v -> int128.FitsInPrecision v p = true.
Proof.
  unfold Reference.fromString, Reference.unsupported.
  destruct (Reference.parseDecimal t sc); [|discriminate].
  apply Reference_checked_fits.
Qed.

Lemma number_rescale_path_witness :
  let c := numberConverter.mk false 2 10 in
  let val := VString (Bytes.of_string "2.50") in
  let s := Reference.start 1 in
  @numberPath Reference.env c val = Some (Ok 250) /\
  int128.FitsInPrecision 250 10 = true /\
  exists s', @ValidateAndConvert Reference.env (Number c) val s = Exit None s'
             /\ stored s s' (EInt 250).
Proof.
  intros c val s.
  assert (Hpath : @numberPath Reference.env c val = Some (Ok 250))
    by (vm_compute; reflexivity).
  assert (Hroom : hasRoom (impl (buf s))).
  { unfold hasRoom. vm_compute. split; [discriminate|reflexivity]. }
  destruct (@number_rescale_path Reference.env
              Reference_fromFloat_fits Reference_fromFloat_fits
              Reference_fromString_fits c val (Ok 250) s Hpath)
    as (_ & Hok & _).
  destruct (Hok 250 eq_refl) as (Hfit & _ & Hrun & _).
  split; [exact Hpath|]. split; [exact Hfit|]. exact (Hrun Hroom).
Defined.

(** A native integer that needs more digits than the precision allows is
    refused: 12345 at scale 2 does not fit precision 6. *)
Lemma number_overflow_refused :
  let c := numberConverter.mk false 2 6 in
  @ValidateAndConvert Reference.env (Number c) (VInt64 12345)
    (Reference.start 1)
  = Exit (Some (errPrecisionOverflow 1234500 6)) (Reference.start 1).
Proof. vm_compute. reflexivity. Qed.

(** ** The order of floats *)

Module FloatOrderFacts.
Import FloatOrder.

Lemma compare_cont_Eq m1 m2 : Pos.compare_cont Eq m1 m2 = (m1 ?= m2)%positive.
Proof. reflexivity. Qed.

(** [SFcompare] reads the position on the line. *)
Lemma SFcompare_line x y :
  number x -> number y ->
  match SFcompare x y with
  | Some Lt => before x y
  | Some Eq => level x y
  | Some Gt => before y x
  | None => False
  end.
Proof.
  unfold number, before, level.
  destruct x as [[]|[]| |[] m1 e1]; destruct y as [[]|[]| |[] m2 e2];
    simpl; try discriminate; intros _ _; try lia;
    rewrite compare_cont_Eq;
    destruct (Z.compare_spec e1 e2); try lia;
    destruct (Pos.compare_spec m1 m2); simpl; lia.
Qed.

Lemma lt_before x y :
  number x -> number y -> Float64.lt x y = true -> before x y.
Proof.
  intros Hx Hy. unfold Float64.lt.
  pose proof (SFcompare_line x y Hx Hy) as Hc.
  destruct (SFcompare x y) as [[]|]; try discriminate. intros _. exact Hc.
Qed.

Lemma not_lt_before x y :
  number x -> number y -> Float64.lt x y = false ->
  level x y \/ before y x.
Proof.
  intros Hx Hy. unfold Float64.lt.
  pose proof (SFcompare_line x y Hx Hy) as Hc.
  destruct (SFcompare x y) as [[]|]; try discriminate; intros _; tauto.
Qed.

Lemma le_notAfter x y :
  number x -> number y -> (Float64.le x y = true <-> notAfter x y).
Proof.
  intros Hx Hy. unfold Float64.le, notAfter.
  pose proof (SFcompare_line x y Hx Hy) as Hc.
  destruct (SFcompare x y) as [[]|]; [| | |contradiction].
  - unfold level, before in *.
    destruct x as [[]|[]| |[] m1 e1]; destruct y as [[]|[]| |[] m2 e2];
      simpl in *; try discriminate; split; intros Hle;
      try reflexivity; try discriminate; lia.
  - split; [intros _; left; exact Hc|reflexivity].
  - split; [discriminate|]. unfold before, level in *. lia.
Qed.

Lemma notAfter_refl x : notAfter x x.
Proof. unfold notAfter, level. right. lia. Qed.

Lemma notAfter_trans x y z : notAfter x y -> notAfter y z -> notAfter x z.
Proof. unfold notAfter, before, level. lia. Qed.

Lemma min_notAfter m x :
  number m -> number x ->
  notAfter (Float64.min m x) m /\ notAfter (Float64.min m x) x.
Proof.
  intros Hm Hx. unfold Float64.min. rewrite Hm, Hx.
  destruct (Float64.lt x m) eqn:Hxm.
  { apply lt_before in Hxm; [|assumption|assumption].
    split; [left; assumption|apply notAfter_refl]. }
  destruct (Float64.lt m x) eqn:Hmx.
  { apply lt_before in Hmx; [|assumption|assumption].
    split; [apply notAfter_refl|left; assumption]. }
  apply not_lt_before in Hxm; [|assumption|assumption].
  apply not_lt_before in Hmx; [|assumption|assumption].
  assert (Hlev : level m x) by (unfold level, before in *; lia).
  clear Hxm Hmx.
  destruct (Float64.is_neg_zero x) eqn:Hz.
  - split; [|apply notAfter_refl]. right.
    destruct x as [[]|[]| |[] m2 e2]; try discriminate.
    unfold level in *. simpl in *. split; [lia|].
    destruct m as [[]|[]| |[] m1 e1]; simpl; lia.
  - split; [apply notAfter_refl|]. right. split; [assumption|].
    unfold level in Hlev.
    destruct m as [[]|[]| |[] m1 e1]; destruct x as [[]|[]| |[] m2 e2];
      simpl in *; try discriminate; lia.
Qed.

Lemma max_notAfter m x :
  number m -> number x ->
  notAfter m (Float64.max m x) /\ notAfter x (Float64.max m x).
Proof.
  intros Hm Hx. unfold Float64.max. rewrite Hm, Hx.
  destruct (Float64.lt m x) eqn:Hmx.
  { apply lt_before in Hmx; [|assumption|assumption].
    split; [left; assumption|apply notAfter_refl]. }
  destruct (Float64.lt x m) eqn:Hxm.
  { apply lt_before in Hxm; [|assumption|assumption].
    split; [apply notAfter_refl|left; assumption]. }
  apply not_lt_before in Hxm; [|assumption|assumption].
  apply not_lt_before in Hmx; [|assumption|assumption].
  assert (Hlev : level m x) by (unfold level, before in *; lia).
  clear Hxm Hmx.
  destruct (Float64.is_pos_zero x) eqn:Hz.
  - split; [|apply notAfter_refl]. right. split; [assumption|].
    destruct x as [[]|[]| |[] m2 e2]; try discriminate.
    destruct m as [[]|[]| |[] m1 e1]; simpl; lia.
  - split; [apply notAfter_refl|]. right.
    unfold level in *. split; [lia|].
    destruct m as [[]|[]| |[] m1 e1]; destruct x as [[]|[]| |[] m2 e2];
      simpl in *; try discriminate; lia.
Qed.

End FloatOrderFacts.

Lemma float_le_refl x : number x -> float_le x x.
Proof.
  intros Hx. apply FloatOrderFacts.le_notAfter; [assumption|assumption|].
  apply FloatOrderFacts.notAfter_refl.
Qed.

Lemma float_le_trans x y z :
  number x -> number y -> number z ->
  float_le x y -> float_le y z -> float_le x z.
Proof.
  unfold float_le. intros Hx Hy Hz Hxy Hyz.
  apply FloatOrderFacts.le_notAfter in Hxy; [|assumption|assumption].
  apply FloatOrderFacts.le_notAfter in Hyz; [|assumption|assumption].
  apply FloatOrderFacts.le_notAfter; [assumption|assumption|].
  eapply FloatOrderFacts.notAfter_trans; eassumption.
Qed.

Lemma float_min_le m x :
  number m -> number x ->
  float_le (Float64.min m x) m /\ float_le (Float64.min m x) x.
Proof.
  intros Hm Hx.
  assert (Hn : number (Float64.min m x))
    by (destruct (float_min_cases m x Hm Hx) as [-> | ->]; assumption).
  destruct (FloatOrderFacts.min_notAfter m x Hm Hx) as [H1 H2].
  split; apply FloatOrderFacts.le_notAfter; assumption.
Qed.

Lemma float_max_ge m x :
  number m -> number x ->
  float_le m (Float64.max m x) /\ float_le x (Float64.max m x).
Proof.
  intros Hm Hx.
  assert (Hn : number (Float64.max m x))
    by (destruct (float_max_cases m x Hm Hx) as [-> | ->]; assumption).
  destruct (FloatOrderFacts.max_notAfter m x Hm Hx) as [H1 H2].
  split; apply FloatOrderFacts.le_notAfter; assumption.
Qed.

(** ** The order of byte strings *)

Lemma code_inj x y : Bytes.code x = Bytes.code y -> x = y.
Proof.
  unfold Bytes.code. intros Hxy.
  assert (Hn : Byte.to_N x = Byte.to_N y) by lia.
  pose proof (Byte.of_to_N x) as Hx. rewrite Hn, Byte.of_to_N in Hx.
  congruence.
Qed.

Lemma lex_le_refl a : Bytes.lex_le a a.
Proof. induction a; constructor; assumption. Qed.

Lemma lex_le_trans a b c :
  Bytes.lex_le a b -> Bytes.lex_le b c -> Bytes.lex_le a c.
Proof.
  intros Hab. revert c. induction Hab as [b|x y a b Hxy|x a b Hab IH];
    intros c Hbc.
  - constructor.
  - inversion Hbc; subst; constructor; lia.
  - inversion Hbc; subst.
    + constructor; assumption.
    + apply Bytes.lex_eq. apply IH. assumption.
Qed.

(** [bytes.Compare] decides the lexicographic order. *)
Lemma Compare_neg a b : Bytes.Compare a b < 0 -> Bytes.lex_le a b.
Proof.
  revert b. induction a as [|x a IH]; intros [|y b]; simpl; try lia.
  - intros _. constructor.
  - destruct (Z.ltb_spec (Bytes.code x) (Bytes.code y)).
    + intros _. constructor. assumption.
    + destruct (Z.ltb_spec (Bytes.code y) (Bytes.code x)); [lia|].
      intros Hab. assert (x = y) by (apply code_inj; lia). subst y.
      apply Bytes.lex_eq. apply IH. assumption.
Qed.

Lemma Compare_nonneg a b : 0 <= Bytes.Compare a b -> Bytes.lex_le b a.
Proof.
  revert b. induction a as [|x a IH]; intros [|y b]; simpl; try lia.
  - intros _. constructor.
  - intros _. constructor.
  - destruct (Z.ltb_spec (Bytes.code x) (Bytes.code y)); [lia|].
    destruct (Z.ltb_spec (Bytes.code y) (Bytes.code x)).
    + intros _. constructor. assumption.
    + intros Hab. assert (x = y) by (apply code_inj; lia). subst y.
      apply Bytes.lex_eq. apply IH. assumption.
Qed.

Lemma Compare_pos a b : 0 < Bytes.Compare a b -> Bytes.lex_le b a.
Proof. intros Hab. apply Compare_nonneg. lia. Qed.

Lemma Compare_nonpos a b : Bytes.Compare a b <= 0 -> Bytes.lex_le a b.
Proof.
  revert b. induction a as [|x a IH]; intros [|y b]; simpl; try lia.
  - intros _. constructor.
  - intros _. constructor.
  - destruct (Z.ltb_spec (Bytes.code x) (Bytes.code y)).
    + intros _. constructor. assumption.
    + destruct (Z.ltb_spec (Bytes.code y) (Bytes.code x)); [lia|].
      intros Hab. assert (x = y) by (apply code_inj; lia). subst y.
      apply Bytes.lex_eq. apply IH. assumption.
Qed.

Lemma lowerBytes_le m v :
  bytes_le (lowerBytes m v) m /\ bytes_le (lowerBytes m v) v.
Proof.
  unfold lowerBytes, bytes_le.
  destruct (Z.ltb_spec (Bytes.Compare v m) 0).
  - split; [apply Compare_neg; assumption|apply lex_le_refl].
  - split; [apply lex_le_refl|apply Compare_nonneg; assumption].
Qed.

Lemma higherBytes_ge m v :
  bytes_le m (higherBytes m v) /\ bytes_le v (higherBytes m v).
Proof.
  unfold higherBytes, bytes_le.
  destruct (Z.ltb_spec 0 (Bytes.Compare v m)).
  - split; [apply Compare_pos; assumption|apply lex_le_refl].
  - split; [apply lex_le_refl|apply Compare_nonpos; assumption].
Qed.

Lemma lowerBytes_cases m v : lowerBytes m v = m \/ lowerBytes m v = v.
Proof. unfold lowerBytes. destruct (_ <? _); auto. Qed.

Lemma higherBytes_cases m v : higherBytes m v = m \/ higherBytes m v = v.
Proof. unfold higherBytes. destruct (_ <? _); auto. Qed.

(** ** A running extremum *)

Section Running.
Context {A : Type} (good : A -> Prop) (le : A -> A -> Prop)
  (pick : A -> A -> A).
Hypothesis le_refl : forall x, good x -> le x x.
Hypothesis le_trans : forall x y z,
  good x -> good y -> good z -> le x y -> le y z -> le x z.
Hypothesis pick_cases : forall m x,
  good m -> good x -> pick m x = m \/ pick m x = x.
Hypothesis pick_le : forall m x,
  good m -> good x -> le (pick m x) m /\ le (pick m x) x.

Lemma pick_good m x : good m -> good x -> good (pick m x).
Proof.
  intros Hm Hx. destruct (pick_cases m x Hm Hx) as [-> | ->]; assumption.
Qed.

Lemma least_step seen m x :
  Forall good seen -> good x -> least le seen m ->
  least le (seen ++ [x]) (pick m x).
Proof.
  intros Hseen Hx [Hin Hle].
  assert (Hm : good m) by (rewrite Forall_forall in Hseen; auto).
  destruct (pick_le m x Hm Hx) as [Hpm Hpx].
  pose proof (pick_good m x Hm Hx) as Hp.
  split.
  - apply elem_of_app. destruct (pick_cases m x Hm Hx) as [-> | ->].
    + left. assumption.
    + right. apply list_elem_of_singleton. reflexivity.
  - intros y Hy. apply elem_of_app in Hy as [Hy|Hy].
    + apply (le_trans _ m _); auto.
      rewrite Forall_forall in Hseen. auto.
    + apply list_elem_of_singleton in Hy. subst y. assumption.
Qed.

Lemma least_fold l : forall seen m,
  Forall good seen -> Forall good l -> least le seen m ->
  least le (seen ++ l) (fold_left pick l m).
Proof.
  induction l as [|x l IH]; intros seen m Hseen Hl Hleast.
  - rewrite app_nil_r. assumption.
  - apply Forall_cons in Hl as [Hx Hl]. simpl.
    replace (seen ++ x :: l) with ((seen ++ [x]) ++ l)
      by (rewrite <- app_assoc; reflexivity).
    apply IH.
    + apply Forall_app. split; [assumption|]. apply Forall_cons.
      split; [assumption|constructor].
    + assumption.
    + apply least_step; assumption.
Qed.

Lemma least_fold_first x l :
  good x -> Forall good l -> least le (x :: l) (fold_left pick l x).
Proof.
  intros Hx Hl.
  apply (least_fold l [x] x); [|assumption|].
  - apply Forall_cons. split; [assumption|constructor].
  - split; [apply list_elem_of_singleton; reflexivity|].
    intros y Hy. apply list_elem_of_singleton in Hy. subst y.
    apply le_refl. assumption.
Qed.
End Running.

(** ** The statistics of a list of accepted values *)

Ltac case_ifs :=
  repeat (cbn;
          match goal with
          | |- context [if ?c then _ else _] =>
              lazymatch c with
              | context [if _ then _ else _] => fail
              | _ => destruct c eqn:?
              end
          end);
  cbn.

Lemma first_observe v st : first (observe v st) = false.
Proof.
  destruct v; simpl; unfold observeInt, observeReal, observeStr;
    destruct (first st) eqn:Hf; simpl; try reflexivity; try assumption.
  case_ifs; assumption.
Qed.

Lemma nullCount_observe v st : nullCount (observe v st) = nullCount st.
Proof.
  destruct v; simpl; unfold observeInt, observeReal, observeStr;
    destruct (first st); simpl; try reflexivity.
  case_ifs; reflexivity.
Qed.

Lemma observe_set_nullCount v n st :
  observe v (set_nullCount n st) = set_nullCount n (observe v st).
Proof.
  destruct st as [f nc mi ma mr xr ms xs ml].
  destruct v; simpl; unfold observeInt, observeReal, observeStr; simpl;
    destruct f; simpl; try reflexivity.
  case_ifs; reflexivity.
Qed.

Lemma observeAll_set_nullCount l n st :
  observeAll l (set_nullCount n st) = set_nullCount n (observeAll l st).
Proof.
  revert st. induction l as [|v l IH]; intros st; [reflexivity|].
  unfold observeAll in *. simpl. rewrite observe_set_nullCount. apply IH.
Qed.

Lemma first_observeAll l st :
  l <> [] -> first (observeAll l st) = false.
Proof.
  intros Hl. destruct l as [|v l]; [congruence|]. clear Hl.
  unfold observeAll. simpl. generalize (first_observe v st).
  generalize (observe v st). induction l as [|w l IH]; intros st' Hf.
  - assumption.
  - simpl. apply IH. apply first_observe.
Qed.

Section Field.
Context {A : Type} (key : encoded -> option A) (get : statsBuffer -> A)
  (pick : A -> A -> A).
Hypothesis get_first : forall st v a,
  first st = true -> key v = Some a -> get (observe v st) = a.
Hypothesis get_next : forall st v a,
  first st = false -> key v = Some a ->
  get (observe v st) = pick (get st) a.

Lemma get_observeAll_next l : forall st,
  first st = false ->
  Forall (fun v => is_Some (key v)) l ->
  get (observeAll l st) = fold_left pick (omap key l) (get st).
Proof.
  induction l as [|v l IH]; intros st Hf Hl; [reflexivity|].
  apply Forall_cons in Hl as [[a Ha] Hl].
  unfold observeAll in *. simpl. rewrite Ha. simpl.
  rewrite IH; [|apply first_observe|assumption].
  rewrite (get_next st v a Hf Ha). reflexivity.
Qed.

Lemma get_observeAll_first v a l st :
  first st = true -> key v = Some a ->
  Forall (fun v => is_Some (key v)) l ->
  get (observeAll (v :: l) st) = fold_left pick (omap key l) a.
Proof.
  intros Hf Ha Hl.
  change (observeAll (v :: l) st) with (observeAll l (observe v st)).
  rewrite get_observeAll_next; [|apply first_observe|assumption].
  rewrite (get_first st v a Hf Ha). reflexivity.
Qed.

(** From fresh statistics, the field holds the extremum of the keys. *)
Lemma field_least (good : A -> Prop) (le : A -> A -> Prop) l st :
  (forall x, good x -> le x x) ->
  (forall x y z, good x -> good y -> good z -> le x y -> le y z -> le x z) ->
  (forall m x, good m -> good x -> pick m x = m \/ pick m x = x) ->
  (forall m x, good m -> good x -> le (pick m x) m /\ le (pick m x) x) ->
  first st = true ->
  Forall (fun v => is_Some (key v)) l ->
  Forall good (omap key l) ->
  l <> [] ->
  least le (omap key l) (get (observeAll l st)).
Proof.
  intros Hrefl Htrans Hcases Hle Hf Hkeys Hgood Hne.
  destruct l as [|v l]; [congruence|].
  apply Forall_cons in Hkeys as [[a Ha] Hkeys].
  rewrite (get_observeAll_first v a l st Hf Ha Hkeys).
  simpl in *. rewrite Ha in *. simpl in *.
  apply Forall_cons in Hgood as [Hga Hgood].
  apply (least_fold_first good le pick); assumption.
Qed.
End Field.

(** The seven fields. *)
Lemma minIntVal_first st v a :
  first st = true -> intKey v = Some a -> minIntVal (observe v st) = a.
Proof.
  intros Hf. destruct v; simpl; try discriminate; intros [= <-];
    unfold observeInt; rewrite Hf; reflexivity.
Qed.
Lemma minIntVal_next st v a :
  first st = false -> intKey v = Some a ->
  minIntVal (observe v st) = Z.min (minIntVal st) a.
Proof.
  intros Hf. destruct v; simpl; try discriminate; intros [= <-];
    unfold observeInt; rewrite Hf; reflexivity.
Qed.
Lemma maxIntVal_first st v a :
  first st = true -> intKey v = Some a -> maxIntVal (observe v st) = a.
Proof.
  intros Hf. destruct v; simpl; try discriminate; intros [= <-];
    unfold observeInt; rewrite Hf; reflexivity.
Qed.
Lemma maxIntVal_next st v a :
  first st = false -> intKey v = Some a ->
  maxIntVal (observe v st) = Z.max (maxIntVal st) a.
Proof.
  intros Hf. destruct v; simpl; try discriminate; intros [= <-];
    unfold observeInt; rewrite Hf; reflexivity.
Qed.
Lemma minRealVal_first st v a :
  first st = true -> realKey v = Some a -> minRealVal (observe v st) = a.
Proof.
  intros Hf. destruct v; simpl; try discriminate; intros [= <-];
    unfold observeReal; rewrite Hf; reflexivity.
Qed.
Lemma minRealVal_next st v a :
  first st = false -> realKey v = Some a ->
  minRealVal (observe v st) = Float64.min (minRealVal st) a.
Proof.
  intros Hf. destruct v; simpl; try discriminate; intros [= <-];
    unfold observeReal; rewrite Hf; reflexivity.
Qed.
Lemma maxRealVal_first st v a :
  first st = true -> realKey v = Some a -> maxRealVal (observe v st) = a.
Proof.
  intros Hf. destruct v; simpl; try discriminate; intros [= <-];
    unfold observeReal; rewrite Hf; reflexivity.
Qed.
Lemma maxRealVal_next st v a :
  first st = false -> realKey v = Some a ->
  maxRealVal (observe v st) = Float64.max (maxRealVal st) a.
Proof.
  intros Hf. destruct v; simpl; try discriminate; intros [= <-];
    unfold observeReal; rewrite Hf; reflexivity.
Qed.
Lemma minStrVal_first st v a :
  first st = true -> strKey v = Some a -> minStrVal (observe v st) = a.
Proof.
  intros Hf. destruct v; simpl; try discriminate; intros [= <-];
    unfold observeStr; rewrite Hf; reflexivity.
Qed.
Lemma minStrVal_next st v a :
  first st = false -> strKey v = Some a ->
  minStrVal (observe v st) = lowerBytes (minStrVal st) a.
Proof.
  intros Hf. destruct v; simpl; try discriminate; intros [= <-].
  unfold observeStr, lowerBytes. rewrite Hf.
  case_ifs; reflexivity.
Qed.
Lemma maxStrVal_first st v a :
  first st = true -> strKey v = Some a -> maxStrVal (observe v st) = a.
Proof.
  intros Hf. destruct v; simpl; try discriminate; intros [= <-];
    unfold observeStr; rewrite Hf; reflexivity.
Qed.
Lemma maxStrVal_next st v a :
  first st = false -> strKey v = Some a ->
  maxStrVal (observe v st) = higherBytes (maxStrVal st) a.
Proof.
  intros Hf. destruct v; simpl; try discriminate; intros [= <-].
  unfold observeStr, higherBytes. rewrite Hf.
  case_ifs; reflexivity.
Qed.
Lemma maxStrLen_first st v a :
  first st = true -> lenKey v = Some a -> maxStrLen (observe v st) = a.
Proof.
  intros Hf. destruct v; simpl; try discriminate; intros [= <-];
    unfold observeStr; rewrite Hf; reflexivity.
Qed.
Lemma maxStrLen_next st v a :
  first st = false -> lenKey v = Some a ->
  maxStrLen (observe v st) = Z.max (maxStrLen st) a.
Proof.
  intros Hf. destruct v; simpl; try discriminate; intros [= <-].
  unfold observeStr. rewrite Hf.
  case_ifs; reflexivity.
Qed.

(** ** A whole column *)

Lemma bump_small k : forall n,
  GoInt.min_int64 <= n -> n + Z.of_nat k <= GoInt.max_int64 ->
  bump k n = n + Z.of_nat k.
Proof.
  induction k as [|k IH]; intros n Hlo Hhi; simpl bump; [lia|].
  assert (Hw : GoInt.wrap64 (n + 1) = n + 1)
    by (apply wrap64_id; unfold GoInt.in_int64; lia).
  rewrite Hw, IH; lia.
Qed.

Lemma set_nullCount_twice n m st :
  set_nullCount n (set_nullCount m st) = set_nullCount n st.
Proof. reflexivity. Qed.

Lemma set_nullCount_same st : set_nullCount (nullCount st) st = st.
Proof. destruct st; reflexivity. Qed.

Lemma nulls_cons val vals :
  nulls (val :: vals) = if isNil val then val :: nulls vals else nulls vals.
Proof.
  unfold nulls. rewrite filter_cons. destruct (isNil val).
  - rewrite decide_True by reflexivity. reflexivity.
  - rewrite decide_False by discriminate. reflexivity.
Qed.

Section ColumnFold.
Context `{External}.

Lemma convertColumn_stats c vals : forall s s',
  convertColumn c vals s = Exit None s' ->
  stats s' = fold_left (absorb c) vals (stats s) /\
  Forall (fun val => isNil val = true \/ exists v, convert c val = Accepted v)
    vals.
Proof.
  induction vals as [|val vals IH]; intros s s'.
  - intros [= <-]. split; [reflexivity|constructor].
  - rewrite convertColumn_cons, ValidateAndConvert_run.
    unfold outcome. simpl fold_left.
    destruct (isNil val) eqn:Hnil.
    + destruct (nullable c); [|discriminate].
      destruct (WriteNull (buf s)) as [b|]; [|discriminate].
      intros Hrest. apply IH in Hrest as [Hst Hall]. simpl in Hst.
      replace (absorb c (stats s) val) with (countNull (stats s))
        by (unfold absorb; rewrite Hnil; reflexivity).
      split; [assumption|]. constructor; [left; exact Hnil|assumption].
    + destruct (convert c val) as [v|e|] eqn:Hconv;
        [|discriminate|discriminate].
      destruct (write v (buf s)) as [b|]; [|discriminate].
      intros Hrest. apply IH in Hrest as [Hst Hall]. simpl in Hst.
      replace (absorb c (stats s) val) with (observe v (stats s))
        by (unfold absorb; rewrite Hnil, Hconv; reflexivity).
      split; [assumption|]. constructor; [right; eauto|assumption].
Qed.

Lemma accepted_cons c val vals :
  accepted c (val :: vals)
  = if isNil val then accepted c vals
    else match convert c val with
         | Accepted v => v :: accepted c vals
         | _ => accepted c vals
         end.
Proof.
  unfold accepted. simpl. destruct (isNil val); [reflexivity|].
  destruct (convert c val); reflexivity.
Qed.

Lemma absorb_split c vals : forall st,
  fold_left (absorb c) vals st
  = set_nullCount (bump (length (nulls vals)) (nullCount st))
      (observeAll (accepted c vals) st).
Proof.
  induction vals as [|val vals IH]; intros st.
  - simpl. symmetry. apply set_nullCount_same.
  - simpl fold_left. rewrite IH, accepted_cons, nulls_cons.
    unfold absorb. destruct (isNil val) eqn:Hnil.
    + simpl length. simpl bump. unfold countNull.
      rewrite observeAll_set_nullCount, set_nullCount_twice. reflexivity.
    + destruct (convert c val) as [v|e|]; try reflexivity.
      rewrite nullCount_observe. reflexivity.
Qed.

Lemma accepted_count c vals :
  Forall (fun val => isNil val = true \/ exists v, convert c val = Accepted v)
    vals ->
  (length (accepted c vals) + length (nulls vals))%nat = length vals.
Proof.
  induction 1 as [|val vals Hval _ IH]; [reflexivity|].
  rewrite accepted_cons, nulls_cons.
  destruct (isNil val) eqn:Hnil.
  - simpl. lia.
  - destruct Hval as [Hval|[v Hv]]; [discriminate|].
    rewrite Hv. simpl. lia.
Qed.

Lemma convert_family c val v :
  convert c val = Accepted v -> familyOfValue v = familyOf c.
Proof.
  destruct c as [c|c|c|c|c|c|c|c|c|c]; simpl; unfold accept.
  - destruct (ValueAsBool val); [|discriminate]. intros [= <-]. reflexivity.
  - unfold convertNumber, accept.
    destruct (numberPath c val) as [[]|];
      [| |destruct (ValueAsInt64 val); [destruct (int128.Rescale _ _ _)|]];
      try discriminate; intros [= <-]; reflexivity.
  - destruct (ValueAsFloat64 val); [|discriminate]. intros [= <-]. reflexivity.
  - unfold convertBinary. destruct (ValueAsBytes val); [|discriminate].
    destruct (_ <? _); [discriminate|].
    destruct (_ && _); [discriminate|]. intros [= <-]. reflexivity.
  - unfold convertJSON. destruct (_ <? _); [discriminate|].
    intros [= <-]. reflexivity.
  - destruct (jsonArrayConverter.isArray val); [|discriminate].
    unfold convertJSON. destruct (_ <? _); [discriminate|].
    intros [= <-]. reflexivity.
  - destruct (jsonObjectConverter.isObject val); [|discriminate].
    unfold convertJSON. destruct (_ <? _); [discriminate|].
    intros [= <-]. reflexivity.
  - unfold convertTimestamp, parseTimestamp, encodeTimestamp.
    destruct val; simpl;
      repeat match goal with
        | |- context [match ValueAsTimestamp ?v with _ => _ end] =>
            destruct (ValueAsTimestamp v)
        | |- context [timestampConverter.nonEmpty ?v] =>
            destruct (timestampConverter.nonEmpty v)
        | |- context [match ParseInLocation ?a ?b with _ => _ end] =>
            destruct (ParseInLocation a b)
        | |- context [if ?b then _ else _] => destruct b
        end; try discriminate; intros [= <-]; reflexivity.
  - unfold convertTime. destruct (ValueAsTimestamp val); [|discriminate].
    destruct (index _ _); [|discriminate]. intros [= <-]. reflexivity.
  - unfold convertDate. destruct (ValueAsTimestamp val); [|discriminate].
    cbv zeta. destruct (_ || _); [discriminate|].
    intros [= <-]. reflexivity.
Qed.

Lemma accepted_family c vals :
  Forall (fun v => familyOfValue v = familyOf c) (accepted c vals).
Proof.
  unfold accepted. induction vals as [|val vals IH]; [constructor|].
  simpl. destruct (isNil val); [assumption|].
  destruct (convert c val) as [v|e|] eqn:Hv; try assumption.
  constructor; [|assumption]. eapply convert_family; eassumption.
Qed.
End ColumnFold.

Lemma omap_nonempty_family {A} (key : encoded -> option A) (f : family) :
  (forall v, is_Some (key v) <-> familyOfValue v = f) ->
  forall g l,
    Forall (fun v => familyOfValue v = g) l ->
    omap key l <> [] ->
    Forall (fun v => is_Some (key v)) l.
Proof.
  intros Hkey g l Hall Hne.
  assert (Hg : g = f).
  { revert Hall Hne. induction l as [|w l IH]; intros Hall Hne;
      [simpl in Hne; congruence|].
    apply Forall_cons in Hall as [Hw Hall]. simpl in Hne.
    destruct (key w) as [a|] eqn:Hk.
    - rewrite <- Hw. apply Hkey. rewrite Hk. eauto.
    - apply IH; assumption. }
  subst g. eapply Forall_impl; [exact Hall|].
  intros v Hv. apply Hkey. assumption.
Qed.

Lemma is_Some_intKey v : is_Some (intKey v) <-> familyOfValue v = FInt.
Proof.
  destruct v; simpl; split; intros Hv; try reflexivity; try discriminate;
    try (destruct Hv; discriminate); eauto.
Qed.

Lemma is_Some_realKey v : is_Some (realKey v) <-> familyOfValue v = FReal.
Proof.
  destruct v; simpl; split; intros Hv; try reflexivity; try discriminate;
    try (destruct Hv; discriminate); eauto.
Qed.

Lemma is_Some_strKey v : is_Some (strKey v) <-> familyOfValue v = FStr.
Proof.
  destruct v; simpl; split; intros Hv; try reflexivity; try discriminate;
    try (destruct Hv; discriminate); eauto.
Qed.

Lemma is_Some_lenKey v : is_Some (lenKey v) <-> familyOfValue v = FStr.
Proof.
  destruct v; simpl; split; intros Hv; try reflexivity; try discriminate;
    try (destruct Hv; discriminate); eauto.
Qed.

Lemma omap_lenKey l : omap lenKey l = map GoInt.len (omap strKey l).
Proof.
  induction l as [|v l IH]; [reflexivity|].
  destruct v; cbn; rewrite <- ?IH; reflexivity.
Qed.

Lemma fold_min_nan l : forall m,
  Float64.is_nan m = true \/ Exists (fun x => Float64.is_nan x = true) l ->
  Float64.is_nan (fold_left Float64.min l m) = true.
Proof.
  induction l as [|x l IH]; intros m [Hm|Hl]; simpl.
  - assumption.
  - inversion Hl.
  - apply IH. left. apply float_min_nan_l. assumption.
  - apply IH. apply Exists_cons in Hl as [Hx|Hl].
    + left. apply float_min_nan_r. assumption.
    + right. assumption.
Qed.

Lemma fold_max_nan l : forall m,
  Float64.is_nan m = true \/ Exists (fun x => Float64.is_nan x = true) l ->
  Float64.is_nan (fold_left Float64.max l m) = true.
Proof.
  induction l as [|x l IH]; intros m [Hm|Hl]; simpl.
  - assumption.
  - inversion Hl.
  - apply IH. left. apply float_max_nan_l. assumption.
  - apply IH. apply Exists_cons in Hl as [Hx|Hl].
    + left. apply float_max_nan_r. assumption.
    + right. assumption.
Qed.

Lemma Forall_True {A} (l : list A) : Forall (fun _ => True) l.
Proof. induction l; constructor; auto. Qed.

Section ColumnStatistics.
Context `{External}.

(** The first value a buffer takes in sets both ends to itself. *)
Lemma first_value c st val st' :
  first (stats st) = true -> isNil val = false ->
  ValidateAndConvert c val st = Exit None st' ->
  exists v,
    convert c val = Accepted v /\ first (stats st') = false /\
    (forall z, intKey v = Some z ->
       minIntVal (stats st') = z /\ maxIntVal (stats st') = z) /\
    (forall f, realKey v = Some f ->
       minRealVal (stats st') = f /\ maxRealVal (stats st') = f) /\
    (forall b, strKey v = Some b ->
       minStrVal (stats st') = b /\ maxStrVal (stats st') = b /\
       maxStrLen (stats st') = GoInt.len b).
Proof.
  intros Hf Hnil Hrun.
  destruct (success_inv c val st st' Hnil Hrun) as (v & Hv & Hst & _).
  exists v. rewrite Hst. split; [assumption|].
  split; [apply first_observe|]. split; [|split].
  - intros z Hz. split;
      [apply minIntVal_first|apply maxIntVal_first]; assumption.
  - intros f Hz. split;
      [apply minRealVal_first|apply maxRealVal_first]; assumption.
  - intros b Hz. split; [|split];
      [apply minStrVal_first|apply maxStrVal_first|apply maxStrLen_first];
      try assumption.
    unfold lenKey. rewrite Hz. reflexivity.
Qed.

(** C1, as the code has it.  A column converted without error from fresh
    statistics, by any converter: every input was null or accepted;
    [nullCount] is the number of null inputs; [first] is cleared as soon
    as a value was accepted; [minIntVal]/[maxIntVal] are the least and greatest of the
    accepted integers, [minStrVal]/[maxStrVal] the least and greatest of
    the accepted byte strings in lexicographic order and [maxStrLen]
    their greatest length, [minRealVal]/[maxRealVal] the least and
    greatest of the accepted floats when none is NaN (and NaN when one
    is).  The first accepted value sets minimum and maximum to itself
    and clears [first]. *)
Theorem column_statistics (c : dataConverter) (vals : list any)
    (s s' : state) :
  stats s = freshStats ->
  GoInt.len vals <= GoInt.max_int64 ->
  convertColumn c vals s = Exit None s' ->
  let acc := accepted c vals in
  let ints := omap intKey acc in
  let reals := omap realKey acc in
  let strs := omap strKey acc in
  (length acc + length (nulls vals))%nat = length vals
  /\ nullCount (stats s') = GoInt.len (nulls vals)
  /\ first (stats s') = match acc with [] => true | _ :: _ => false end
  /\ (ints <> [] ->
      least Z.le ints (minIntVal (stats s')) /\
      greatest Z.le ints (maxIntVal (stats s')))
  /\ (reals <> [] -> Forall number reals ->
      least float_le reals (minRealVal (stats s')) /\
      greatest float_le reals (maxRealVal (stats s')))
  /\ (Exists (fun x => Float64.is_nan x = true) reals ->
      Float64.is_nan (minRealVal (stats s')) = true /\
      Float64.is_nan (maxRealVal (stats s')) = true)
  /\ (strs <> [] ->
      least bytes_le strs (minStrVal (stats s')) /\
      greatest bytes_le strs (maxStrVal (stats s')) /\
      greatest Z.le (map GoInt.len strs) (maxStrLen (stats s')))
  /\ (forall st val st',
        first (stats st) = true -> isNil val = false ->
        ValidateAndConvert c val st = Exit None st' ->
        exists v,
          convert c val = Accepted v /\ first (stats st') = false /\
          (forall z, intKey v = Some z ->
             minIntVal (stats st') = z /\ maxIntVal (stats st') = z) /\
          (forall f, realKey v = Some f ->
             minRealVal (stats st') = f /\ maxRealVal (stats st') = f) /\
          (forall b, strKey v = Some b ->
             minStrVal (stats st') = b /\ maxStrVal (stats st') = b /\
             maxStrLen (stats st') = GoInt.len b)).
Proof.
  intros Hfresh Hlen Hrun acc ints reals strs.
  destruct (convertColumn_stats c vals s s' Hrun) as [Hst Hall].
  rewrite absorb_split, Hfresh in Hst. fold acc in Hst.
  pose proof (accepted_count c vals Hall) as Hcount. fold acc in Hcount.
  pose proof (accepted_family c vals) as Hfam. fold acc in Hfam.
  assert (Hfirst : first freshStats = true) by reflexivity.
  rewrite Hst.
  split; [exact Hcount|].
  split.
  { cbn [nullCount set_nullCount]. change (nullCount freshStats) with 0.
    rewrite bump_small; unfold GoInt.len, GoInt.min_int64, GoInt.max_int64 in *;
      lia. }
  split.
  { change (first (set_nullCount ?n ?x)) with (first x).
    destruct acc as [|v l] eqn:Hacc; [reflexivity|].
    apply first_observeAll. discriminate. }
  split.
  { intros Hne.
    pose proof (omap_nonempty_family intKey FInt is_Some_intKey _ _ Hfam Hne)
      as Hkeys.
    assert (Hacc : acc <> [])
      by (intros Hnil; subst ints; rewrite Hnil in Hne; apply Hne; reflexivity).
    change (minIntVal (set_nullCount ?n ?x)) with (minIntVal x).
    change (maxIntVal (set_nullCount ?n ?x)) with (maxIntVal x).
    split.
    - apply (field_least intKey minIntVal Z.min minIntVal_first
               minIntVal_next (fun _ => True) Z.le acc freshStats);
        [ intros; lia | intros x y z _ _ _; lia | intros m x _ _; lia
        | intros m x _ _; lia | exact Hfirst | exact Hkeys
        | apply Forall_True | exact Hacc ].
    - apply (field_least intKey maxIntVal Z.max maxIntVal_first
               maxIntVal_next (fun _ => True) (fun x y => y <= x)
               acc freshStats);
        [ intros; lia | intros x y z _ _ _; lia | intros m x _ _; lia
        | intros m x _ _; lia | exact Hfirst | exact Hkeys
        | apply Forall_True | exact Hacc ]. }
  split.
  { intros Hne Hnum.
    pose proof (omap_nonempty_family realKey FReal is_Some_realKey _ _ Hfam Hne)
      as Hkeys.
    assert (Hacc : acc <> [])
      by (intros Hnil; subst reals; rewrite Hnil in Hne; apply Hne; reflexivity).
    change (minRealVal (set_nullCount ?n ?x)) with (minRealVal x).
    change (maxRealVal (set_nullCount ?n ?x)) with (maxRealVal x).
    split.
    - apply (field_least realKey minRealVal Float64.min minRealVal_first
               minRealVal_next number float_le acc freshStats);
        [ apply float_le_refl | apply float_le_trans | apply float_min_cases
        | apply float_min_le | exact Hfirst | exact Hkeys
        | exact Hnum | exact Hacc ].
    - apply (field_least realKey maxRealVal Float64.max maxRealVal_first
               maxRealVal_next number (fun x y => float_le y x)
               acc freshStats);
        [ apply float_le_refl
        | intros x y z Hx Hy Hz Hxy Hyz;
          apply (float_le_trans z y x); assumption
        | apply float_max_cases | apply float_max_ge | exact Hfirst
        | exact Hkeys | exact Hnum | exact Hacc ]. }
  split.
  { intros Hnan.
    assert (Hne : reals <> [])
      by (intros Heq; rewrite Heq in Hnan; inversion Hnan).
    pose proof (omap_nonempty_family realKey FReal is_Some_realKey _ _ Hfam Hne)
      as Hkeys.
    change (minRealVal (set_nullCount ?n ?x)) with (minRealVal x).
    change (maxRealVal (set_nullCount ?n ?x)) with (maxRealVal x).
    subst reals. destruct acc as [|v l]; [simpl in Hne; congruence|].
    apply Forall_cons in Hkeys as [[a Ha] Hkeys].
    rewrite (get_observeAll_first realKey minRealVal Float64.min
               minRealVal_first minRealVal_next v a l _ Hfirst Ha Hkeys).
    rewrite (get_observeAll_first realKey maxRealVal Float64.max
               maxRealVal_first maxRealVal_next v a l _ Hfirst Ha Hkeys).
    simpl in Hnan. rewrite Ha in Hnan. apply Exists_cons in Hnan.
    split; [apply fold_min_nan|apply fold_max_nan]; tauto. }
  split.
  { intros Hne.
    pose proof (omap_nonempty_family strKey FStr is_Some_strKey _ _ Hfam Hne)
      as Hkeys.
    assert (Hacc : acc <> [])
      by (intros Hnil; subst strs; rewrite Hnil in Hne; apply Hne; reflexivity).
    assert (Hlens : Forall (fun v => is_Some (lenKey v)) acc).
    { eapply Forall_impl; [exact Hkeys|]. intros v [b Hb].
      unfold lenKey. rewrite Hb. eauto. }
    change (minStrVal (set_nullCount ?n ?x)) with (minStrVal x).
    change (maxStrVal (set_nullCount ?n ?x)) with (maxStrVal x).
    change (maxStrLen (set_nullCount ?n ?x)) with (maxStrLen x).
    split; [|split].
    - apply (field_least strKey minStrVal lowerBytes minStrVal_first
               minStrVal_next (fun _ => True) bytes_le acc freshStats);
        [ intros x _; apply lex_le_refl
        | intros x y z _ _ _; apply lex_le_trans
        | intros m x _ _; apply lowerBytes_cases
        | intros m x _ _; apply lowerBytes_le
        | exact Hfirst | exact Hkeys | apply Forall_True | exact Hacc ].
    - apply (field_least strKey maxStrVal higherBytes maxStrVal_first
               maxStrVal_next (fun _ => True) (fun x y => bytes_le y x)
               acc freshStats);
        [ intros x _; apply lex_le_refl
        | intros x y z _ _ _ Hxy Hyz; apply (lex_le_trans z y x); assumption
        | intros m x _ _; apply higherBytes_cases
        | intros m x _ _; apply higherBytes_ge
        | exact Hfirst | exact Hkeys | apply Forall_True | exact Hacc ].
    - subst strs. rewrite <- omap_lenKey.
      apply (field_least lenKey maxStrLen Z.max maxStrLen_first
               maxStrLen_next (fun _ => True) (fun x y => y <= x)
               acc freshStats);
        [ intros; lia | intros x y z _ _ _; lia | intros m x _ _; lia
        | intros m x _ _; lia | exact Hfirst | exact Hlens
        | apply Forall_True | exact Hacc ]. }
  intros st val st'. apply first_value.
Qed.
End ColumnStatistics.

Lemma column_statistics_witness :
  let c := Number (numberConverter.mk true 2 10) in
  let vals := [VInt 3; VNil; VString (Bytes.of_string "2.50"); VInt64 (-1)] in
  let s := Reference.start 4 in
  exists s',
    @convertColumn Reference.env c vals s = Exit None s' /\
    nullCount (stats s') = 1 /\
    first (stats s') = false /\
    least Z.le [300; 250; -100] (minIntVal (stats s')) /\
    greatest Z.le [300; 250; -100] (maxIntVal (stats s')) /\
    minIntVal (stats s') = -100 /\ maxIntVal (stats s') = 300.
Proof.
  intros c vals s.
  destruct (@convertColumn Reference.env c vals s) as [a s'|[e|] s'|] eqn:Hrun;
    try (vm_compute in Hrun; discriminate Hrun).
  exists s'. split; [reflexivity|].
  assert (Hlen : GoInt.len vals <= GoInt.max_int64)
    by (vm_compute; discriminate).
  destruct (@column_statistics Reference.env c vals s s' eq_refl Hlen Hrun)
    as (_ & Hn & Hf & Hints & _).
  assert (Hne : omap intKey (@accepted Reference.env c vals) <> [])
    by (vm_compute; discriminate).
  destruct (Hints Hne) as [Hmin Hmax].
  split; [exact Hn|]. split; [exact Hf|].
  split; [exact Hmin|]. split; [exact Hmax|].
  vm_compute in Hrun. injection Hrun as <-. split; reflexivity.
Defined.

(** C1, as stated, fails on a float column that takes a NaN: in a column
    holding 1, NaN, 2 every value is accepted, the recorded minimum and
    maximum are both NaN, and they are neither the least and greatest of
    the accepted values nor the least and greatest of those that are
    numbers, 1 and 2. *)
Lemma column_statistics_lost_to_nan :
  let c := Double (doubleConverter.mk false) in
  let vals := [VFloat64 Reference.f1; VFloat64 S754_nan;
               VFloat64 Reference.f2] in
  let reals := [Reference.f1; S754_nan; Reference.f2] in
  exists s',
    @convertColumn Reference.env c vals (Reference.start 3) = Exit None s' /\
    omap realKey (@accepted Reference.env c vals) = reals /\
    minRealVal (stats s') = S754_nan /\ maxRealVal (stats s') = S754_nan /\
    ~ least float_le reals (minRealVal (stats s')) /\
    ~ greatest float_le reals (maxRealVal (stats s')) /\
    least float_le [Reference.f1; Reference.f2] Reference.f1 /\
    greatest float_le [Reference.f1; Reference.f2] Reference.f2 /\
    minRealVal (stats s') <> Reference.f1 /\
    maxRealVal (stats s') <> Reference.f2.
Proof.
  cbv zeta. eexists. split; [vm_compute; reflexivity|].
  split; [vm_compute; reflexivity|].
  split; [reflexivity|]. split; [reflexivity|].
  assert (H1 : Reference.f1 ∈ [Reference.f1; S754_nan; Reference.f2])
    by (apply elem_of_cons; left; reflexivity).
  split; [|split; [|split; [|split; [|split]]]].
  - intros [_ Hle]. specialize (Hle _ H1). vm_compute in Hle. discriminate.
  - intros [_ Hle]. specialize (Hle _ H1). vm_compute in Hle. discriminate.
  - split; [apply elem_of_cons; left; reflexivity|].
    intros x Hx. repeat (apply elem_of_cons in Hx as [-> | Hx]);
      [vm_compute; reflexivity..|].
    apply elem_of_nil in Hx. contradiction.
  - split; [apply elem_of_cons; right; apply elem_of_cons; left; reflexivity|].
    intros x Hx. repeat (apply elem_of_cons in Hx as [-> | Hx]);
      [vm_compute; reflexivity..|].
    apply elem_of_nil in Hx. contradiction.
  - vm_compute. discriminate.
  - vm_compute. discriminate.
Qed.

(** ** Worked columns *)

(** Boolean column, not nullable, inputs true, false, true: the cells hold
    the booleans and the statistics run from 0 to 1 with no nulls. *)
Example boolean_column :
  exists s',
    @convertColumn Reference.env (Bool (boolConverter.mk false))
      [VBool true; VBool false; VBool true] (Reference.start 3)
    = Exit None s' /\
    map parquet.kind (matrix (impl (buf s')))
    = [parquet.Boolean true; parquet.Boolean false; parquet.Boolean true] /\
    minIntVal (stats s') = 0 /\ maxIntVal (stats s') = 1 /\
    nullCount (stats s') = 0.
Proof. eexists. split; [vm_compute; reflexivity|]. repeat split. Qed.

(** Fixed-point column of scale 2 and precision 10, inputs 1, "2.50" and
    3.333: the cells read back as 100, 250 and 333. *)
Example number_column :
  exists s',
    @convertColumn Reference.env (Number (numberConverter.mk false 2 10))
      [VInt 1; VString (Bytes.of_string "2.50"); VFloat64 Reference.f3_333]
      (Reference.start 3)
    = Exit None s' /\
    map parquet.logical (matrix (impl (buf s')))
    = [Some 100; Some 250; Some 333] /\
    minIntVal (stats s') = 100 /\ maxIntVal (stats s') = 333 /\
    nullCount (stats s') = 0.
Proof. eexists. split; [vm_compute; reflexivity|]. repeat split. Qed.

(** The statistics must start with [first] set: from a zeroed struct the
    first value is compared with the zero already there. *)
Example zeroed_statistics_keep_zero :
  exists s',
    @convertColumn Reference.env (Number (numberConverter.mk false 0 10))
      [VInt 5; VInt 7]
      {| stats := zeroedStats; buf := Reference.column 2 |}
    = Exit None s' /\
    minIntVal (stats s') = 0 /\ maxIntVal (stats s') = 7.
Proof. eexists. split; [vm_compute; reflexivity|]. repeat split. Qed.

(** An instant before the epoch that is not at midnight:
    1969-12-31T23:59:59Z is stored as day 0. *)
Example date_before_epoch :
  exists s',
    @ValidateAndConvert Reference.env (Date (dateConverter.mk false))
      (VTime (Reference.instant (-1))) (Reference.start 1)
    = Exit None s' /\
    Time.Year (Reference.instant (-1)) = 1969 /\
    minIntVal (stats s') = 0.
Proof. eexists. split; [vm_compute; reflexivity|]. repeat split. Qed.

(* ===================================================================== *)
(** * Further properties *)
(* ===================================================================== *)

(** ** The buffer on a matrix of whole rows *)

Lemma boundTo_cellIndex rows b :
  boundTo rows b -> currentRow b < rows ->
  cellIndex b = currentRow b * rowWidth b + columnIndex b /\ hasRoom b.
Proof.
  unfold boundTo, hasRoom, cellIndex, GoInt.max_int64.
  intros ((Hc0 & Hc1) & Hlen & Hmax & Hr0 & Hr1) Hlt.
  assert (Hrw : 0 <= currentRow b * rowWidth b) by nia.
  assert (Hin : currentRow b * rowWidth b + columnIndex b < rows * rowWidth b)
    by nia.
  rewrite (wrap64_id (currentRow b * rowWidth b))
    by (unfold GoInt.in_int64, GoInt.min_int64, GoInt.max_int64; lia).
  rewrite wrap64_id
    by (unfold GoInt.in_int64, GoInt.min_int64, GoInt.max_int64; lia).
  split; [reflexivity|lia].
Qed.

Lemma wrap64_high x :
  2 ^ 63 <= x < 2 ^ 64 -> GoInt.wrap64 x = x - 2 ^ 64.
Proof.
  intros Hx. unfold GoInt.wrap64, GoInt.wrap.
  change (2 ^ (64 - 1)) with (2 ^ 63).
  assert (H64 : 2 ^ 64 = 2 * 2 ^ 63) by reflexivity.
  assert (0 < 2 ^ 63) by (apply Z.pow_pos_nonneg; lia).
  replace (x + 2 ^ 63) with ((x - 2 ^ 63) + 1 * 2 ^ 64) by lia.
  rewrite Z.mod_add by lia. rewrite Z.mod_small by lia. lia.
Qed.

Lemma boundTo_full rows b :
  boundTo rows b -> currentRow b = rows -> ~ hasRoom b.
Proof.
  unfold boundTo, hasRoom, cellIndex, GoInt.max_int64.
  intros ((Hc0 & Hc1) & Hlen & Hmax & Hr0 & Hr1) Heq Hroom.
  rewrite Heq in Hroom. rewrite <- Hlen in Hroom.
  assert (Hl0 : 0 <= GoInt.len (matrix b)) by (unfold GoInt.len; lia).
  rewrite (wrap64_id (GoInt.len (matrix b))) in Hroom
    by (unfold GoInt.in_int64, GoInt.min_int64, GoInt.max_int64; lia).
  assert (Hw : rowWidth b <= GoInt.len (matrix b) \/ rows = 0) by nia.
  assert (H63 : 0 < 2 ^ 63) by (apply Z.pow_pos_nonneg; lia).
  assert (H64 : 2 ^ 64 = 2 * 2 ^ 63) by reflexivity.
  destruct (Z_lt_ge_dec (GoInt.len (matrix b) + columnIndex b) (2 ^ 63))
    as [Hsmall|Hbig].
  - rewrite wrap64_id in Hroom
      by (unfold GoInt.in_int64, GoInt.min_int64, GoInt.max_int64; lia).
    lia.
  - destruct Hw as [Hw|Hz]; [|subst rows; lia].
    rewrite wrap64_high in Hroom by lia. lia.
Qed.

Lemma cellAt_index (x y : Z) :
  0 <= x -> 0 <= y -> Z.to_nat x = Z.to_nat y -> x = y.
Proof. lia. Qed.

Lemma WriteValue_boundTo rows b v :
  boundTo rows b -> currentRow b < rows ->
  typedBufferImpl_WriteValue b v = Some (advance b v) /\
  boundTo rows (advance b v) /\
  currentRow (advance b v) = currentRow b + 1 /\
  cellAt (matrix (advance b v)) (rowWidth b) (currentRow b) (columnIndex b)
  = Some v /\
  forall r c, 0 <= r -> 0 <= c < rowWidth b ->
    r <> currentRow b \/ c <> columnIndex b ->
    cellAt (matrix (advance b v)) (rowWidth b) r c
    = cellAt (matrix b) (rowWidth b) r c.
Proof.
  intros Hb Hlt. destruct (boundTo_cellIndex rows b Hb Hlt) as [Hidx Hroom].
  pose proof (advance_wroteCell b v Hroom)
    as (Hcell & Hother & Hlen & Hcol & Hwidth & Hrow).
  destruct Hb as ((Hc0 & Hc1) & Hm & Hmax & Hr0 & Hr1).
  assert (Hnext : currentRow (advance b v) = currentRow b + 1).
  { rewrite Hrow. apply wrap64_id.
    unfold GoInt.in_int64, GoInt.min_int64, GoInt.max_int64 in *.
    assert (rows <= GoInt.len (matrix b)) by nia. lia. }
  split; [apply WriteValue_room; assumption|].
  split.
  { unfold boundTo. rewrite Hcol, Hwidth, Hnext.
    unfold GoInt.len in *. rewrite Hlen. lia. }
  split; [exact Hnext|]. split.
  - unfold cellAt. rewrite <- Hidx. exact Hcell.
  - intros r c Hr Hc Hne. unfold cellAt. apply Hother.
    rewrite Hidx. intros Heq. apply cellAt_index in Heq; [|nia|nia].
    assert (r = currentRow b) by nia. subst r.
    assert (c = columnIndex b) by lia. lia.
Qed.

(** X1. A buffer bound to a column of a matrix of whole rows: a write with
    the cursor on a row succeeds, puts the value in the cell of that row
    and the buffer's own column, changes no other cell of any row or
    column, and moves the cursor to the next row; with the cursor past the
    last row the write panics instead of touching the matrix. *)
Theorem write_stays_in_column (rows : Z) (b : typedBufferImpl)
    (v : parquet.Value) :
  boundTo rows b ->
  (currentRow b < rows ->
   exists b',
     typedBufferImpl_WriteValue b v = Some b' /\
     boundTo rows b' /\
     columnIndex b' = columnIndex b /\ rowWidth b' = rowWidth b /\
     currentRow b' = currentRow b + 1 /\
     cellAt (matrix b') (rowWidth b) (currentRow b) (columnIndex b) = Some v /\
     forall r c, 0 <= r -> 0 <= c < rowWidth b ->
       r <> currentRow b \/ c <> columnIndex b ->
       cellAt (matrix b') (rowWidth b) r c = cellAt (matrix b) (rowWidth b) r c)
  /\
  (currentRow b = rows -> typedBufferImpl_WriteValue b v = None).
Proof.
  intros Hb. split.
  - intros Hlt.
    destruct (WriteValue_boundTo rows b v Hb Hlt)
      as (Hw & Hb' & Hrow & Hcell & Hother).
    exists (advance b v). repeat split; try assumption; apply Hb'.
  - intros Heq. apply WriteValue_full. eapply boundTo_full; eassumption.
Qed.

Lemma write_stays_in_column_witness :
  let m := replicate 6 parquet.NullValue in
  let b := typedBufferImpl_Prepare (mkBuffer [] 0 0 0) m 1 3 in
  let v := parquet.Int64Value 7 in
  exists b',
    typedBufferImpl_WriteValue b v = Some b' /\
    cellAt (matrix b') 3 0 1 = Some v /\
    cellAt (matrix b') 3 0 0 = Some parquet.NullValue /\
    cellAt (matrix b') 3 1 1 = Some parquet.NullValue /\
    currentRow b' = 1.
Proof.
  intros m b v.
  assert (Hb : boundTo 2 b).
  { unfold boundTo. vm_compute. repeat split; discriminate. }
  destruct (proj1 (write_stays_in_column 2 b v Hb)) as
    (b' & Hw & _ & _ & _ & Hrow & Hcell & Hother);
    [vm_compute; reflexivity|].
  exists b'. split; [exact Hw|]. split; [exact Hcell|].
  split; [|split; [|exact Hrow]].
  - assert (H00 := Hother 0 0).
    exact (H00 ltac:(lia) ltac:(vm_compute; split; [discriminate|reflexivity])
             ltac:(right; discriminate)).
  - assert (H11 := Hother 1 1).
    exact (H11 ltac:(lia) ltac:(vm_compute; split; [discriminate|reflexivity])
             ltac:(left; discriminate)).
Defined.

(** ** Prepare and Reset *)


Lemma write_panics tb v : ~ hasRoom (impl tb) ->
  WriteNull tb = None /\ write v tb = None.
Proof.
  intros Hfull. split; [|apply write_full; assumption].
  unfold WriteNull.
  apply (promoted_full _ tb (fun _ => parquet.NullValue));
    [reflexivity|assumption].
Qed.



(** ** The cells of a converted column *)

Lemma cellOf_withImpl tb b v :
  columnIndex b = columnIndex (impl tb) ->
  cellOf (withImpl tb b) v = cellOf tb v.
Proof.
  intros Hcol. unfold cellOf. rewrite impl_withImpl, Hcol.
  destruct tb; reflexivity.
Qed.

Section Cells.
Context `{External}.

Lemma cellFor_withImpl c tb b val :
  columnIndex b = columnIndex (impl tb) ->
  cellFor c (withImpl tb b) val = cellFor c tb val.
Proof.
  intros Hcol. unfold cellFor. destruct (isNil val); [reflexivity|].
  destruct (convert c val); try reflexivity.
  rewrite cellOf_withImpl by assumption. reflexivity.
Qed.

(** A call that returned nil wrote the input's cell and nothing else. *)
Lemma step_cell c val s s' :
  ValidateAndConvert c val s = Exit None s' ->
  exists cell,
    cellFor c (buf s) val = Some cell /\
    hasRoom (impl (buf s)) /\
    buf s' = withImpl (buf s) (advance (impl (buf s)) cell).
Proof.
  rewrite ValidateAndConvert_run. unfold outcome, cellFor.
  destruct (hasRoom_dec (impl (buf s))) as [Hroom|Hfull].
  - destruct (isNil val).
    + destruct (nullable c); [|discriminate].
      rewrite (WriteNull_room _ Hroom). intros [= <-].
      eexists. split; [reflexivity|]. split; [assumption|reflexivity].
    + destruct (convert c val) as [v|e|]; try discriminate.
      rewrite (write_room _ v Hroom). intros [= <-].
      eexists. split; [reflexivity|]. split; [assumption|reflexivity].
  - destruct (write_panics (buf s) (EBool true) Hfull) as [Hn _].
    destruct (isNil val).
    + destruct (nullable c); [|discriminate]. rewrite Hn. discriminate.
    + destruct (convert c val) as [v|e|]; try discriminate.
      rewrite (write_full _ v Hfull). discriminate.
Qed.

Lemma column_cells_from c rows vals : forall s s',
  boundTo rows (impl (buf s)) ->
  convertColumn c vals s = Exit None s' ->
  let b := impl (buf s) in
  let b' := impl (buf s') in
  currentRow b + GoInt.len vals <= rows /\
  boundTo rows b' /\
  buf s' = withImpl (buf s) b' /\
  columnIndex b' = columnIndex b /\ rowWidth b' = rowWidth b /\
  currentRow b' = currentRow b + GoInt.len vals /\
  (forall i val, vals !! i = Some val ->
     cellAt (matrix b') (rowWidth b) (currentRow b + Z.of_nat i) (columnIndex b)
     = cellFor c (buf s) val) /\
  (forall r col, 0 <= r -> 0 <= col < rowWidth b ->
     col <> columnIndex b \/ r < currentRow b
     \/ currentRow b + GoInt.len vals <= r ->
     cellAt (matrix b') (rowWidth b) r col = cellAt (matrix b) (rowWidth b) r col).
Proof.
  induction vals as [|val vals IH]; intros s s' Hb.
  - intros [= <-]. cbv zeta. unfold GoInt.len. simpl.
    destruct Hb as (Hc & Hm & Hmax & Hr).
    split; [lia|]. split; [repeat split; lia|].
    split; [destruct (buf s); reflexivity|].
    split; [reflexivity|]. split; [reflexivity|]. split; [lia|].
    split; [intros i v Hi; discriminate Hi|reflexivity].
  - rewrite convertColumn_cons.
    destruct (ValidateAndConvert c val s) as [a s1|[e|] s1|] eqn:Hstep;
      try discriminate.
    { rewrite ValidateAndConvert_run in Hstep. unfold outcome in Hstep.
      destruct (isNil val);
        [destruct (nullable c); [destruct (WriteNull (buf s))|]
        |destruct (convert c val); [destruct (write v (buf s))| |]];
        discriminate. }
    intros Hrest.
    destruct (step_cell c val s s1 Hstep) as (cell & Hcell & Hroom & Hbuf).
    assert (Hlt : currentRow (impl (buf s)) < rows).
    { pose proof Hb as (Hc & Hm & Hmax & Hr0 & Hr1).
      destruct (Z.eq_dec (currentRow (impl (buf s))) rows) as [Heq|Hne];
        [|lia].
      exfalso. exact (boundTo_full rows _ Hb Heq Hroom). }
    destruct (WriteValue_boundTo rows (impl (buf s)) cell Hb Hlt)
      as (_ & Hb1 & Hrow1 & Hcell1 & Hother1).
    assert (Himpl1 : impl (buf s1) = advance (impl (buf s)) cell)
      by (rewrite Hbuf; apply impl_withImpl).
    rewrite <- Himpl1 in Hb1, Hrow1, Hcell1, Hother1.
    assert (Hcol1 : columnIndex (impl (buf s1)) = columnIndex (impl (buf s)))
      by (rewrite Himpl1; reflexivity).
    assert (Hw1 : rowWidth (impl (buf s1)) = rowWidth (impl (buf s)))
      by (rewrite Himpl1; reflexivity).
    destruct (IH s1 s' Hb1 Hrest)
      as (Hfit & Hb' & Hbuf' & Hcol' & Hw' & Hrow' & Hcells & Hothers).
    rewrite Hcol1, Hw1, Hrow1 in *.
    assert (Hlen : GoInt.len (val :: vals) = 1 + GoInt.len vals)
      by (unfold GoInt.len; simpl length; lia).
    assert (Hl0 : 0 <= GoInt.len vals) by (unfold GoInt.len; lia).
    cbv zeta. rewrite Hlen.
    destruct Hb as (Hc & Hm & Hmax & Hr0 & Hr1).
    split; [lia|]. split; [exact Hb'|].
    split.
    { rewrite Hbuf', Hbuf. destruct (buf s); reflexivity. }
    split; [exact Hcol'|]. split; [exact Hw'|]. split; [lia|].
    split.
    + intros [|i] v Hi.
      * simpl in Hi. injection Hi as <-.
        replace (currentRow (impl (buf s)) + Z.of_nat 0)
          with (currentRow (impl (buf s))) by lia.
        rewrite Hothers; [|lia|lia|right; left; lia].
        rewrite Hcell1. symmetry. exact Hcell.
      * simpl in Hi. specialize (Hcells i v Hi).
        replace (currentRow (impl (buf s)) + Z.of_nat (S i))
          with (currentRow (impl (buf s)) + 1 + Z.of_nat i) by lia.
        rewrite Hcells. rewrite Hbuf. apply cellFor_withImpl. reflexivity.
    + intros r col Hr Hcol Hwhere.
      rewrite Hothers; [|assumption|assumption|lia].
      apply Hother1; [assumption|assumption|lia].
Qed.
End Cells.

Lemma cellOf_not_null tb v : cellOf tb v <> parquet.NullValue.
Proof. unfold cellOf, parquet.Level, parquet.NullValue, parquet.plain. intros Heq. discriminate Heq. Qed.

Section ColumnCells.
Context `{External}.

(** X3. A column converted without error into a buffer bound to a matrix
    of whole rows, starting on row 0: the column had at most as many values
    as the matrix has rows; the cursor ends on the row after the last
    value; row [i] of the buffer's column holds the null value if input [i]
    was nil and otherwise the cell of the value input [i] converted to,
    which is never the null value; the cells of the other columns and of
    the rows below are as they were; and the buffer is of the kind it was. *)
Theorem column_holds_inputs (c : dataConverter) (rows : Z)
    (vals : list any) (s s' : state) :
  boundTo rows (impl (buf s)) ->
  currentRow (impl (buf s)) = 0 ->
  convertColumn c vals s = Exit None s' ->
  let b := impl (buf s) in
  let b' := impl (buf s') in
  GoInt.len vals <= rows /\
  currentRow b' = GoInt.len vals /\
  buf s' = withImpl (buf s) b' /\
  (forall i val, vals !! i = Some val ->
     exists cell,
       cellAt (matrix b') (rowWidth b) (Z.of_nat i) (columnIndex b) = Some cell /\
       (isNil val = true -> cell = parquet.NullValue) /\
       (isNil val = false ->
        exists v, convert c val = Accepted v /\ cell = cellOf (buf s) v /\
                  cell <> parquet.NullValue)) /\
  (forall r col, 0 <= r -> 0 <= col < rowWidth b ->
     col <> columnIndex b \/ GoInt.len vals <= r ->
     cellAt (matrix b') (rowWidth b) r col = cellAt (matrix b) (rowWidth b) r col).
Proof.
  intros Hb H0 Hrun b b'. subst b b'.
  destruct (column_cells_from c rows vals s s' Hb Hrun)
    as (Hfit & _ & Hbuf & _ & _ & Hrow & Hcells & Hothers).
  rewrite H0 in Hfit, Hrow, Hcells, Hothers. simpl in Hfit, Hrow.
  destruct (convertColumn_stats c vals s s' Hrun) as [_ Hall].
  replace (0 + GoInt.len vals) with (GoInt.len vals) in * by lia.
  split; [exact Hfit|]. split; [exact Hrow|]. split; [exact Hbuf|]. split.
  - intros i val Hi. specialize (Hcells i val Hi).
    replace (0 + Z.of_nat i) with (Z.of_nat i) in Hcells by lia.
    rewrite Forall_forall in Hall.
    assert (Hin : val ∈ vals) by (eapply list_elem_of_lookup_2; exact Hi).
    specialize (Hall val Hin). unfold cellFor in Hcells.
    destruct (isNil val) eqn:Hnil.
    + exists parquet.NullValue. split; [exact Hcells|].
      split; [reflexivity|discriminate].
    + destruct Hall as [Hall|[v Hv]]; [discriminate|].
      rewrite Hv in Hcells. exists (cellOf (buf s) v).
      split; [exact Hcells|]. split; [discriminate|].
      intros _. exists v. split; [exact Hv|].
      split; [reflexivity|apply cellOf_not_null].
  - intros r col Hr Hcol Hwhere. apply Hothers; try assumption.
    destruct Hwhere as [Hne|Hbelow]; [left; assumption|right; right; lia].
Qed.
End ColumnCells.

Lemma column_holds_inputs_witness :
  let c := Number (numberConverter.mk true 0 9) in
  let vals := [VInt 4; VNil] in
  let s := {| stats := freshStats;
              buf := Prepare (int32Buffer (mkBuffer [] 0 0 0))
                       (replicate 6 parquet.NullValue) 1 2 |} in
  exists s',
    @convertColumn Reference.env c vals s = Exit None s' /\
    currentRow (impl (buf s')) = 2 /\
    map parquet.kind (matrix (impl (buf s')))
    = [parquet.Null; parquet.Int32 4; parquet.Null; parquet.Null;
       parquet.Null; parquet.Null].
Proof.
  intros c vals s.
  destruct (@convertColumn Reference.env c vals s) as [a s'|[e|] s'|] eqn:Hrun;
    try (vm_compute in Hrun; discriminate Hrun).
  assert (Hb : boundTo 3 (impl (buf s))).
  { unfold boundTo. vm_compute. repeat split; discriminate. }
  destruct (@column_holds_inputs Reference.env c 3 vals s s' Hb eq_refl Hrun)
    as (_ & Hrow & _).
  exists s'. split; [reflexivity|]. split; [exact Hrow|].
  vm_compute in Hrun. injection Hrun as <-. reflexivity.
Defined.

(** ** The recorded range *)

Lemma observe_ordered v st :
  ordered (familyOfValue v) st -> ordered (familyOfValue v) (observe v st).
Proof.
  unfold ordered. intros Hord _.
  destruct v as [b|z|x|x]; simpl; unfold observeInt, observeReal, observeStr.
  - destruct (first st); simpl; [lia|]. specialize (Hord eq_refl).
    simpl in Hord. unfold int128.Min, int128.Max. lia.
  - destruct (first st); simpl; [lia|]. specialize (Hord eq_refl).
    simpl in Hord. unfold int128.Min, int128.Max. lia.
  - destruct (first st); simpl.
    { split; [reflexivity|]. apply float_le_refl. }
    destruct (Hord eq_refl) as [Hnan Hle]. clear Hord.
    destruct (Float64.is_nan x) eqn:Hx.
    { rewrite (float_min_nan_r _ _ Hx), (float_max_nan_r _ _ Hx).
      split; [reflexivity|]. unfold number. rewrite (float_min_nan_r _ _ Hx).
      discriminate. }
    destruct (Float64.is_nan (minRealVal st)) eqn:Hmin.
    { symmetry in Hnan.
      rewrite (float_min_nan_l _ x Hmin), (float_max_nan_l _ x Hnan).
      split; [reflexivity|]. unfold number.
      rewrite (float_min_nan_l _ x Hmin). discriminate. }
    symmetry in Hnan.
    destruct (float_min_cases _ _ Hmin Hx) as [Em|Em];
      destruct (float_max_cases _ _ Hnan Hx) as [Ex|Ex];
      destruct (float_min_le _ _ Hmin Hx) as [Hm1 Hm2];
      destruct (float_max_ge _ _ Hnan Hx) as [Hx1 Hx2];
      assert (Hnm : number (Float64.min (minRealVal st) x))
        by (rewrite Em; assumption);
      assert (Hnx : number (Float64.max (maxRealVal st) x))
        by (rewrite Ex; assumption);
      (split; [unfold number in Hnm, Hnx; rewrite Hnm, Hnx; reflexivity|]);
      intros _;
      apply (float_le_trans _ x _ Hnm Hx Hnx Hm2 Hx2).
  - destruct (first st) eqn:Hf; simpl.
    { split; [apply lex_le_refl|]. lia. }
    destruct (Hord eq_refl) as (Hle & Hl1 & Hl2). clear Hord.
    fold (lowerBytes (minStrVal st) x).
    assert (Hmax : maxStrVal
              (if Bytes.Compare x (minStrVal st) <? 0
               then set_minStrVal x st else st) = maxStrVal st)
      by (destruct (_ <? _); reflexivity).
    rewrite Hmax.
    assert (Hlen : maxStrLen
              (if Bytes.Compare x (minStrVal st) <? 0
               then set_minStrVal x st else st) = maxStrLen st)
      by (destruct (_ <? _); reflexivity).
    pose proof (lowerBytes_le (minStrVal st) x) as [Hlo1 Hlo2].
    pose proof (higherBytes_ge (maxStrVal st) x) as [Hhi1 Hhi2].
    unfold lowerBytes, higherBytes in *.
    destruct (Bytes.Compare x (minStrVal st) <? 0);
      destruct (0 <? Bytes.Compare x (maxStrVal st)); simpl;
      unfold bytes_le in *;
      (split; [first [exact Hle|exact Hlo2|exact Hhi2]|lia]).
Qed.






Lemma countNull_ordered f st : ordered f st -> ordered f (countNull st).
Proof. destruct f; exact (fun H => H). Qed.

Section RecordedRange.
Context `{External}.

(** What any call that returns leaves in the statistics. *)
Lemma call_stats c val s e s' :
  ValidateAndConvert c val s = Exit e s' ->
  stats s' = stats s \/
  (isNil val = true /\ e = None /\ stats s' = countNull (stats s)) \/
  (isNil val = false /\ e = None /\
   exists v, convert c val = Accepted v /\ stats s' = observe v (stats s)).
Proof.
  rewrite ValidateAndConvert_run. unfold outcome.
  destruct (isNil val).
  - destruct (nullable c).
    + destruct (WriteNull (buf s)); [|discriminate].
      intros [= <- <-]. right. left. auto.
    + intros [= <- <-]. left. reflexivity.
  - destruct (convert c val) as [v|e'|]; [| |discriminate].
    + destruct (write v (buf s)); [|discriminate].
      intros [= <- <-]. right. right. eauto.
    + intros [= <- <-]. left. reflexivity.
Qed.

(** A property of the statistics kept by every call is kept by a column,
    whether it ends with nil or stops on an error. *)
Lemma convertColumn_keeps (P : statsBuffer -> Prop) c :
  (forall val s e s', ValidateAndConvert c val s = Exit e s' ->
                      P (stats s) -> P (stats s')) ->
  forall vals s e s',
    convertColumn c vals s = Exit e s' -> P (stats s) -> P (stats s').
Proof.
  intros Hstep. induction vals as [|val vals IH]; intros s e s'.
  - intros [= <- <-]. exact (fun H => H).
  - rewrite convertColumn_cons.
    destruct (ValidateAndConvert c val s) as [a s1|[e1|] s1|] eqn:Hcall.
    + rewrite ValidateAndConvert_run in Hcall. unfold outcome in Hcall.
      destruct (isNil val);
        [destruct (nullable c); [destruct (WriteNull (buf s))|]
        |destruct (convert c val); [destruct (write v (buf s))| |]];
        discriminate.
    + intros [= <- <-]. eapply Hstep. exact Hcall.
    + intros Hrest HP. eapply IH; [exact Hrest|].
      eapply Hstep; [exact Hcall|exact HP].
    + discriminate.
Qed.

(** X4. The ends of the statistics stay in order.  If, for the family of
    the converter, the minimum is not above the maximum (and no recorded
    string is longer than [maxStrLen]; for floats, both ends are NaN or
    neither is), any call that returns, with nil or an error, leaves them
    so, and a cleared [first] stays cleared.  Fresh statistics qualify, so
    the ends are in order after any column, finished or stopped. *)
Theorem statistics_stay_ordered (c : dataConverter) :
  (forall val s e s',
     ValidateAndConvert c val s = Exit e s' ->
     ordered (familyOf c) (stats s) ->
     ordered (familyOf c) (stats s') /\
     (first (stats s) = false -> first (stats s') = false))
  /\
  (forall vals s e s',
     convertColumn c vals s = Exit e s' ->
     stats s = freshStats ->
     ordered (familyOf c) (stats s')).
Proof.
  assert (Hstep : forall val s e s',
     ValidateAndConvert c val s = Exit e s' ->
     ordered (familyOf c) (stats s) ->
     ordered (familyOf c) (stats s') /\
     (first (stats s) = false -> first (stats s') = false)).
  { intros val s e s' Hcall Hord.
    destruct (call_stats c val s e s' Hcall)
      as [-> | [(_ & _ & ->) | (_ & _ & v & Hv & ->)]].
    - split; [assumption|exact (fun H => H)].
    - split; [apply countNull_ordered; assumption|exact (fun H => H)].
    - split; [|intros _; apply first_observe].
      rewrite <- (convert_family c val v Hv) in *.
      apply observe_ordered. assumption. }
  split; [exact Hstep|].
  intros vals s e s' Hrun Hfresh.
  apply (convertColumn_keeps (ordered (familyOf c)) c
           (fun val s e s' Hc Ho => proj1 (Hstep val s e s' Hc Ho))
           vals s e s' Hrun).
  rewrite Hfresh. unfold ordered. discriminate.
Qed.

End RecordedRange.

Lemma statistics_stay_ordered_witness :
  let c := Binary (binaryConverter.mk false 5 false) in
  let vals := [VString (Bytes.of_string "pear");
               VString (Bytes.of_string "fig");
               VString (Bytes.of_string "banana")] in
  exists e s',
    @convertColumn Reference.env c vals (Reference.start 3) = Exit e s' /\
    e = Some (errValueTooLong 6 5) /\
    ordered FStr (stats s').
Proof.
  intros c vals.
  destruct (@convertColumn Reference.env c vals (Reference.start 3))
    as [a s'|e s'|] eqn:Hrun;
    [vm_compute in Hrun; discriminate Hrun| |vm_compute in Hrun; discriminate Hrun].
  exists e, s'. split; [reflexivity|]. split.
  - vm_compute in Hrun. injection Hrun as <- _. reflexivity.
  - exact (proj2 (@statistics_stay_ordered Reference.env c) vals
             (Reference.start 3) e s' Hrun eq_refl).
Defined.


(** ** Calls that agree on the conversion *)

Section Congruence.
Context `{External}.

Lemma run_congr c val1 val2 s :
  isNil val1 = false -> isNil val2 = false ->
  convert c val1 = convert c val2 ->
  ValidateAndConvert c val1 s = ValidateAndConvert c val2 s.
Proof.
  intros H1 H2 Hc. rewrite !ValidateAndConvert_run. unfold outcome.
  rewrite H1, H2, Hc. reflexivity.
Qed.

Lemma crashed_run c val s :
  isNil val = false -> convert c val = Crashed ->
  ValidateAndConvert c val s = Panic.
Proof.
  intros Hnil Hc. rewrite ValidateAndConvert_run. unfold outcome.
  rewrite Hnil, Hc. reflexivity.
Qed.
End Congruence.

(** ** Dates *)

Ltac year_bound :=
  unfold Time.yearOfDays; cbv zeta;
  match goal with
  | |- context [if 10 <=? ?mp then _ else _] => destruct (Z.leb_spec 10 mp)
  end; Z.div_mod_to_equations; lia.

Lemma year_upper d : Time.yearOfDays d <= 9999 <-> d <= 2932896.
Proof. year_bound. Qed.

Lemma year_lower d : -9999 <= Time.yearOfDays d <-> -4371587 <= d.
Proof. year_bound. Qed.

Lemma Year_toUTC t : Time.Year (Time.toUTC t) = Time.yearOfDays (Time.Unix t / 86400).
Proof.
  unfold Time.Year, Time.toUTC, Time.In, Time.wall, Time.Unix. simpl.
  rewrite Z.add_0_r. reflexivity.
Qed.

Section DateRange.
Context `{External}.

(** X6. The date converter takes exactly the instants from
    -9999-01-01T00:00:00Z to 9999-12-31T23:59:59Z, that is Unix seconds
    -377705116800 to 253402300799: these are stored, as a day number
    between -4371587 and 2932896, and every other instant is refused with
    the out-of-range error and its year.  Neither the zone nor the
    nanoseconds of the input matter: two inputs with the same Unix seconds
    fare alike. *)
Theorem date_accepts_years_of_four_digits (c : dateConverter.t)
    (val : any) (t : Time.t) (s : state) :
  isNil val = false ->
  ValueAsTimestamp val = Ok t ->
  GoInt.in_int64 (Time.Unix t) ->
  (-377705116800 <= Time.Unix t <= 253402300799 ->
   -4371587 <= Time.Unix t ÷ 86400 <= 2932896 /\
   (hasRoom (impl (buf s)) ->
    exists s', ValidateAndConvert (Date c) val s = Exit None s'
               /\ stored s s' (EInt (Time.Unix t ÷ 86400))))
  /\
  (Time.Unix t < -377705116800 \/ 253402300799 < Time.Unix t ->
   exists y, (y < -9999 \/ 9999 < y) /\
             ValidateAndConvert (Date c) val s
             = Exit (Some (errDateOutOfRange y)) s)
  /\
  (forall val2 t2, isNil val2 = false -> ValueAsTimestamp val2 = Ok t2 ->
     Time.Unix t2 = Time.Unix t ->
     ValidateAndConvert (Date c) val2 s = ValidateAndConvert (Date c) val s).
Proof.
  intros Hnil Ht Hu.
  pose proof (year_upper (Time.Unix t / 86400)) as Hup.
  pose proof (year_lower (Time.Unix t / 86400)) as Hlo.
  rewrite <- Year_toUTC in Hup, Hlo.
  split; [|split].
  - intros Hin.
    assert (Hy : -9999 <= Time.Year (Time.toUTC t) <= 9999).
    { split; [apply Hlo|apply Hup]; Z.div_mod_to_equations; lia. }
    split; [Z.to_euclidean_division_equations; lia|].
    intros Hroom. apply accepted_run; [assumption| |assumption].
    apply convertDate_in; assumption.
  - intros Hout. exists (Time.Year (Time.toUTC t)).
    assert (Hy : Time.Year (Time.toUTC t) < -9999
                 \/ 9999 < Time.Year (Time.toUTC t)).
    { destruct Hout as [Hout|Hout].
      - left. apply Z.nle_gt. intros Hc. apply Hlo in Hc.
        revert Hc Hout. Z.div_mod_to_equations. lia.
      - right. apply Z.nle_gt. intros Hc. apply Hup in Hc.
        revert Hc Hout. Z.div_mod_to_equations. lia. }
    split; [exact Hy|]. apply rejected_run; [assumption|].
    apply convertDate_out; assumption.
  - intros val2 t2 Hnil2 Ht2 Heq. apply run_congr; try assumption.
    simpl. unfold convertDate. rewrite Ht, Ht2. cbv zeta.
    rewrite !Year_toUTC, Heq. reflexivity.
Qed.
End DateRange.

Lemma date_accepts_years_of_four_digits_witness :
  let c := dateConverter.mk false in
  let t := Reference.instant 86400 in
  let s := Reference.start 1 in
  exists s', @ValidateAndConvert Reference.env (Date c) (VTime t) s
             = Exit None s'
             /\ stored s s' (EInt 1).
Proof.
  intros c t s.
  assert (Hroom : hasRoom (impl (buf s))).
  { unfold hasRoom. vm_compute. split; [discriminate|reflexivity]. }
  assert (Hu : GoInt.in_int64 (Time.Unix t)).
  { vm_compute. split; discriminate. }
  destruct (@date_accepts_years_of_four_digits Reference.env c (VTime t) t s
              eq_refl eq_refl Hu) as (Hin & _ & _).
  destruct Hin as [_ Hrun]; [vm_compute; split; discriminate|].
  exact (Hrun Hroom).
Defined.

(** ** Time of day *)

Lemma nanosOfDay_congr t1 t2 :
  Time.sec t1 mod 86400 = Time.sec t2 mod 86400 ->
  Time.nsec t1 = Time.nsec t2 ->
  nanosOfDay t1 = nanosOfDay t2.
Proof.
  intros Hs Hn. unfold nanosOfDay, Time.Hour, Time.Minute, Time.Second,
    Time.Nanosecond, Time.secondsOfDay, Time.toUTC, Time.In, Time.wall.
  simpl. rewrite !Z.add_0_r, Hs, Hn. reflexivity.
Qed.

Section TimeOfDayRange.
Context `{External}.

(** X7. On a time-of-day column of scale 0 to 9, with room in the buffer,
    the call returns nil and the value it stores is at least 0 and below
    [86400 * 10^scale].  The date and the zone of the input are dropped:
    two inputs whose Unix seconds differ by whole days and whose
    nanoseconds agree fare alike, wherever they are located. *)
Theorem time_of_day_range_and_period (c : timeConverter.t)
    (val : any) (t : Time.t) (s : state) :
  isNil val = false ->
  ValueAsTimestamp val = Ok t ->
  0 <= Time.nsec t < 1000000000 ->
  0 <= timeConverter.scale c <= 9 ->
  (hasRoom (impl (buf s)) ->
   exists v s',
     ValidateAndConvert (TimeOfDay c) val s = Exit None s' /\
     stored s s' (EInt v) /\
     0 <= v < 86400 * 10 ^ timeConverter.scale c)
  /\
  (forall val2 t2 days, isNil val2 = false -> ValueAsTimestamp val2 = Ok t2 ->
     Time.sec t2 = Time.sec t + days * 86400 ->
     Time.nsec t2 = Time.nsec t ->
     ValidateAndConvert (TimeOfDay c) val2 s
     = ValidateAndConvert (TimeOfDay c) val s).
Proof.
  intros Hnil Ht Hns Hsc.
  pose proof (nanosOfDay_range t Hns) as Hrange.
  set (sc := timeConverter.scale c) in *.
  assert (Hunit : 0 < 10 ^ (9 - sc)) by (apply Z.pow_pos_nonneg; lia).
  assert (Hpow : 10 ^ sc * 10 ^ (9 - sc) = 1000000000).
  { rewrite <- Z.pow_add_r by lia. replace (sc + (9 - sc)) with 9 by lia.
    reflexivity. }
  split.
  - intros Hroom.
    assert (Hconv : convert (TimeOfDay c) val
                    = Accepted (EInt (nanosOfDay t ÷ 10 ^ (9 - sc)))).
    { simpl. unfold convertTime. rewrite Ht. fold sc.
      rewrite (pow10Table_scale _ Hsc).
      rewrite (wrap64_id (nanosOfDay t))
        by (unfold GoInt.in_int64, GoInt.min_int64, GoInt.max_int64; lia).
      rewrite quot_in_int64;
        [reflexivity
        |unfold GoInt.in_int64, GoInt.min_int64, GoInt.max_int64; lia
        |assumption]. }
    destruct (accepted_run (TimeOfDay c) val s _ Hnil Hconv Hroom)
      as (s' & Hrun & Hst).
    exists (nanosOfDay t ÷ 10 ^ (9 - sc)), s'.
    split; [exact Hrun|]. split; [exact Hst|].
    rewrite Z.quot_div_nonneg by lia. split.
    + apply Z.div_pos; lia.
    + apply Z.div_lt_upper_bound; [assumption|]. nia.
  - intros val2 t2 days Hnil2 Ht2 Hsec Hnsec.
    apply run_congr; try assumption.
    simpl. unfold convertTime. rewrite Ht, Ht2.
    rewrite (nanosOfDay_congr t2 t); [reflexivity| |assumption].
    rewrite Hsec. apply Z.mod_add. lia.
Qed.

(** X8. A time-of-day column declared with a scale above 9 cannot convert
    anything: the table index [9 - scale] is negative, so every non-nil
    input that [ValueAsTimestamp] accepts makes the call panic, whatever
    room the buffer has; an input the coercion turns down still gets the
    coercion's error, and a nil input is handled as on any column. *)
Theorem time_of_day_scale_above_nine (c : timeConverter.t)
    (val : any) (s : state) :
  9 < timeConverter.scale c <= GoInt.max_int32 ->
  (forall t, isNil val = false -> ValueAsTimestamp val = Ok t ->
             ValidateAndConvert (TimeOfDay c) val s = Panic)
  /\
  (forall e, isNil val = false -> ValueAsTimestamp val = Err e ->
             ValidateAndConvert (TimeOfDay c) val s = Exit (Some e) s)
  /\
  (isNil val = true ->
   ValidateAndConvert (TimeOfDay c) val s
   = nullBranch (timeConverter.nullable c) s).
Proof.
  intros Hsc.
  assert (Hidx : index pow10TableInt64
                   (GoInt.wrap32 (9 - timeConverter.scale c)) = None).
  { rewrite wrap32_id
      by (unfold GoInt.in_int32, GoInt.min_int32, GoInt.max_int32 in *; lia).
    unfold index.
    destruct (Z.leb_spec 0 (9 - timeConverter.scale c)); [lia|reflexivity]. }
  split; [|split].
  - intros t Hnil Ht. apply crashed_run; [assumption|].
    simpl. unfold convertTime. rewrite Ht, Hidx. reflexivity.
  - intros e Hnil Ht. apply rejected_run; [assumption|].
    simpl. unfold convertTime. rewrite Ht. reflexivity.
  - intros Hnil. simpl. unfold timeConverter.ValidateAndConvert.
    rewrite Hnil. reflexivity.
Qed.
End TimeOfDayRange.

Lemma time_of_day_range_and_period_witness :
  let c := timeConverter.mk false 3 in
  let t := Reference.lastNano in
  let s := Reference.start 1 in
  exists v s',
    @ValidateAndConvert Reference.env (TimeOfDay c) (VTime t) s
    = Exit None s' /\
    stored s s' (EInt v) /\
    0 <= v < 86400 * 10 ^ 3.
Proof.
  intros c t s.
  destruct (@time_of_day_range_and_period Reference.env c (VTime t) t s
              eq_refl eq_refl) as [Hv _];
    [vm_compute; split; [discriminate|reflexivity]
    |vm_compute; split; discriminate|].
  apply Hv. unfold hasRoom. vm_compute. split; [discriminate|reflexivity].
Defined.

Lemma time_of_day_scale_above_nine_witness :
  let c := timeConverter.mk false 10 in
  @ValidateAndConvert Reference.env (TimeOfDay c) (VTime Reference.lastNano)
    (Reference.start 1) = Panic.
Proof.
  intros c.
  destruct (@time_of_day_scale_above_nine Reference.env c
              (VTime Reference.lastNano) (Reference.start 1)) as [Hp _];
    [vm_compute; split; [reflexivity|discriminate]|].
  exact (Hp Reference.lastNano eq_refl eq_refl).
Defined.

(** ** Boolean columns *)

Section BooleanColumn.
Context `{External}.

(** X9. The boolean converter.  An input [ValueAsBool] turns down is
    refused with the coercion's own error and nothing changes.  An accepted
    boolean is written as a boolean cell, whatever the kind of buffer, and
    enters the statistics as 1 for true and 0 for false: statistics that
    lay between 0 and 1 (or were fresh) still do after any call, and after
    a true the maximum is 1, after a false the minimum is 0. *)
Theorem boolean_statistics (c : boolConverter.t) (val : any)
    (s s' : state) (e : option error) :
  isNil val = false ->
  ValidateAndConvert (Bool c) val s = Exit e s' ->
  unitRange (stats s) ->
  unitRange (stats s') /\
  (forall err, ValueAsBool val = Err err -> e = Some err /\ s' = s) /\
  (forall b, ValueAsBool val = Ok b ->
     e = None /\
     stored s s' (EBool b) /\
     parquet.kind (cellOf (buf s) (EBool b)) = parquet.Boolean b /\
     (if b then maxIntVal (stats s') = 1 else minIntVal (stats s') = 0)).
Proof.
  intros Hnil Hcall Hrange.
  destruct (ValueAsBool val) as [b|err] eqn:Hb.
  - assert (Hconv : convert (Bool c) val = Accepted (EBool b))
      by (simpl; rewrite Hb; reflexivity).
    destruct e as [e|].
    { rewrite ValidateAndConvert_run in Hcall. unfold outcome in Hcall.
      rewrite Hnil, Hconv in Hcall.
      destruct (write (EBool b) (buf s)); discriminate. }
    destruct (success_inv _ _ _ _ Hnil Hcall) as (v & Hv & Hst).
    rewrite Hconv in Hv. injection Hv as <-.
    pose proof Hst as (Hstats & _).
    assert (Hfields :
      unitRange (stats s') /\
      (if b then maxIntVal (stats s') = 1 else minIntVal (stats s') = 0)).
    { rewrite Hstats. unfold unitRange. simpl. unfold observeInt.
      destruct (first (stats s)) eqn:Hf; simpl.
      - destruct b; simpl; unfold int128.FromUint64; split; try reflexivity;
          intros _; lia.
      - specialize (Hrange Hf).
        destruct b; simpl; unfold int128.FromUint64, int128.Min, int128.Max;
          split; try (intros _); lia. }
    destruct Hfields as [Hr Hend].
    split; [exact Hr|]. split; [discriminate|].
    intros b' [= <-]. split; [reflexivity|]. split; [exact Hst|].
    split; [destruct (buf s); reflexivity|exact Hend].
  - assert (Hconv : convert (Bool c) val = Rejected err)
      by (simpl; rewrite Hb; reflexivity).
    rewrite (rejected_run _ _ s _ Hnil Hconv) in Hcall.
    injection Hcall as <- <-.
    split; [exact Hrange|]. split; [|discriminate].
    intros err' [= <-]. split; reflexivity.
Qed.
End BooleanColumn.

Lemma boolean_statistics_witness :
  let c := boolConverter.mk false in
  let s := {| stats := freshStats; buf := int32Buffer (impl (Reference.column 1)) |} in
  exists s',
    @ValidateAndConvert Reference.env (Bool c) (VBool true) s = Exit None s' /\
    unitRange (stats s') /\ maxIntVal (stats s') = 1 /\
    parquet.kind (cellOf (buf s) (EBool true)) = parquet.Boolean true.
Proof.
  intros c s.
  destruct (@ValidateAndConvert Reference.env (Bool c) (VBool true) s)
    as [a s'|[e|] s'|] eqn:Hrun; try (vm_compute in Hrun; discriminate Hrun).
  destruct (@boolean_statistics Reference.env c (VBool true) s s' None
              eq_refl Hrun) as (Hr & _ & Hok).
  { unfold unitRange. discriminate. }
  destruct (Hok true eq_refl) as (_ & _ & Hk & Hmax).
  exists s'. split; [reflexivity|]. split; [exact Hr|].
  split; [exact Hmax|exact Hk].
Defined.

(** ** JSON columns *)

Section JSONColumns.
Context `{External}.

(** X10. The JSON converters.  The array column refuses every non-nil
    value that is not a [[]any], and the object column every non-nil value
    that is not a [map[string]any], before the value is encoded or
    measured, so no non-nil value is taken by both.  A value that passes,
    and any non-nil value on a plain JSON column, is encoded; an encoding
    longer than [maxLength] is refused with both lengths, and a shorter one
    is stored as it is, without a UTF-8 check.  A refusal changes nothing. *)
Theorem json_columns (j : jsonConverter.t) (val : any) (s : state) :
  isNil val = false ->
  let v := gabsBytes val in
  let plain := ValidateAndConvert (JSON j) val s in
  let asArray := ValidateAndConvert (JSONArray (jsonArrayConverter.mk j)) val s in
  let asObject :=
    ValidateAndConvert (JSONObject (jsonObjectConverter.mk j)) val s in
  (jsonConverter.maxLength j < GoInt.len v ->
   plain = Exit (Some (errValueTooLong (GoInt.len v) (jsonConverter.maxLength j))) s)
  /\
  (GoInt.len v <= jsonConverter.maxLength j -> hasRoom (impl (buf s)) ->
   exists s', plain = Exit None s' /\ stored s s' (EBytes v))
  /\
  (asArray = if jsonArrayConverter.isArray val then plain
             else Exit (Some errNotJSONArray) s)
  /\
  (asObject = if jsonObjectConverter.isObject val then plain
              else Exit (Some errNotJSONObject) s)
  /\
  (asArray = Exit (Some errNotJSONArray) s
   \/ asObject = Exit (Some errNotJSONObject) s).
Proof.
  intros Hnil v plain asArray asObject. subst plain asArray asObject.
  assert (Hlong : jsonConverter.maxLength j < GoInt.len v ->
    convert (JSON j) val
    = Rejected (errValueTooLong (GoInt.len v) (jsonConverter.maxLength j))).
  { intros Hl. simpl. unfold convertJSON. fold v.
    destruct (Z.ltb_spec (jsonConverter.maxLength j) (GoInt.len v));
      [reflexivity|lia]. }
  assert (Hfit : GoInt.len v <= jsonConverter.maxLength j ->
    convert (JSON j) val = Accepted (EBytes v)).
  { intros Hl. simpl. unfold convertJSON. fold v.
    destruct (Z.ltb_spec (jsonConverter.maxLength j) (GoInt.len v));
      [lia|reflexivity]. }
  assert (Harr :
    ValidateAndConvert (JSONArray (jsonArrayConverter.mk j)) val s
    = if jsonArrayConverter.isArray val
      then ValidateAndConvert (JSON j) val s
      else Exit (Some errNotJSONArray) s).
  { simpl. unfold jsonArrayConverter.ValidateAndConvert. rewrite Hnil. simpl.
    destruct (jsonArrayConverter.isArray val); reflexivity. }
  assert (Hobj :
    ValidateAndConvert (JSONObject (jsonObjectConverter.mk j)) val s
    = if jsonObjectConverter.isObject val
      then ValidateAndConvert (JSON j) val s
      else Exit (Some errNotJSONObject) s).
  { simpl. unfold jsonObjectConverter.ValidateAndConvert. rewrite Hnil. simpl.
    destruct (jsonObjectConverter.isObject val); reflexivity. }
  split; [intros Hl; apply rejected_run; auto|].
  split; [intros Hl Hroom; apply accepted_run; auto|].
  split; [exact Harr|]. split; [exact Hobj|].
  rewrite Harr, Hobj. destruct val; simpl; auto.
Qed.
End JSONColumns.

Lemma json_columns_witness :
  let j := jsonConverter.mk false 10 in
  let s := Reference.start 1 in
  @ValidateAndConvert Reference.env (JSONObject (jsonObjectConverter.mk j))
    (VArray []) s = Exit (Some errNotJSONObject) s /\
  exists s',
    @ValidateAndConvert Reference.env (JSONArray (jsonArrayConverter.mk j))
      (VArray []) s = Exit None s' /\
    stored s s' (EBytes (Bytes.of_string "[]")).
Proof.
  intros j s.
  destruct (@json_columns Reference.env j (VArray []) s eq_refl)
    as (_ & Hfit & Harr & Hobj & _).
  split; [exact Hobj|].
  destruct Hfit as (s' & Hrun & Hst).
  { vm_compute. discriminate. }
  { unfold hasRoom. vm_compute. split; [discriminate|reflexivity]. }
  exists s'. split; [|exact Hst]. rewrite <- Hrun. exact Harr.
Defined.

(** ** Timestamps that arrive parsed *)

Section TimestampGate.
Context `{External}.

(** X11. A non-nil input to the timestamp converter that is neither a
    string nor a byte sequence goes through [ValueAsTimestamp]: its error
    is returned as it is and nothing changes.  The time it yields, moved to
    UTC first when [trimTZ] is set, is encoded at the column's scale; the
    encoded number is stored when [FitsInPrecision] takes it, and
    otherwise the call returns the precision error carrying that time, the
    number and the precision, and nothing changes. *)
Theorem timestamp_precision_gate (c : timestampConverter.t)
    (val : any) (s : state) :
  isNil val = false -> isText val = false ->
  (forall err, ValueAsTimestamp val = Err err ->
     ValidateAndConvert (Timestamp c) val s = Exit (Some err) s)
  /\
  (forall t, ValueAsTimestamp val = Ok t ->
     let t' := if timestampConverter.trimTZ c then Time.toUTC t else t in
     let v := snowflakeTimestampInt t' (timestampConverter.scale c)
                (timestampConverter.includeTZ c) in
     (int128.FitsInPrecision v (timestampConverter.precision c) = true ->
      hasRoom (impl (buf s)) ->
      exists s', ValidateAndConvert (Timestamp c) val s = Exit None s'
                 /\ stored s s' (EInt v))
     /\
     (int128.FitsInPrecision v (timestampConverter.precision c) = false ->
      ValidateAndConvert (Timestamp c) val s
      = Exit (Some (errTimestampPrecision t' v
                      (timestampConverter.precision c))) s)).
Proof.
  intros Hnil Htext.
  assert (Hconv : convert (Timestamp c) val
                  = match ValueAsTimestamp val with
                    | Ok t => encodeTimestamp c t
                    | Err e => Rejected e
                    end).
  { destruct val; try discriminate Hnil; try discriminate Htext; reflexivity. }
  split.
  - intros err Herr. apply rejected_run; [assumption|].
    rewrite Hconv, Herr. reflexivity.
  - intros t Ht t' v. rewrite Ht in Hconv. unfold encodeTimestamp in Hconv.
    fold t' in Hconv. fold v in Hconv. split.
    + intros Hfit Hroom. apply accepted_run; [assumption| |assumption].
      rewrite Hconv, Hfit. reflexivity.
    + intros Hbig. apply rejected_run; [assumption|].
      rewrite Hconv, Hbig. reflexivity.
Qed.
End TimestampGate.

Lemma timestamp_precision_gate_witness :
  let c := timestampConverter.mk false 0 3 false true Time.UTC in
  let t := {| Time.sec := 86400; Time.nsec := 5;
              Time.loc := Time.FixedZone 3600 |} in
  let s := Reference.start 1 in
  @ValidateAndConvert Reference.env (Timestamp c) (VTime t) s
  = Exit (Some (errTimestampPrecision (Time.toUTC t) 86400 3)) s.
Proof.
  intros c t s.
  destruct (@timestamp_precision_gate Reference.env c (VTime t) s
              eq_refl eq_refl) as [_ Hok].
  destruct (Hok t eq_refl) as [_ Hbig].
  apply Hbig. reflexivity.
Defined.

Section TimestampText.
Context `{External}.

(** X12. A string or byte sequence that is not empty never reaches
    [ValueAsTimestamp]: the timestamp converter parses it itself in the
    column's default zone, the two kinds of text alike.  When the parse
    fails the call returns the parse error naming the text and nothing
    changes; when it succeeds the parsed time goes through the same
    move to UTC, encoding and precision gate as a time that arrived
    parsed. *)
Theorem timestamp_text_goes_to_parser (c : timestampConverter.t)
    (text : list byte) (s : state) :
  text <> [] ->
  let run := ValidateAndConvert (Timestamp c) (VString text) s in
  ValidateAndConvert (Timestamp c) (VBytes text) s = run
  /\
  (forall e, ParseInLocation text (timestampConverter.defaultTZ c) = Err e ->
     run = Exit (Some (errTimestampParse text)) s)
  /\
  (forall t, ParseInLocation text (timestampConverter.defaultTZ c) = Ok t ->
     let t' := if timestampConverter.trimTZ c then Time.toUTC t else t in
     let v := snowflakeTimestampInt t' (timestampConverter.scale c)
                (timestampConverter.includeTZ c) in
     (int128.FitsInPrecision v (timestampConverter.precision c) = true ->
      hasRoom (impl (buf s)) ->
      exists s', run = Exit None s' /\ stored s s' (EInt v))
     /\
     (int128.FitsInPrecision v (timestampConverter.precision c) = false ->
      run = Exit (Some (errTimestampPrecision t' v
                          (timestampConverter.precision c))) s)).
Proof.
  intros Hne run.
  assert (Hnon : timestampConverter.nonEmpty text = true)
    by (destruct text; [congruence|reflexivity]).
  assert (Hconv : convert (Timestamp c) (VString text)
                  = parseTimestamp c text)
    by (simpl; rewrite Hnon; reflexivity).
  split; [|split].
  - subst run. rewrite !ValidateAndConvert_run. reflexivity.
  - intros e He. subst run. apply rejected_run; [reflexivity|].
    rewrite Hconv. unfold parseTimestamp. rewrite He. reflexivity.
  - intros t Ht t' v. unfold parseTimestamp in Hconv. rewrite Ht in Hconv.
    unfold encodeTimestamp in Hconv. fold t' in Hconv. fold v in Hconv.
    subst run. split.
    + intros Hfit Hroom. apply accepted_run; [reflexivity| |assumption].
      rewrite Hconv, Hfit. reflexivity.
    + intros Hbig. apply rejected_run; [reflexivity|].
      rewrite Hconv, Hbig. reflexivity.
Qed.
End TimestampText.

Lemma timestamp_text_goes_to_parser_witness :
  let c := timestampConverter.mk false 0 18 false false Time.UTC in
  let text := Bytes.of_string "noon" in
  let s := Reference.start 1 in
  @ValidateAndConvert Reference.env (Timestamp c) (VBytes text) s
  = Exit (Some (errTimestampParse text)) s.
Proof.
  intros c text s.
  destruct (@timestamp_text_goes_to_parser Reference.env c text s)
    as (Hbytes & Herr & _); [discriminate|].
  rewrite Hbytes. exact (Herr (errForeign 4) eq_refl).
Defined.

(** ** Numbers of no native kind *)

Section NumberFallback.
Context `{External}.

(** X13. A non-nil input to the number converter that is of none of the
    kinds its type switch names goes through [ValueAsInt64]: the coercion's
    error is returned as it is, and the integer it yields is handed to
    [Rescale] with the column's precision and scale, whose number is
    stored and whose error is returned as it is.  A refusal changes
    nothing. *)
Theorem number_fallback (c : numberConverter.t) (val : any) (s : state) :
  isNil val = false ->
  numberPath c val = None ->
  (forall err, ValueAsInt64 val = Err err ->
     ValidateAndConvert (Number c) val s = Exit (Some err) s)
  /\
  (forall i, ValueAsInt64 val = Ok i ->
     let rescaled := int128.Rescale (int128.FromInt64 i)
                       (numberConverter.precision c)
                       (numberConverter.scale c) in
     (forall v, rescaled = Ok v -> hasRoom (impl (buf s)) ->
        exists s', ValidateAndConvert (Number c) val s = Exit None s'
                   /\ stored s s' (EInt v))
     /\
     (forall e, rescaled = Err e ->
        ValidateAndConvert (Number c) val s = Exit (Some e) s)).
Proof.
  intros Hnil Hpath.
  assert (Hconv : convert (Number c) val
                  = match ValueAsInt64 val with
                    | Ok i =>
                        accept EInt
                          (int128.Rescale (int128.FromInt64 i)
                             (numberConverter.precision c)
                             (numberConverter.scale c))
                    | Err e => Rejected e
                    end)
    by (simpl; unfold convertNumber; rewrite Hpath; reflexivity).
  split.
  - intros err Herr. apply rejected_run; [assumption|].
    rewrite Hconv, Herr. reflexivity.
  - intros i Hi rescaled. rewrite Hi in Hconv. fold rescaled in Hconv.
    split.
    + intros v Hv Hroom. apply accepted_run; [assumption| |assumption].
      rewrite Hconv, Hv. reflexivity.
    + intros e He. apply rejected_run; [assumption|].
      rewrite Hconv, He. reflexivity.
Qed.
End NumberFallback.

Lemma number_fallback_witness :
  let c := numberConverter.mk false 2 10 in
  let s := Reference.start 1 in
  @ValidateAndConvert Reference.env (Number c) (VBool true) s
  = Exit (Some (errForeign 1)) s.
Proof.
  intros c s.
  destruct (@number_fallback Reference.env c (VBool true) s eq_refl eq_refl)
    as [Herr _].
  exact (Herr (errForeign 1) eq_refl).
Defined.

(* ===================================================================== *)
(** * The flags of the Redpanda connection *)
(* ===================================================================== *)

Lemma cli_equal_spec (a b : list byte) : cli.equal a b = true <-> a = b.
Proof.
  revert b. induction a as [|x a IH]; intros [|y b]; simpl;
    try (split; [discriminate|congruence]); [tauto|].
  rewrite andb_true_iff, IH. split.
  - intros [Hxy ->]. apply Byte.byte_dec_bl in Hxy. congruence.
  - intros [= -> ->]. split; [apply Byte.byte_dec_lb|]; reflexivity.
Qed.

Lemma cli_equal_false (a b : list byte) : a <> b -> cli.equal a b = false.
Proof.
  intros Hne. destruct (cli.equal a b) eqn:E; [|reflexivity].
  apply cli_equal_spec in E. contradiction.
Qed.

Lemma cli_nonEmpty_true (s : list byte) : s <> [] -> cli.nonEmpty s = true.
Proof. destruct s; [congruence|reflexivity]. Qed.

Ltac agreed H :=
  unfold cli.agreeOn in H;
  repeat match type of H with
         | Forall _ (_ :: _) =>
             let Hx := fresh "Hflag" in
             apply Forall_cons in H as [Hx H]
         end;
  clear H.

Section Flags.
Variable ReadFile : list byte -> list byte + cli.error.
Variable ToLower : list byte -> list byte.

(** X14. [parseRedpandaFlags] depends on the command line only through
    the ten flags [redpandaFlags] declares, each looked up as the kind it
    is declared with: two contexts that agree on those flags parse to the
    same result, whatever else they hold. *)
Theorem parse_reads_declared_flags (c1 c2 : cli.Context) :
  cli.agreeOn cli.redpandaFlags c1 c2 ->
  cli.parseRedpandaFlags ReadFile ToLower c1
  = cli.parseRedpandaFlags ReadFile ToLower c2.
Proof.
  intros H. unfold cli.redpandaFlags in H. agreed H.
  unfold cli.parseRedpandaFlags. cbn [cli.TLSEnabled].
  repeat match goal with Hx : _ = _ |- _ => rewrite Hx; clear Hx end.
  reflexivity.
Qed.

(** X15. With the TLS flag off the connection carries no TLS
    configuration, the file system is not consulted, and the skip-verify
    and root-CA flags have no effect: any file system, and any context
    that agrees on the other eight flags, gives the same result. *)
Theorem tls_off_ignores_tls_flags (c : cli.Context) :
  cli.Bool c cli.rfTLSEnabled = false ->
  cli.TLSConf (cli.connDetails (cli.parseRedpandaFlags ReadFile ToLower c))
  = None
  /\
  forall (ReadFile' : list byte -> list byte + cli.error) (c' : cli.Context),
    cli.agreeOn
      (cli.without [cli.rfTLSSkipCertVerify; cli.rfTLSRootCasFile]
         cli.redpandaFlags) c c' ->
    cli.parseRedpandaFlags ReadFile' ToLower c'
    = cli.parseRedpandaFlags ReadFile ToLower c.
Proof.
  intros Hoff. split.
  - unfold cli.parseRedpandaFlags. cbn [cli.TLSEnabled]. rewrite Hoff.
    destruct (cli.nonEmpty _); [|reflexivity].
    destruct (cli.equal _ _); [reflexivity|].
    destruct (cli.equal _ _); reflexivity.
  - intros ReadFile' c' H.
    assert (Hlist :
      cli.without [cli.rfTLSSkipCertVerify; cli.rfTLSRootCasFile]
        cli.redpandaFlags
      = [ cli.StringFlag cli.rfPipelineID true [];
          cli.StringFlag cli.rfLogsTopic true [];
          cli.StringFlag cli.rfStatusTopic true [];
          cli.StringSliceFlag cli.rfBrokers true [];
          cli.BoolFlag cli.rfTLSEnabled true false;
          cli.StringFlag cli.rfSASLMechanism true [];
          cli.StringFlag cli.rfSASLUsername true [];
          cli.StringFlag cli.rfSASLPassword true [] ]) by reflexivity.
    rewrite Hlist in H. agreed H.
    unfold cli.parseRedpandaFlags. cbn [cli.TLSEnabled].
    rewrite <- Hflag3, Hoff.
    repeat match goal with Hx : _ = _ |- _ => rewrite <- Hx; clear Hx end.
    reflexivity.
Qed.

(** X16. With the TLS flag on and a root-CA file named that cannot be
    read, the error of [os.ReadFile] is returned as it is.  The SASL flags
    are not examined, so no mechanism is added and an unsupported one is
    not reported; the skip-verify flag is not applied either: the
    connection keeps a TLS configuration with the minimum version alone.
    The identifiers and brokers are returned all the same. *)
Theorem root_ca_read_failure (c : cli.Context) (e : cli.error) :
  cli.Bool c cli.rfTLSEnabled = true ->
  cli.String c cli.rfTLSRootCasFile <> [] ->
  ReadFile (cli.String c cli.rfTLSRootCasFile) = inr e ->
  let r := cli.parseRedpandaFlags ReadFile ToLower c in
  cli.err r = Some e
  /\ cli.SASL (cli.connDetails r) = []
  /\ cli.TLSConf (cli.connDetails r)
     = Some {| cli.MinVersion := cli.VersionTLS12; cli.RootCAs := None;
               cli.InsecureSkipVerify := false |}
  /\ cli.pipelineID r = cli.String c cli.rfPipelineID
  /\ cli.logsTopic r = cli.String c cli.rfLogsTopic
  /\ cli.statusTopic r = cli.String c cli.rfStatusTopic
  /\ cli.SeedBrokers (cli.connDetails r) = cli.StringSlice c cli.rfBrokers.
Proof.
  intros Hon Hfile Hread r. subst r.
  unfold cli.parseRedpandaFlags. cbn [cli.TLSEnabled].
  rewrite Hon, (cli_nonEmpty_true _ Hfile), Hread.
  repeat split.
Qed.

(** X17. With the TLS flag on and the root-CA file, if one is named,
    readable, the connection carries a TLS configuration of minimum
    version TLS 1.2 whose skip-verify setting is the flag's; its root pool
    is absent when no file is named and otherwise a new pool with the
    file's content appended.  This holds whether or not the SASL flags
    then make the call fail. *)
Theorem tls_on_configuration (c : cli.Context) :
  cli.Bool c cli.rfTLSEnabled = true ->
  let conf := cli.TLSConf
                (cli.connDetails (cli.parseRedpandaFlags ReadFile ToLower c)) in
  (cli.String c cli.rfTLSRootCasFile = [] ->
   conf = Some {| cli.MinVersion := 771; cli.RootCAs := None;
                  cli.InsecureSkipVerify :=
                    cli.Bool c cli.rfTLSSkipCertVerify |})
  /\
  (forall caCert,
     cli.String c cli.rfTLSRootCasFile <> [] ->
     ReadFile (cli.String c cli.rfTLSRootCasFile) = inl caCert ->
     conf = Some {| cli.MinVersion := 771; cli.RootCAs := Some [caCert];
                    cli.InsecureSkipVerify :=
                      cli.Bool c cli.rfTLSSkipCertVerify |}).
Proof.
  intros Hon conf. subst conf.
  unfold cli.parseRedpandaFlags. cbn [cli.TLSEnabled]. rewrite Hon.
  split.
  - intros ->. cbn [cli.nonEmpty].
    destruct (cli.Bool c cli.rfTLSSkipCertVerify);
      destruct (cli.nonEmpty _); try reflexivity;
      destruct (cli.equal _ _); try reflexivity;
      destruct (cli.equal _ _); reflexivity.
  - intros caCert Hfile Hread.
    rewrite (cli_nonEmpty_true _ Hfile), Hread.
    destruct (cli.Bool c cli.rfTLSSkipCertVerify);
      destruct (cli.nonEmpty _); try reflexivity;
      destruct (cli.equal _ _); try reflexivity;
      destruct (cli.equal _ _); reflexivity.
Qed.

(** X18. When the TLS block does not fail, the SASL mechanism flag
    decides the outcome.  Empty, no mechanism is added and the user and
    password flags are not used.  Otherwise it is compared in lower case:
    scram-sha-256 and scram-sha-512 each add the one mechanism of that
    kind with the user and password flags as credentials, and anything
    else is refused with an error that quotes the flag as it was given,
    no mechanism added. *)
Theorem sasl_mechanism_choice (c : cli.Context) :
  (cli.Bool c cli.rfTLSEnabled = true ->
   cli.String c cli.rfTLSRootCasFile <> [] ->
   exists caCert, ReadFile (cli.String c cli.rfTLSRootCasFile) = inl caCert) ->
  let r := cli.parseRedpandaFlags ReadFile ToLower c in
  let mech := cli.String c cli.rfSASLMechanism in
  let auth := {| cli.User := cli.String c cli.rfSASLUsername;
                 cli.Pass := cli.String c cli.rfSASLPassword |} in
  (mech = [] -> cli.err r = None /\ cli.SASL (cli.connDetails r) = [])
  /\
  (mech <> [] -> ToLower mech = Bytes.of_string "scram-sha-256" ->
   cli.err r = None /\ cli.SASL (cli.connDetails r) = [cli.Sha256 auth])
  /\
  (mech <> [] -> ToLower mech = Bytes.of_string "scram-sha-512" ->
   cli.err r = None /\ cli.SASL (cli.connDetails r) = [cli.Sha512 auth])
  /\
  (mech <> [] -> ToLower mech <> Bytes.of_string "scram-sha-256" ->
   ToLower mech <> Bytes.of_string "scram-sha-512" ->
   cli.err r
   = Some (cli.Errorf (Bytes.of_string "unsupported sasl mechanism: "
                       ++ mech))
   /\ cli.SASL (cli.connDetails r) = []).
Proof.
  intros Hread r mech auth.
  subst r. unfold cli.parseRedpandaFlags. cbn [cli.TLSEnabled].
  fold mech. fold auth.
  destruct (cli.Bool c cli.rfTLSEnabled) eqn:Hon.
  - destruct (cli.String c cli.rfTLSRootCasFile) as [|b file] eqn:Hfile.
    + cbn [cli.nonEmpty].
      repeat split; intros;
        repeat match goal with
               | Hm : mech = [] |- _ => rewrite Hm
               | Hm : mech <> [] |- _ =>
                   rewrite (cli_nonEmpty_true _ Hm); clear Hm
               | Hm : ToLower mech = _ |- _ => rewrite Hm
               | Hm : ToLower mech <> _ |- _ =>
                   rewrite (cli_equal_false _ _ Hm); clear Hm
               end; reflexivity.
    + destruct (Hread eq_refl ltac:(discriminate)) as [caCert Hok].
      cbn [cli.nonEmpty]. rewrite Hok.
      repeat split; intros;
        repeat match goal with
               | Hm : mech = [] |- _ => rewrite Hm
               | Hm : mech <> [] |- _ =>
                   rewrite (cli_nonEmpty_true _ Hm); clear Hm
               | Hm : ToLower mech = _ |- _ => rewrite Hm
               | Hm : ToLower mech <> _ |- _ =>
                   rewrite (cli_equal_false _ _ Hm); clear Hm
               end; reflexivity.
  - repeat split; intros;
      repeat match goal with
             | Hm : mech = [] |- _ => rewrite Hm
             | Hm : mech <> [] |- _ =>
                 rewrite (cli_nonEmpty_true _ Hm); clear Hm
             | Hm : ToLower mech = _ |- _ => rewrite Hm
             | Hm : ToLower mech <> _ |- _ =>
                 rewrite (cli_equal_false _ _ Hm); clear Hm
             end; reflexivity.
Qed.

(** X19. What every result of [parseRedpandaFlags] satisfies, a failed
    one included: the three identifiers and the brokers are the flags'
    values, the client is named rpcn with a metadata age of five minutes,
    a TLS configuration is present exactly when the TLS flag is on and
    then asks for TLS 1.2 at least, verification is skipped only if the
    skip-verify flag is on, at most one SASL mechanism is set, and none is
    together with an error. *)
Theorem connection_invariants (c : cli.Context) :
  let r := cli.parseRedpandaFlags ReadFile ToLower c in
  let d := cli.connDetails r in
  cli.pipelineID r = cli.String c cli.rfPipelineID
  /\ cli.logsTopic r = cli.String c cli.rfLogsTopic
  /\ cli.statusTopic r = cli.String c cli.rfStatusTopic
  /\ cli.ClientID d = Bytes.of_string "rpcn"
  /\ cli.MetaMaxAge d = 300000000000
  /\ cli.SeedBrokers d = cli.StringSlice c cli.rfBrokers
  /\ cli.TLSEnabled d = cli.Bool c cli.rfTLSEnabled
  /\ (cli.TLSConf d = None <-> cli.TLSEnabled d = false)
  /\ (forall conf, cli.TLSConf d = Some conf ->
        cli.MinVersion conf = cli.VersionTLS12 /\
        (cli.InsecureSkipVerify conf = true ->
         cli.Bool c cli.rfTLSSkipCertVerify = true))
  /\ (length (cli.SASL d) <= 1)%nat
  /\ (cli.err r <> None -> cli.SASL d = []).
Proof.
  intros r d. subst d r.
  unfold cli.parseRedpandaFlags. cbn [cli.TLSEnabled].
  repeat match goal with
         | |- context [match ReadFile ?x with _ => _ end] =>
             destruct (ReadFile x)
         | |- context [if ?b then _ else _] => destruct b eqn:?
         end;
    cbn;
    repeat match goal with
           | |- _ /\ _ => split
           | |- _ <-> _ => split
           end;
    try reflexivity; try discriminate; try (cbn; lia);
    try (intros conf [= <-]; split; [reflexivity|cbn; congruence]);
    try (intros Hc; exfalso; apply Hc; reflexivity).
Qed.
End Flags.

Lemma parse_reads_declared_flags_witness :
  let strings :=
    [ (cli.rfPipelineID, Bytes.of_string "p1");
      (cli.rfSASLMechanism, Bytes.of_string "SCRAM-SHA-256");
      (cli.rfSASLUsername, Bytes.of_string "ann") ] in
  let slices := [ (cli.rfBrokers, [Bytes.of_string "b0:9092"]) ] in
  let c1 := cli.context strings slices [] in
  let c2 := cli.context
              ((Bytes.of_string "redpanda-license", Bytes.of_string "key")
               :: strings)
              ((Bytes.of_string "secrets", [Bytes.of_string "none:"])
               :: slices)
              [ (Bytes.of_string "watcher", true) ] in
  let fs := cli.oneFile (Bytes.of_string "ca.pem") (Bytes.of_string "PEM") in
  cli.parseRedpandaFlags fs cli.lowerASCII c1
  = cli.parseRedpandaFlags fs cli.lowerASCII c2.
Proof.
  intros strings slices c1 c2 fs.
  apply (parse_reads_declared_flags fs cli.lowerASCII c1 c2).
  repeat constructor.
Defined.

Lemma tls_off_ignores_tls_flags_witness :
  let c := cli.context
             [ (cli.rfTLSRootCasFile, Bytes.of_string "missing.pem");
               (cli.rfLogsTopic, Bytes.of_string "logs") ]
             [] [ (cli.rfTLSSkipCertVerify, true) ] in
  let c' := cli.context [ (cli.rfLogsTopic, Bytes.of_string "logs") ] [] [] in
  let fs := cli.oneFile (Bytes.of_string "ca.pem") (Bytes.of_string "PEM") in
  let fs' := fun _ : list byte => inr (cli.osError 13) in
  cli.TLSConf (cli.connDetails (cli.parseRedpandaFlags fs cli.lowerASCII c))
  = None
  /\ cli.parseRedpandaFlags fs' cli.lowerASCII c'
     = cli.parseRedpandaFlags fs cli.lowerASCII c.
Proof.
  intros c c' fs fs'.
  destruct (tls_off_ignores_tls_flags fs cli.lowerASCII c eq_refl)
    as [Hnone Hsame].
  split; [exact Hnone|].
  apply Hsame. repeat constructor.
Defined.

Lemma root_ca_read_failure_witness :
  let c := cli.context
             [ (cli.rfTLSRootCasFile, Bytes.of_string "missing.pem");
               (cli.rfSASLMechanism, Bytes.of_string "plain") ]
             []
             [ (cli.rfTLSEnabled, true); (cli.rfTLSSkipCertVerify, true) ] in
  let fs := cli.oneFile (Bytes.of_string "ca.pem") (Bytes.of_string "PEM") in
  let r := cli.parseRedpandaFlags fs cli.lowerASCII c in
  cli.err r = Some (cli.osError 2)
  /\ cli.SASL (cli.connDetails r) = []
  /\ cli.TLSConf (cli.connDetails r)
     = Some {| cli.MinVersion := cli.VersionTLS12; cli.RootCAs := None;
               cli.InsecureSkipVerify := false |}.
Proof.
  intros c fs r.
  destruct (root_ca_read_failure fs cli.lowerASCII c (cli.osError 2)
              eq_refl ltac:(discriminate) eq_refl)
    as (Herr & Hsasl & Hconf & _).
  exact (conj Herr (conj Hsasl Hconf)).
Defined.

Lemma tls_on_configuration_witness :
  let c := cli.context
             [ (cli.rfTLSRootCasFile, Bytes.of_string "ca.pem");
               (cli.rfSASLMechanism, Bytes.of_string "plain") ]
             []
             [ (cli.rfTLSEnabled, true); (cli.rfTLSSkipCertVerify, true) ] in
  let fs := cli.oneFile (Bytes.of_string "ca.pem") (Bytes.of_string "PEM") in
  cli.TLSConf (cli.connDetails (cli.parseRedpandaFlags fs cli.lowerASCII c))
  = Some {| cli.MinVersion := 771;
            cli.RootCAs := Some [Bytes.of_string "PEM"];
            cli.InsecureSkipVerify := true |}.
Proof.
  intros c fs.
  destruct (tls_on_configuration fs cli.lowerASCII c eq_refl) as [_ Hfile].
  exact (Hfile (Bytes.of_string "PEM") ltac:(discriminate) eq_refl).
Defined.

Lemma sasl_mechanism_choice_witness :
  let c := cli.context
             [ (cli.rfSASLMechanism, Bytes.of_string "Scram-SHA-512");
               (cli.rfSASLUsername, Bytes.of_string "ann");
               (cli.rfSASLPassword, Bytes.of_string "pw") ]
             [] [] in
  let fs := cli.oneFile (Bytes.of_string "ca.pem") (Bytes.of_string "PEM") in
  let r := cli.parseRedpandaFlags fs cli.lowerASCII c in
  cli.err r = None
  /\ cli.SASL (cli.connDetails r)
     = [ cli.Sha512 {| cli.User := Bytes.of_string "ann";
                       cli.Pass := Bytes.of_string "pw" |} ].
Proof.
  intros c fs r.
  destruct (sasl_mechanism_choice fs cli.lowerASCII c) as (_ & _ & H512 & _).
  - intros Hon. discriminate Hon.
  - exact (H512 ltac:(discriminate) eq_refl).
Defined.
